(** * The PlanetScale driver adapter core of TypeORM, embedded in Rocq

    The development follows the TypeScript sources of the driver
    ([PlanetScaleDriver], [NumberUtils]).  JavaScript values are modelled
    by the inductive type [JS.value]; a JavaScript [number] is an IEEE-754
    binary64 float, for which the standard library's [SpecFloat] gives an
    executable specification. *)

From Stdlib Require Import ZArith List Bool Lia String Ascii.
From Stdlib Require Import Strings.Byte.
From Stdlib Require Import Floats.SpecFloat Floats.PrimFloat Floats.FloatOps.
From Stdlib Require Uint63.
Import ListNotations.
Local Open Scope Z_scope.
Set Warnings "-register-all".

(** ** JavaScript data *)

Module JS.

(** A [number] is a binary64 float: 53 bits of precision, exponents below
    1024, rounding to nearest, ties to even. *)
Definition number : Type := spec_float.

Definition prec : Z := 53.
Definition emax : Z := 1024.

(** The number denoted by an integer numeral (the nearest double). *)
Definition of_Z (z : Z) : number := binary_normalize prec emax z 0 false.

Definition NaN : number := S754_nan.

(** [a + b] and [a * b] on numbers. *)
Definition add (a b : number) : number := SFadd prec emax a b.
Definition mul (a b : number) : number := SFmul prec emax a b.

(** [Math.pow(2, n)] for an integer [n >= 0]: exact up to [n = 1023],
    [Infinity] from 1024 on. *)
Definition pow2 (n : Z) : number := binary_normalize prec emax 1 n false.

Definition is_nan (a : number) : bool :=
  match a with S754_nan => true | _ => false end.

(** [a === b] on numbers: [NaN] differs from itself, [+0] equals [-0]. *)
Definition num_eqb (a b : number) : bool := SFeqb a b.

(** The mathematical value of a number, when it is an integer. *)
Definition exact_Z (a : number) : option Z :=
  match a with
  | S754_zero _ => Some 0
  | S754_finite s m e =>
      let mag :=
        if 0 <=? e then Some (Z.pos m * 2 ^ e)
        else if Z.pos m mod 2 ^ (- e) =? 0 then Some (Z.pos m / 2 ^ (- e))
        else None in
      option_map (fun v => if s then - v else v) mag
  | _ => None
  end.

(** A string is a sequence of UTF-16 code units. *)
Definition jsstring : Type := list Z.

Definition code_of_ascii (a : ascii) : Z := Z.of_N (N_of_ascii a).

(** The JavaScript string of an ASCII literal. *)
Definition str (s : string) : jsstring :=
  List.map code_of_ascii (list_ascii_of_string s).

Fixpoint jsstring_eqb (a b : jsstring) : bool :=
  match a, b with
  | [], [] => true
  | x :: a', y :: b' => (x =? y) && jsstring_eqb a' b'
  | _, _ => false
  end.

Definition byte_to_Z (b : byte) : Z := Z.of_N (Byte.to_N b).

(** Values.  A function value is a zero-argument callback, modelled by the
    value it returns; a [Date] carries its time value. *)
Inductive value : Type :=
| VUndefined
| VNull
| VBool (b : bool)
| VNum (n : number)
| VStr (s : jsstring)
| VBuffer (bytes : list byte)
| VDate (t : number)
| VArray (elems : list value)
| VObject (props : list (jsstring * value))
| VFun (ret : value).

(** *** Outcomes

    A call either returns or throws. *)
Inductive outcome (A : Type) : Type :=
| Ret (a : A)
| Throw (msg : string).

Arguments Ret {A} a.
Arguments Throw {A} msg.

Definition bind {A B : Type} (m : outcome A) (k : A -> outcome B) : outcome B :=
  match m with
  | Ret a => k a
  | Throw msg => Throw msg
  end.

Notation "x <- m ;; k" := (bind m (fun x => k))
  (at level 61, m at next level, right associativity).

(** *** Strings *)

Fixpoint join (sep : jsstring) (parts : list jsstring) : jsstring :=
  match parts with
  | [] => []
  | [p] => p
  | p :: rest => p ++ sep ++ join sep rest
  end.

(** [s.split(sep)] for a separator of one code unit. *)
Fixpoint split_on (sep : Z) (s : jsstring) : list jsstring :=
  match s with
  | [] => [[]]
  | c :: rest =>
      if c =? sep then [] :: split_on sep rest
      else match split_on sep rest with
           | [] => [[c]]
           | part :: parts => (c :: part) :: parts
           end
  end.

(** *** Property access on object literals *)

Fixpoint get_own (props : list (jsstring * value)) (key : jsstring)
  : option value :=
  match props with
  | [] => None
  | (k, v) :: rest => if jsstring_eqb k key then Some v else get_own rest key
  end.

(** [Object.keys(o)] and the values in that order; the property list of a
    [VObject] is kept in the order [Object.keys] enumerates it. *)
Definition keys (props : list (jsstring * value)) : list jsstring :=
  List.map fst props.

(** *** Conversions *)

(** [typeof v === "string"], [typeof v === "function"]. *)
Definition is_string (v : value) : bool :=
  match v with VStr _ => true | _ => false end.


(** [ToBoolean]: the truthiness of a value. *)
Definition truthy (v : value) : bool :=
  match v with
  | VUndefined | VNull => false
  | VBool b => b
  | VNum n =>
      match n with
      | S754_zero _ | S754_nan => false
      | _ => true
      end
  | VStr s => match s with [] => false | _ => true end
  | _ => true
  end.

(** What the language leaves to the engine and to the objects themselves:
    printing a number ([toString], [toFixed]), reading a numeric literal
    ([StringToNumber]), Unicode upper-casing, converting an object
    ([Date], [Buffer], object literal, function) to a string or to a
    number, and [JSON]. *)
Class Engine : Type := {
  NumberToString : number -> jsstring;
  NumberToFixed : number -> option Z -> outcome jsstring;
  StringToNumber : jsstring -> number;
  StringToUpperCase : jsstring -> jsstring;
  ObjectToString : value -> jsstring;
  ObjectToNumber : value -> number;
  JSON_stringify : value -> outcome value;
  JSON_parse : jsstring -> outcome value
}.

Section Conversions.
Context {engine : Engine}.

(** [ToString]; an array prints its elements joined by commas, with
    [null] and [undefined] elements printed as nothing. *)
Fixpoint ToString (v : value) : jsstring :=
  match v with
  | VUndefined => str "undefined"
  | VNull => str "null"
  | VBool true => str "true"
  | VBool false => str "false"
  | VNum n => NumberToString n
  | VStr s => s
  | VArray elems =>
      join (str ",")
        (List.map (fun e => match e with
                            | VUndefined | VNull => []
                            | _ => ToString e
                            end) elems)
  | _ => ObjectToString v
  end.

(** [ToNumber], the unary [+]. *)
Definition ToNumber (v : value) : number :=
  match v with
  | VUndefined => NaN
  | VNull => of_Z 0
  | VBool true => of_Z 1
  | VBool false => of_Z 0
  | VNum n => n
  | VStr s => StringToNumber s
  | VArray _ => StringToNumber (ToString v)
  | _ => ObjectToNumber v
  end.

(** The global [isNaN(v)]. *)
Definition isNaN (v : value) : bool := is_nan (ToNumber v).

End Conversions.

(** *** Decimal numerals *)

Definition digit_code (d : Z) : Z := 48 + d.

(** The digits of [n >= 0], most significant first; [fuel] bounds the
    number of digits. *)
Fixpoint decimal_digits (fuel : nat) (n : Z) (acc : jsstring) : jsstring :=
  match fuel with
  | O => acc
  | S fuel' =>
      if n <? 10 then digit_code n :: acc
      else decimal_digits fuel' (n / 10) (digit_code (n mod 10) :: acc)
  end.

(** The decimal numeral of an integer. *)
Definition decimal (z : Z) : jsstring :=
  let digits := decimal_digits (S (Z.to_nat (Z.log2 (Z.abs z)))) (Z.abs z) [] in
  if z <? 0 then 45 :: digits else digits.

(** *** parseInt *)

(** White space and line terminators skipped by [parseInt]. *)
Definition is_whitespace (c : Z) : bool :=
  (c =? 9) || (c =? 10) || (c =? 11) || (c =? 12) || (c =? 13) || (c =? 32)
  || (c =? 160) || (c =? 5760) || ((8192 <=? c) && (c <=? 8202))
  || (c =? 8232) || (c =? 8233) || (c =? 8239) || (c =? 8287)
  || (c =? 12288) || (c =? 65279).

Fixpoint skip_whitespace (s : jsstring) : jsstring :=
  match s with
  | c :: rest => if is_whitespace c then skip_whitespace rest else s
  | [] => []
  end.

(** The value of a code unit as a digit of the given radix (10 or 16). *)
Definition digit_value (radix c : Z) : option Z :=
  if (48 <=? c) && (c <=? 57) then Some (c - 48)
  else if (radix =? 16) && (97 <=? c) && (c <=? 102) then Some (c - 87)
  else if (radix =? 16) && (65 <=? c) && (c <=? 70) then Some (c - 55)
  else None.

(** The longest prefix of digits, read from the left: the number of digits
    read and their value. *)
Fixpoint read_digits (radix : Z) (s : jsstring) (count : nat) (acc : Z)
  : nat * Z :=
  match s with
  | c :: rest =>
      match digit_value radix c with
      | Some d => read_digits radix rest (S count) (acc * radix + d)
      | None => (count, acc)
      end
  | [] => (count, acc)
  end.

(** [parseInt(s)] on a string, without a radix argument: leading white
    space, a sign, a [0x] prefix selecting radix 16, then digits; [NaN]
    when there is no digit. *)
Definition parseInt_string (s : jsstring) : number :=
  let s1 := skip_whitespace s in
  let negative :=
    match s1 with
    | c :: _ => c =? 45
    | [] => false
    end in
  let s2 :=
    match s1 with
    | c :: rest => if (c =? 45) || (c =? 43) then rest else s1
    | [] => []
    end in
  let hex :=
    match s2 with
    | c0 :: c1 :: _ => (c0 =? 48) && ((c1 =? 120) || (c1 =? 88))
    | _ => false
    end in
  let radix := if hex then 16 else 10 in
  let s3 := if hex then skipn 2 s2 else s2 in
  match read_digits radix s3 O 0 with
  | (O, _) => NaN
  | (_, mathInt) =>
      if mathInt =? 0 then S754_zero negative
      else of_Z (if negative then - mathInt else mathInt)
  end.

(** [parseInt(v)]: the argument is converted to a string first. *)
Definition parseInt {engine : Engine} (v : value) : number :=
  parseInt_string (ToString v).

End JS.

Import JS.

(** ** NumberUtils *)

Module NumberUtils.

(** The loop body shared by both branches: [codes] are the bytes still to
    be read, so that [length rest] is [bit.length - 1 - i]. *)
Fixpoint accumulate (codes : list Z) (value : number) : number :=
  match codes with
  | [] => value
  | code :: rest =>
      accumulate rest
        (add value (mul (of_Z code) (pow2 (8 * Z.of_nat (List.length rest)))))
  end.

(** [numberFromBitString]: a [Buffer] is read byte by byte with
    [readUint8], a string character by character with
    [charCodeAt(i) & 255]; any other input is reported with
    [console.warn] and decodes to [0]. *)
Definition numberFromBitString (bit : value) : number :=
  match bit with
  | VBuffer bytes => accumulate (List.map byte_to_Z bytes) (of_Z 0)
  | VStr stringVal =>
      accumulate (List.map (fun c => Z.land c 255) stringVal) (of_Z 0)
  | _ => of_Z 0
  end.

End NumberUtils.

(** The version of the function in [src/util/NumberUtils.ts], which has
    only the string loop and reads it over [bit.toString()].  The method
    call throws on [null] and [undefined]; on any other value it gives
    what [ToString] gives: the numeral of a number, the elements of an
    array joined by commas, and for a [Buffer] the text its bytes decode
    to, which is left to the engine. *)
Module NumberUtilsTs.

Definition numberFromBitString {engine : Engine} (bit : value) : outcome number :=
  match bit with
  | VUndefined | VNull =>
      Throw "TypeError: Cannot read properties of undefined (reading 'toString')"
  | _ =>
      let stringVal := ToString bit in
      Ret (NumberUtils.accumulate
             (List.map (fun c => Z.land c 255) stringVal) (of_Z 0))
  end.

End NumberUtilsTs.

(** The same loop on the primitive floats of the kernel, which are the
    binary64 numbers of the hardware; it is used to check the
    specification-level arithmetic above on concrete inputs. *)
Module Hardware.

Definition of_Z (z : Z) : float := PrimFloat.of_uint63 (Uint63.of_Z z).

Definition pow2 (n : Z) : float := FloatOps.Z.ldexp PrimFloat.one n.

Fixpoint accumulate (codes : list Z) (value : float) : float :=
  match codes with
  | [] => value
  | code :: rest =>
      accumulate rest
        (PrimFloat.add value
           (PrimFloat.mul (of_Z code) (pow2 (8 * Z.of_nat (List.length rest)))))
  end.

End Hardware.


(** ** The column model *)

(** A column type is one of the constructors [Boolean], [Number],
    [String], [Date], [Buffer], or a type name. *)
Inductive ColumnType : Type :=
| TBoolean
| TNumber
| TString
| TDate
| TBuffer
| TName (name : jsstring).

(** [column.type === "name"]. *)
Definition type_is (t : ColumnType) (name : string) : bool :=
  match t with
  | TName n => jsstring_eqb n (str name)
  | _ => false
  end.

Inductive GenerationStrategy : Type :=
| increment
| uuid
| rowid
| identity.

(** A field of type [number | null | undefined]. *)
Inductive optnum : Type :=
| NumUndefined
| NumNull
| Num (z : Z).

Definition optnum_eqb (a b : optnum) : bool :=
  match a, b with
  | NumUndefined, NumUndefined => true
  | NumNull, NumNull => true
  | Num x, Num y => x =? y
  | _, _ => false
  end.

(** [a === b] on fields of type [T | undefined]. *)
Definition option_eqb {A : Type} (eqb : A -> A -> bool) (a b : option A)
  : bool :=
  match a, b with
  | None, None => true
  | Some x, Some y => eqb x y
  | _, _ => false
  end.

(** A value transformer: the functions [to] (application to persisted) and
    [from] (persisted to application). *)
Record ValueTransformer : Type := {
  to : value -> outcome value;
  from : value -> outcome value
}.

(** A unique or plain index over columns; a column is referred to by the
    identity [ref] of its metadata object. *)
Record IndexMetadata : Type := {
  idx_isUnique : bool;
  idx_columns : list nat
}.

Module ColumnMetadata.
Record t : Type := {
  ref : nat;
  databaseName : jsstring;
  propertyName : jsstring;
  type : ColumnType;
  length : jsstring;
  width : option Z;
  precision : optnum;
  scale : option Z;
  zerofill : bool;
  unsigned : bool;
  asExpression : option jsstring;
  generatedType : option jsstring;
  comment : option jsstring;
  default : value;
  enum : option (list value);
  onUpdate : option jsstring;
  isPrimary : bool;
  isNullable : bool;
  isGenerated : bool;
  generationStrategy : option GenerationStrategy;
  transformer : option ValueTransformer;
  indices : list IndexMetadata
}.
End ColumnMetadata.

Module TableColumn.
Record t : Type := {
  name : jsstring;
  type : jsstring;
  length : jsstring;
  width : option Z;
  precision : optnum;
  scale : option Z;
  zerofill : bool;
  unsigned : bool;
  asExpression : option jsstring;
  generatedType : option jsstring;
  comment : option jsstring;
  default : value;
  enum : option (list jsstring);
  onUpdate : option jsstring;
  isPrimary : bool;
  isNullable : bool;
  isUnique : bool;
  isGenerated : bool;
  generationStrategy : option GenerationStrategy;
  isArray : bool
}.
End TableColumn.

Definition strategy_eqb (a b : GenerationStrategy) : bool :=
  match a, b with
  | increment, increment | uuid, uuid | rowid, rowid | identity, identity =>
      true
  | _, _ => false
  end.

(** [column.generationStrategy === s]. *)
Definition strategy_is (g : option GenerationStrategy) (s : GenerationStrategy)
  : bool :=
  match g with
  | Some s' => strategy_eqb s' s
  | None => false
  end.

(** Descriptors accepted by [parseTableName]. *)
Record Table : Type := {
  table_name : jsstring;
  table_database : option jsstring;
  table_schema : option jsstring
}.

Record TableForeignKey : Type := {
  referencedTableName : jsstring;
  referencedDatabase : option jsstring;
  referencedSchema : option jsstring
}.

Record EntityMetadata : Type := {
  em_database : option jsstring;
  em_schema : option jsstring;
  tableName : jsstring;
  columns : list ColumnMetadata.t;
  generatedColumns : list ColumnMetadata.t
}.

Inductive Target : Type :=
| TargetTable (t : Table)
| TargetView (v : Table)
| TargetForeignKey (fk : TableForeignKey)
| TargetEntityMetadata (m : EntityMetadata)
| TargetString (s : jsstring).

Record ParsedTableName : Type := {
  database : option jsstring;
  schema : option jsstring;
  parsed_tableName : jsstring
}.

(** [a || b] on fields of type [string | undefined]: the empty string is
    falsy. *)
Definition or_else (a b : option jsstring) : option jsstring :=
  match a with
  | Some (_ :: _) => a
  | _ => b
  end.

(** [a === b] on values.  Objects have no identity in this model: two
    object values are taken to be two distinct objects. *)
Definition strict_eq (a b : value) : bool :=
  match a, b with
  | VUndefined, VUndefined => true
  | VNull, VNull => true
  | VBool x, VBool y => Bool.eqb x y
  | VNum x, VNum y => num_eqb x y
  | VStr x, VStr y => jsstring_eqb x y
  | _, _ => false
  end.

Definition quote : Z := 39.

Fixpoint drop_quotes (s : jsstring) : jsstring :=
  match s with
  | c :: rest => if c =? quote then drop_quotes rest else s
  | [] => []
  end.

(** [s.replace(/^'+|'+$/g, "")]: the run of quotes at the start and the
    run of quotes at the end are removed. *)
Definition strip_quotes (s : jsstring) : jsstring :=
  rev (drop_quotes (rev (drop_quotes s))).

(** ** Collaborators outside the driver

    [DateUtils], [OrmUtils] and the metadata classes are used by the driver
    through the operations below; the driver is modelled over any
    implementation of them. *)

Class DateUtils : Type := {
  mixedDateToDateString : value -> outcome value;
  mixedDateToTimeString : value -> outcome value;
  mixedDateToDate : value -> outcome value;
  mixedTimeToString : value -> outcome value;
  normalizeHydratedDate : value -> outcome value;
  simpleArrayToString : value -> outcome value;
  stringToSimpleArray : value -> outcome value;
  simpleJsonToString : value -> outcome value;
  stringToSimpleJson : value -> outcome value
}.

(** [mergeDeep target source] is the target after the merge, which is also
    what the call returns. *)
Class OrmUtils : Type := {
  mergeDeep : value -> value -> outcome value;
  isArraysEqual : list jsstring -> list jsstring -> bool
}.

(** [column.createValueMap(value)] and
    [metadata.findColumnWithDatabaseName(name)]. *)
Class Metadata : Type := {
  createValueMap : ColumnMetadata.t -> value -> outcome value;
  findColumnWithDatabaseName :
    EntityMetadata -> jsstring -> option ColumnMetadata.t
}.

(** Modelled from the spec: [ApplyValueTransformers] is not among the
    source files; a transformer is the pair of functions of the column
    model, [transformTo] applies the first and [transformFrom] the
    second. *)
Module ApplyValueTransformers.
Definition transformTo (transformer : ValueTransformer) (v : value)
  : outcome value := to transformer v.
Definition transformFrom (transformer : ValueTransformer) (v : value)
  : outcome value := from transformer v.
End ApplyValueTransformers.

(** [needle] is a prefix of [s]. *)
Fixpoint starts_with (needle s : jsstring) : bool :=
  match needle, s with
  | [], _ => true
  | x :: needle', y :: s' => (x =? y) && starts_with needle' s'
  | _ :: _, [] => false
  end.

(** [s.indexOf(needle) !== -1]. *)
Fixpoint contains (needle s : jsstring) : bool :=
  starts_with needle s
  || match s with
     | [] => false
     | _ :: rest => contains needle rest
     end.

Definition is_digit (c : Z) : bool := (48 <=? c) && (c <=? 57).

Fixpoint take_digits (s : jsstring) : jsstring * jsstring :=
  match s with
  | c :: rest =>
      if is_digit c
      then let '(ds, after) := take_digits rest in (c :: ds, after)
      else ([], s)
  | [] => ([], [])
  end.

(** [s.match(/\(\d+\)/)]: the first parenthesised run of digits. *)
Fixpoint match_precision (s : jsstring) : option jsstring :=
  match s with
  | [] => None
  | c :: rest =>
      if c =? 40
      then match take_digits rest with
           | (d :: ds, 41 :: _) => Some (40 :: (d :: ds) ++ [41])
           | _ => match_precision rest
           end
      else match_precision rest
  end.

Definition opt_to_value (o : option jsstring) : value :=
  match o with
  | Some s => VStr s
  | None => VUndefined
  end.

(** The own enumerable properties of a value, in [Object.keys] order. *)
Definition own_entries (v : value) : list (jsstring * value) :=
  match v with
  | VObject props => props
  | VArray elems =>
      combine (List.map (fun i => decimal (Z.of_nat i)) (seq 0 (List.length elems)))
              elems
  | VStr s =>
      combine (List.map (fun i => decimal (Z.of_nat i)) (seq 0 (List.length s)))
              (List.map (fun c => VStr [c]) s)
  | VBuffer bytes =>
      combine (List.map (fun i => decimal (Z.of_nat i)) (seq 0 (List.length bytes)))
              (List.map (fun b => VNum (of_Z (byte_to_Z b))) bytes)
  | _ => []
  end.

(** [v.name] for a property that only object literals carry. *)
Definition get_prop (v : value) (name : jsstring) : value :=
  match v with
  | VObject props =>
      match get_own props name with
      | Some x => x
      | None => VUndefined
      end
  | _ => VUndefined
  end.

(** ** The driver *)

Module PlanetScaleDriver.

(** The type lists of the driver. *)
Definition supportedDataTypes : list string :=
  [ "bit"; "int"; "integer"; "tinyint"; "smallint"; "mediumint"; "bigint";
    "float"; "double"; "double precision"; "real"; "decimal"; "dec";
    "numeric"; "fixed"; "bool"; "boolean"; "date"; "datetime"; "timestamp";
    "time"; "year"; "char"; "nchar"; "national char"; "varchar"; "nvarchar";
    "national varchar"; "blob"; "text"; "tinyblob"; "tinytext"; "mediumblob";
    "mediumtext"; "longblob"; "longtext"; "enum"; "set"; "binary";
    "varbinary"; "json"; "geometry"; "point"; "linestring"; "polygon";
    "multipoint"; "multilinestring"; "multipolygon"; "geometrycollection"
  ]%string.

Definition withLengthColumnTypes : list string :=
  [ "char"; "varchar"; "nvarchar"; "binary"; "varbinary" ]%string.

(** An entry of [dataTypeDefaults]. *)
Record DataTypeDefault : Type := {
  default_length : option Z;
  default_width : option Z;
  default_precision : option Z;
  default_scale : option Z
}.

Definition dataTypeDefaults : list (string * DataTypeDefault) :=
  let len l := {| default_length := Some l; default_width := None;
                  default_precision := None; default_scale := None |} in
  let wid w := {| default_length := None; default_width := Some w;
                  default_precision := None; default_scale := None |} in
  let pre p := {| default_length := None; default_width := None;
                  default_precision := Some p; default_scale := None |} in
  let dec p s := {| default_length := None; default_width := None;
                    default_precision := Some p; default_scale := Some s |} in
  [ ("varchar", len 255); ("nvarchar", len 255);
    ("national varchar", len 255); ("char", len 1); ("binary", len 1);
    ("varbinary", len 255); ("decimal", dec 10 0); ("dec", dec 10 0);
    ("numeric", dec 10 0); ("fixed", dec 10 0); ("float", pre 12);
    ("double", pre 22); ("time", pre 0); ("datetime", pre 0);
    ("timestamp", pre 0);
    ("bit", {| default_length := None; default_width := Some 1;
               default_precision := Some 1; default_scale := None |});
    ("int", wid 11); ("integer", wid 11); ("tinyint", wid 4);
    ("smallint", wid 6); ("mediumint", wid 9); ("bigint", wid 20)
  ]%string.

(** [escape]. *)
Definition escape (columnName : jsstring) : jsstring :=
  str "`" ++ columnName ++ str "`".

(** [createParameter]: the positional marker, the same for every index. *)
Definition createParameter (parameterName : jsstring) (index : Z) : jsstring :=
  str "?".

(** [buildTableName]: the schema is not part of the path. *)
Definition buildTableName (tableName : jsstring) (schema database : option jsstring)
  : jsstring :=
  let tablePath := [tableName] in
  let tablePath :=
    match database with
    | Some (c :: d) => (c :: d) :: tablePath
    | _ => tablePath
    end in
  join (str ".") tablePath.

(** [normalizeType]; of the column only the [type] is read. *)
Definition normalizeType (t : ColumnType) : jsstring :=
  match t with
  | TNumber => str "int"
  | TString => str "varchar"
  | TDate => str "datetime"
  | TBuffer => str "blob"
  | TBoolean => str "tinyint"
  | TName n =>
      if type_is t "integer" then str "int"
      else if type_is t "uuid" then str "varchar"
      else if type_is t "simple-array" || type_is t "simple-json" then str "text"
      else if type_is t "simple-enum" then str "enum"
      else if type_is t "double precision" || type_is t "real" then str "double"
      else if type_is t "dec" || type_is t "numeric" || type_is t "fixed"
      then str "decimal"
      else if type_is t "bool" || type_is t "boolean" then str "tinyint"
      else if type_is t "nvarchar" || type_is t "national varchar"
      then str "varchar"
      else if type_is t "nchar" || type_is t "national char" then str "char"
      else n
  end.

(** The fields of a [ColumnMetadata | TableColumn] read by
    [getColumnLength]. *)
Definition column_length (column : ColumnMetadata.t + TableColumn.t)
  : jsstring :=
  match column with
  | inl c => ColumnMetadata.length c
  | inr c => TableColumn.length c
  end.

Definition column_generationStrategy (column : ColumnMetadata.t + TableColumn.t)
  : option GenerationStrategy :=
  match column with
  | inl c => ColumnMetadata.generationStrategy c
  | inr c => TableColumn.generationStrategy c
  end.

Definition column_type (column : ColumnMetadata.t + TableColumn.t)
  : ColumnType :=
  match column with
  | inl c => ColumnMetadata.type c
  | inr c => TName (TableColumn.type c)
  end.

(** [getColumnLength]. *)
Definition getColumnLength (column : ColumnMetadata.t + TableColumn.t)
  : jsstring :=
  match column_length column with
  | _ :: _ => column_length column
  | [] =>
      if strategy_is (column_generationStrategy column) uuid then str "36"
      else match column_type column with
           | TString => str "255"
           | type =>
               if type_is type "varchar" || type_is type "nvarchar"
                  || type_is type "national varchar"
               then str "255"
               else if type_is type "varbinary" then str "255"
               else []
           end
  end.

(** [compareDefaultValues]. *)
Definition compareDefaultValues (columnMetadataValue databaseValue : value)
  : bool :=
  match columnMetadataValue, databaseValue with
  | VStr a, VStr b => jsstring_eqb (strip_quotes a) (strip_quotes b)
  | _, _ => strict_eq columnMetadataValue databaseValue
  end.

(** [compareNullableValues]. *)
Definition compareNullableValues (columnMetadata : ColumnMetadata.t)
    (tableColumn : TableColumn.t) : bool :=
  Bool.eqb (ColumnMetadata.isNullable columnMetadata)
           (TableColumn.isNullable tableColumn).

(** [escapeComment]: null characters are removed. *)
Definition escapeComment (comment : option jsstring) : option jsstring :=
  match comment with
  | Some (c :: rest) => Some (filter (fun x => negb (x =? 0)) (c :: rest))
  | _ => comment
  end.

(** [normalizeIsUnique]: some unique index has this column as its only
    column. *)
Definition normalizeIsUnique (column : ColumnMetadata.t) : bool :=
  existsb
    (fun idx =>
       idx_isUnique idx
       && match idx_columns idx with
          | [r] => Nat.eqb r (ColumnMetadata.ref column)
          | _ => false
          end)
    (ColumnMetadata.indices column).

Section WithDatabase.

(** [this.database], the default database of the driver. *)
Variable driverDatabase : option jsstring.

(** The last case of [parseTableName]: a plain string. *)
Definition parseTableName_string (target : jsstring) : ParsedTableName :=
  let driverSchema : option jsstring := None in
  let parts := split_on 46 target in
  {| database :=
       or_else (if (1 <? Z.of_nat (List.length parts))%Z
                then nth_error parts 0 else None)
               driverDatabase;
     schema := driverSchema;
     parsed_tableName :=
       if (1 <? Z.of_nat (List.length parts))%Z
       then nth 1 parts [] else nth 0 parts [] |}.

(** [parseTableName]. *)
Definition parseTableName (target : Target) : ParsedTableName :=
  let driverSchema : option jsstring := None in
  match target with
  | TargetTable t | TargetView t =>
      let parsed := parseTableName_string (table_name t) in
      {| database :=
           or_else (table_database t) (or_else (database parsed) driverDatabase);
         schema := or_else (table_schema t) (or_else (schema parsed) driverSchema);
         parsed_tableName := parsed_tableName parsed |}
  | TargetForeignKey fk =>
      let parsed := parseTableName_string (referencedTableName fk) in
      {| database :=
           or_else (referencedDatabase fk)
                   (or_else (database parsed) driverDatabase);
         schema :=
           or_else (referencedSchema fk) (or_else (schema parsed) driverSchema);
         parsed_tableName := parsed_tableName parsed |}
  | TargetEntityMetadata m =>
      {| database := or_else (em_database m) driverDatabase;
         schema := or_else (em_schema m) driverSchema;
         parsed_tableName := tableName m |}
  | TargetString s => parseTableName_string s
  end.

End WithDatabase.

(** *** escapeQueryWithParameters *)

(** The character class [[A-Za-z0-9_.]]. *)
Definition is_key_char (c : Z) : bool :=
  ((65 <=? c) && (c <=? 90)) || ((97 <=? c) && (c <=? 122))
  || ((48 <=? c) && (c <=? 57)) || (c =? 95) || (c =? 46).

(** The longest run of key characters at the start of [s], and what
    follows it. *)
Fixpoint take_key (s : jsstring) : jsstring * jsstring :=
  match s with
  | c :: rest =>
      if is_key_char c
      then let '(key, after) := take_key rest in (c :: key, after)
      else ([], s)
  | [] => ([], [])
  end.

(** A match of [/:(\.\.\.)?([A-Za-z0-9_.]+)/]. *)
Record PlaceholderMatch : Type := {
  full : jsstring;
  isArray : bool;
  key : jsstring;
  after : jsstring
}.

(** The match starting at the first character of [s], if there is one.
    The group [(\.\.\.)?] takes three dots when a key character follows
    them; otherwise the dots, being key characters, are read as the key. *)
Definition match_placeholder (s : jsstring) : option PlaceholderMatch :=
  match s with
  | 58 :: tail =>
      let plain :=
        match take_key tail with
        | ([], _) => None
        | (k, rest) =>
            Some {| full := 58 :: k; isArray := false; key := k; after := rest |}
        end in
      match tail with
      | 46 :: 46 :: 46 :: tail3 =>
          match take_key tail3 with
          | ([], _) => plain
          | (k, rest) =>
              Some {| full := 58 :: 46 :: 46 :: 46 :: k; isArray := true;
                      key := k; after := rest |}
          end
      | _ => plain
      end
  | _ => None
  end.

Section WithEngine.
Context {engine : Engine}.

(** [value.map(v => { escapedParameters.push(v); return "?" }).join(", ")]
    for the value bound to a spread placeholder.  An array yields one
    marker per element.  A [Buffer] is a typed array: its [map] stores the
    markers as bytes, so that each prints as [0].  Any other value has no
    [map] method, and the call throws. *)
Definition spread (key : jsstring) (value : value)
    (escapedParameters : list JS.value)
  : outcome (jsstring * list JS.value) :=
  match value with
  | VArray elems =>
      Ret (join (str ", ")
             (List.map (fun _ => createParameter key 0) elems),
           escapedParameters ++ elems)
  | VBuffer bytes =>
      Ret (join (str ", ") (List.map (fun _ => str "0") bytes),
           escapedParameters
             ++ List.map (fun b => VNum (of_Z (byte_to_Z b))) bytes)
  | _ => Throw "TypeError: value.map is not a function"
  end.

(** The callback given to [sql.replace]; its result is converted to a
    string by [replace]. *)
Definition replacer (parameters : list (jsstring * value))
    (escapedParameters : list value) (m : PlaceholderMatch)
  : outcome (jsstring * list value) :=
  match get_own parameters (key m) with
  | None => Ret (full m, escapedParameters)
  | Some value =>
      if isArray m then spread (key m) value escapedParameters
      else match value with
           | VFun ret => Ret (ToString ret, escapedParameters)
           | _ =>
               Ret (createParameter (key m)
                      (Z.of_nat (List.length escapedParameters)),
                    escapedParameters ++ [value])
           end
  end.

(** [sql.replace(/.../g, callback)]: the matches are found from left to
    right, each search starting after the previous match.  Every step
    consumes a character, so [fuel] equal to the length of the string is
    enough. *)
Fixpoint replace_placeholders (fuel : nat) (parameters : list (jsstring * value))
    (sql : jsstring) (escapedParameters : list value)
  : outcome (jsstring * list value) :=
  match fuel with
  | O => Ret (sql, escapedParameters)
  | S fuel' =>
      match sql with
      | [] => Ret ([], escapedParameters)
      | c :: rest =>
          match match_placeholder sql with
          | Some m =>
              r <- replacer parameters escapedParameters m ;;
              o <- replace_placeholders fuel' parameters (after m) (snd r) ;;
              Ret (fst r ++ fst o, snd o)
          | None =>
              o <- replace_placeholders fuel' parameters rest escapedParameters ;;
              Ret (c :: fst o, snd o)
          end
      end
  end.

(** [escapeQueryWithParameters]. *)
Definition escapeQueryWithParameters (sql : jsstring)
    (parameters : option (list (jsstring * value)))
    (nativeParameters : list (jsstring * value))
  : outcome (jsstring * list value) :=
  let escapedParameters :=
    List.map (fun key =>
                match get_own nativeParameters key with
                | Some v => v
                | None => VUndefined
                end) (keys nativeParameters) in
  match parameters with
  | None => Ret (sql, escapedParameters)
  | Some [] => Ret (sql, escapedParameters)
  | Some parameters =>
      replace_placeholders (List.length sql) parameters sql escapedParameters
  end.

(** [createFullType]; a width of zero is falsy. *)
Definition createFullType (column : TableColumn.t) : jsstring :=
  let type := TableColumn.type column in
  let withPrecision :=
    match TableColumn.precision column, TableColumn.scale column with
    | Num p, Some s =>
        type ++ str "(" ++ NumberToString (of_Z p) ++ str ","
             ++ NumberToString (of_Z s) ++ str ")"
    | Num p, None => type ++ str "(" ++ NumberToString (of_Z p) ++ str ")"
    | _, _ => type
    end in
  let type :=
    match getColumnLength (inr column) with
    | _ :: _ => type ++ str "(" ++ getColumnLength (inr column) ++ str ")"
    | [] =>
        match TableColumn.width column with
        | Some w =>
            if negb (w =? 0)
            then type ++ str "(" ++ NumberToString (of_Z w) ++ str ")"
            else withPrecision
        | None => withPrecision
        end
    end in
  if TableColumn.isArray column then type ++ str " array" else type.

Context {dateUtils : DateUtils} {ormUtils : OrmUtils} {metadataApi : Metadata}.

(** *** The value marshaller *)

(** [columnMetadata.type === Boolean], [=== Number], [=== Date]. *)
Definition is_Boolean (t : ColumnType) : bool :=
  match t with TBoolean => true | _ => false end.
Definition is_Number (t : ColumnType) : bool :=
  match t with TNumber => true | _ => false end.
Definition is_Date (t : ColumnType) : bool :=
  match t with TDate => true | _ => false end.

Definition is_nullish (v : value) : bool :=
  match v with VNull | VUndefined => true | _ => false end.

(** [!isNaN(+value) ? parseInt(value) : value]. *)
Definition toNumberIfNumber (v : value) : value :=
  if negb (is_nan (ToNumber v)) then VNum (parseInt v) else v.

(** [preparePersistentValue]. *)
Definition preparePersistentValue (value : value)
    (columnMetadata : ColumnMetadata.t) : outcome JS.value :=
  value <- match ColumnMetadata.transformer columnMetadata with
           | Some transformer =>
               ApplyValueTransformers.transformTo transformer value
           | None => Ret value
           end ;;
  if is_nullish value then Ret value
  else
    let type := ColumnMetadata.type columnMetadata in
    if is_Boolean type then
      Ret (VNum (if strict_eq value (VBool true) then of_Z 1 else of_Z 0))
    else if type_is type "date" then mixedDateToDateString value
    else if type_is type "time" then mixedDateToTimeString value
    else if type_is type "json" then JSON_stringify value
    else if type_is type "timestamp" || type_is type "datetime" || is_Date type
    then mixedDateToDate value
    else if type_is type "simple-array" then simpleArrayToString value
    else if type_is type "simple-json" then simpleJsonToString value
    else if type_is type "enum" || type_is type "simple-enum"
    then Ret (VStr (ToString value))
    else if type_is type "set" then simpleArrayToString value
    else if is_Number type then Ret (toNumberIfNumber value)
    else Ret value.

(** [columnMetadata.enum.indexOf(x) >= 0]. *)
Definition includes (enum : list value) (x : value) : bool :=
  existsb (fun e => strict_eq e x) enum.

(** [prepareHydratedValue]. *)
Definition prepareHydratedValue (value : value)
    (columnMetadata : ColumnMetadata.t) : outcome JS.value :=
  let transformed (value : JS.value) :=
    match ColumnMetadata.transformer columnMetadata with
    | Some transformer => ApplyValueTransformers.transformFrom transformer value
    | None => Ret value
    end in
  if is_nullish value then transformed value
  else
    let type := ColumnMetadata.type columnMetadata in
    value <-
      (if is_Boolean type || type_is type "bool" || type_is type "boolean"
       then Ret (VBool (truthy value))
       else if type_is type "datetime" || is_Date type then
         normalizeHydratedDate
           match value with
           | VStr s => VStr (s ++ str "Z")
           | _ => value
           end
       else if type_is type "date" then mixedDateToDateString value
       else if type_is type "json" then
         match value with
         | VStr s => JSON_parse s
         | _ => Ret value
         end
       else if type_is type "time" then mixedTimeToString value
       else if type_is type "simple-array" then stringToSimpleArray value
       else if type_is type "simple-json" then stringToSimpleJson value
       else if (type_is type "enum" || type_is type "simple-enum")
               && match ColumnMetadata.enum columnMetadata with
                  | Some enum =>
                      negb (isNaN value) && includes enum (VNum (parseInt value))
                  | None => false
                  end
       then Ret (VNum (parseInt value))
       else if type_is type "set" then stringToSimpleArray value
       else if is_Number type then Ret (toNumberIfNumber value)
       else if type_is type "bit"
       then Ret (VNum (NumberUtils.numberFromBitString value))
       else Ret value) ;;
    transformed value.

(** *** Defaults *)

(** [normalizeDatetimeFunction]; a truthy argument that is not a string
    has no [toUpperCase] method. *)
Definition normalizeDatetimeFunction (value : value) : outcome JS.value :=
  if negb (truthy value) then Ret value
  else match value with
       | VStr s =>
           let isDatetimeFunction :=
             contains (str "CURRENT_TIMESTAMP") (StringToUpperCase s)
             || contains (str "NOW") (StringToUpperCase s) in
           if isDatetimeFunction then
             match match_precision s with
             | Some precision => Ret (VStr (str "CURRENT_TIMESTAMP" ++ precision))
             | None => Ret (VStr (str "CURRENT_TIMESTAMP"))
             end
           else Ret value
       | _ => Throw "TypeError: value.toUpperCase is not a function"
       end.

(** [normalizeDefault]. *)
Definition normalizeDefault (columnMetadata : ColumnMetadata.t)
  : outcome value :=
  let defaultValue := ColumnMetadata.default columnMetadata in
  let type := ColumnMetadata.type columnMetadata in
  let defined := negb (strict_eq defaultValue VUndefined) in
  if strict_eq defaultValue VNull then Ret VUndefined
  else if (type_is type "enum" || type_is type "simple-enum"
           || is_string defaultValue) && defined
  then Ret (VStr (str "'" ++ ToString defaultValue ++ str "'"))
  else if type_is type "set" && defined then
    joined <- simpleArrayToString defaultValue ;;
    Ret (VStr (str "'" ++ ToString joined ++ str "'"))
  else match defaultValue with
       | VNum n =>
           fixed <- NumberToFixed n (ColumnMetadata.scale columnMetadata) ;;
           Ret (VStr (str "'" ++ fixed ++ str "'"))
       | VBool b => Ret (VStr (if b then str "1" else str "0"))
       | VFun ret => normalizeDatetimeFunction ret
       | VUndefined => Ret VUndefined
       | _ => Ret (VStr (ToString defaultValue))
       end.

(** *** createGeneratedMap *)

(** The value computed for one generated column. *)
Definition generatedValue (insertResult : value) (entityIndex : number)
    (generatedColumn : ColumnMetadata.t) : value :=
  if strategy_is (ColumnMetadata.generationStrategy generatedColumn) increment
     && truthy (get_prop insertResult (str "insertId"))
  then
    let insertId := parseInt (get_prop insertResult (str "insertId")) in
    VNum (add insertId entityIndex)
  else VUndefined.

(** [array.reduce(f, init)] for a callback that may throw. *)
Fixpoint reduce {A : Type} (f : value -> A -> outcome value) (l : list A)
    (map : value) : outcome value :=
  match l with
  | [] => Ret map
  | x :: rest => map' <- f map x ;; reduce f rest map'
  end.

Definition createGeneratedMap (metadata : EntityMetadata) (insertResult : value)
    (entityIndex : number) : outcome value :=
  if negb (truthy insertResult) then Ret VUndefined
  else if strict_eq (get_prop insertResult (str "insertId")) VUndefined then
    reduce
      (fun map entry =>
         match findColumnWithDatabaseName metadata (fst entry) with
         | Some column =>
             contribution <- createValueMap column (snd entry) ;;
             mergeDeep map contribution
         | None => Ret map
         end)
      (own_entries insertResult) (VObject [])
  else
    generatedMap <-
      reduce
        (fun map generatedColumn =>
           contribution <-
             createValueMap generatedColumn
               (generatedValue insertResult entityIndex generatedColumn) ;;
           mergeDeep map contribution)
        (generatedColumns metadata) (VObject []) ;;
    Ret (if (0 <? Z.of_nat (List.length (own_entries generatedMap)))%Z
         then generatedMap else VUndefined).

(** *** findChangedColumns *)

(** [a || b] where evaluating [b] may throw. *)
Definition orElse (a : bool) (b : outcome bool) : outcome bool :=
  if a then Ret true else b.

Definition jsstring_neqb (a b : jsstring) : bool := negb (jsstring_eqb a b).

(** The test [isColumnChanged] of the filter callback. *)
Definition isColumnChanged (tableColumn : TableColumn.t)
    (columnMetadata : ColumnMetadata.t) : outcome bool :=
  orElse
    (jsstring_neqb (TableColumn.name tableColumn)
       (ColumnMetadata.databaseName columnMetadata)
     || jsstring_neqb (TableColumn.type tableColumn)
          (normalizeType (ColumnMetadata.type columnMetadata))
     || jsstring_neqb (TableColumn.length tableColumn)
          (getColumnLength (inl columnMetadata))
     || negb (option_eqb Z.eqb (TableColumn.width tableColumn)
                (ColumnMetadata.width columnMetadata))
     || (negb (optnum_eqb (ColumnMetadata.precision columnMetadata) NumUndefined)
         && negb (optnum_eqb (TableColumn.precision tableColumn)
                    (ColumnMetadata.precision columnMetadata)))
     || (negb (option_eqb Z.eqb (ColumnMetadata.scale columnMetadata) None)
         && negb (option_eqb Z.eqb (TableColumn.scale tableColumn)
                    (ColumnMetadata.scale columnMetadata)))
     || negb (Bool.eqb (TableColumn.zerofill tableColumn)
                (ColumnMetadata.zerofill columnMetadata))
     || negb (Bool.eqb (TableColumn.unsigned tableColumn)
                (ColumnMetadata.unsigned columnMetadata))
     || negb (option_eqb jsstring_eqb (TableColumn.asExpression tableColumn)
                (ColumnMetadata.asExpression columnMetadata))
     || negb (option_eqb jsstring_eqb (TableColumn.generatedType tableColumn)
                (ColumnMetadata.generatedType columnMetadata))
     || negb (option_eqb jsstring_eqb (TableColumn.comment tableColumn)
                (escapeComment (ColumnMetadata.comment columnMetadata))))
    (normalized <- normalizeDefault columnMetadata ;;
     orElse
       (negb (compareDefaultValues normalized (TableColumn.default tableColumn))
        || match TableColumn.enum tableColumn,
                 ColumnMetadata.enum columnMetadata with
           | Some tableEnum, Some enum =>
               negb (isArraysEqual tableEnum (List.map ToString enum))
           | _, _ => false
           end)
       (onUpdate <-
          normalizeDatetimeFunction
            (opt_to_value (ColumnMetadata.onUpdate columnMetadata)) ;;
        Ret
          (negb (strict_eq (opt_to_value (TableColumn.onUpdate tableColumn))
                   onUpdate)
           || negb (Bool.eqb (TableColumn.isPrimary tableColumn)
                      (ColumnMetadata.isPrimary columnMetadata))
           || negb (compareNullableValues columnMetadata tableColumn)
           || negb (Bool.eqb (TableColumn.isUnique tableColumn)
                      (normalizeIsUnique columnMetadata))
           || (negb (strategy_is
                       (ColumnMetadata.generationStrategy columnMetadata) uuid)
               && negb (Bool.eqb (TableColumn.isGenerated tableColumn)
                          (ColumnMetadata.isGenerated columnMetadata)))))).

(** [array.filter(f)] for a callback that may throw. *)
Fixpoint filterM {A : Type} (f : A -> outcome bool) (l : list A)
  : outcome (list A) :=
  match l with
  | [] => Ret []
  | x :: rest =>
      keep <- f x ;;
      kept <- filterM f rest ;;
      Ret (if keep then x :: kept else kept)
  end.

(** The filter callback of [findChangedColumns]. *)
Definition isChangedIn (tableColumns : list TableColumn.t)
    (columnMetadata : ColumnMetadata.t) : outcome bool :=
  match find (fun c => jsstring_eqb (TableColumn.name c)
                         (ColumnMetadata.databaseName columnMetadata))
             tableColumns with
  | None => Ret false
  | Some tableColumn => isColumnChanged tableColumn columnMetadata
  end.

Definition findChangedColumns (tableColumns : list TableColumn.t)
    (columnMetadatas : list ColumnMetadata.t)
  : outcome (list ColumnMetadata.t) :=
  filterM (isChangedIn tableColumns) columnMetadatas.

End WithEngine.

End PlanetScaleDriver.

Import PlanetScaleDriver.

(** ** Objects built by assignment *)

(** An array index: the canonical numeral of an integer from 0 to
    2^32 - 2. *)
Definition array_index (key : jsstring) : option Z :=
  let '(count, n) := read_digits 10 key O 0 in
  if negb (Nat.eqb count O) && Nat.eqb count (List.length key)
     && jsstring_eqb (decimal n) key && (n <? 4294967295)
  then Some n else None.

(** The value of an existing property is replaced where it is. *)
Fixpoint replace_own (props : list (jsstring * value)) (key : jsstring)
    (v : value) : list (jsstring * value) :=
  match props with
  | [] => []
  | (k, x) :: rest =>
      if jsstring_eqb k key then (k, v) :: rest
      else (k, x) :: replace_own rest key v
  end.

(** A new property is enumerated after the properties there are, unless
    its key is an array index: the array indices come first, in ascending
    order. *)
Fixpoint add_own (props : list (jsstring * value)) (key : jsstring) (v : value)
  : list (jsstring * value) :=
  match props with
  | [] => [(key, v)]
  | (k, x) :: rest =>
      match array_index key, array_index k with
      | Some n, Some m =>
          if m <? n then (k, x) :: add_own rest key v else (key, v) :: props
      | Some _, None => (key, v) :: props
      | None, _ => (k, x) :: add_own rest key v
      end
  end.

(** [target[key] = v]. *)
Definition set_own (props : list (jsstring * value)) (key : jsstring) (v : value)
  : list (jsstring * value) :=
  match get_own props key with
  | Some _ => replace_own props key v
  | None => add_own props key v
  end.

(** [Object.assign(target, ...sources)]: the own properties of each source
    are assigned in turn; [null] and [undefined] sources have none. *)
Definition Object_assign (target : list (jsstring * value))
    (sources : list value) : list (jsstring * value) :=
  fold_left
    (fun target source =>
       fold_left (fun target entry => set_own target (fst entry) (snd entry))
                 (own_entries source) target)
    sources target.

(** [a ?? b]. *)
Definition nullish_or (a b : value) : value :=
  match a with
  | VUndefined | VNull => b
  | _ => a
  end.

(** [array.pop()]: the last element, if any, and the array without it. *)
Fixpoint pop {A : Type} (l : list A) : option A * list A :=
  match l with
  | [] => (None, [])
  | [x] => (Some x, [])
  | x :: rest => let '(last, rest') := pop rest in (last, x :: rest')
  end.

(** ** The serverless driver *)

Module PlanetScaleServerlessDriver.

(** The configuration passed to [connect] of [@planetscale/database]. *)
Record Config : Type := {
  url : value;
  host : value;
  username : value;
  password : value
}.

Section WithConnect.

(** The connections of [@planetscale/database] and its [connect]; a
    connection is an object, hence truthy. *)
Variable Connection : Type.
Variable connect : Config -> Connection.

(** The driver: its options and its pool of connections. *)
Record t : Type := {
  options : value;
  connectionPool : list Connection
}.

(** The constructor, for the options of the data source. *)
Definition new (dataSourceOptions : value) : t :=
  {| options := dataSourceOptions; connectionPool := [] |}.

(** [disconnect]; the method of the base driver does nothing. *)
Definition disconnect (driver : t) : t :=
  {| options := options driver; connectionPool := [] |}.

Definition createConnection (driver : t) : Connection :=
  connect {| url := get_prop (options driver) (str "url");
             host := get_prop (options driver) (str "host");
             username := get_prop (options driver) (str "username");
             password := get_prop (options driver) (str "password") |}.

(** [obtainConnection]: the connection returned and the driver after the
    call. *)
Definition obtainConnection (driver : t) : Connection * t :=
  match pop (connectionPool driver) with
  | (Some connection, rest) =>
      (connection, {| options := options driver; connectionPool := rest |})
  | (None, rest) =>
      (createConnection driver,
       {| options := options driver; connectionPool := rest |})
  end.

Definition releaseConnection (driver : t) (connection : Connection) : t :=
  {| options := options driver;
     connectionPool := connectionPool driver ++ [connection] |}.

(** [n] calls of [obtainConnection] in a row: the connections in the order
    they were returned, and the driver at the end. *)
Fixpoint obtainConnections (n : nat) (driver : t) : list Connection * t :=
  match n with
  | O => ([], driver)
  | S n' =>
      let '(connection, driver') := obtainConnection driver in
      let '(others, driver'') := obtainConnections n' driver' in
      (connection :: others, driver'')
  end.

End WithConnect.

Arguments options {Connection} _.
Arguments connectionPool {Connection} _.
Arguments new {Connection} _.
Arguments disconnect {Connection} _.
Arguments releaseConnection {Connection} _ _.

End PlanetScaleServerlessDriver.

(** ** The mysql driver *)

Module PlanetScaleMysqlDriver.

Section WithPlatform.

(** [PlatformTools.load] and [DriverUtils.buildDriverOptions]. *)
Variable load : jsstring -> outcome value.
Variable buildDriverOptions : value -> value.

(** [loadDependencies]: the package stored in [this.mysql].  [Object.keys]
    throws on [null] and [undefined]; whatever the first attempt throws is
    caught.  The error [DriverPackageNotInstalledError("Mysql", "mysql")]
    is written with the name of its class and its two arguments. *)
Definition loadDependencies : outcome value :=
  let connectorPackage := str "mysql" in
  let fallbackConnectorPackage :=
    if jsstring_eqb connectorPackage (str "mysql")
    then str "mysql2" else str "mysql" in
  let first :=
    mysql <- load connectorPackage ;;
    if is_nullish mysql
    then Throw "TypeError: Cannot convert undefined or null to object"
    else if Z.of_nat (List.length (keys (own_entries mysql))) =? 0
    then Throw "TypeORMError: 'mysql' was found but it is empty. Falling back to 'mysql2'."
    else Ret mysql in
  match first with
  | Ret mysql => Ret mysql
  | Throw _ =>
      match load fallbackConnectorPackage with
      | Ret mysql => Ret mysql
      | Throw _ => Throw "DriverPackageNotInstalledError: Mysql, mysql"
      end
  end.

(** [createConnectionOptions]. *)
Definition createConnectionOptions (options credentials : value) : value :=
  let credentials :=
    VObject (Object_assign [] [credentials; buildDriverOptions credentials]) in
  let mysql := get_prop options (str "mysql") in
  VObject
    (Object_assign []
       [ VObject
           [ (str "charset", get_prop mysql (str "charset"));
             (str "timezone", get_prop mysql (str "timezone"));
             (str "connectTimeout", get_prop mysql (str "connectTimeout"));
             (str "insecureAuth", VBool false);
             (str "supportBigNumbers",
              nullish_or (get_prop mysql (str "supportBigNumbers"))
                         (VBool false));
             (str "bigNumberStrings",
              nullish_or (get_prop mysql (str "bigNumberStrings"))
                         (VBool false));
             (str "dateStrings", get_prop mysql (str "dateStrings"));
             (str "debug", get_prop mysql (str "debug"));
             (str "trace", get_prop mysql (str "trace"));
             (str "multipleStatements",
              get_prop mysql (str "multipleStatements"));
             (str "flags", get_prop mysql (str "flags")) ];
         VObject
           [ (str "host", get_prop credentials (str "host"));
             (str "user", get_prop credentials (str "username"));
             (str "password", get_prop credentials (str "password"));
             (str "database", get_prop credentials (str "database"));
             (str "port",
              nullish_or (get_prop credentials (str "port"))
                         (VNum (of_Z 3306)));
             (str "ssl",
              nullish_or (get_prop credentials (str "ssl")) (VBool true)) ];
         (if strict_eq (get_prop mysql (str "acquireTimeout")) VUndefined
          then VObject []
          else VObject [ (str "acquireTimeout",
                          get_prop mysql (str "acquireTimeout")) ]);
         VObject [ (str "connectionLimit", get_prop options (str "poolSize")) ];
         (if truthy (get_prop options (str "extra"))
          then get_prop options (str "extra")
          else VObject []) ]).

End WithPlatform.

End PlanetScaleMysqlDriver.

(** ** The data source of the command line *)

Module CommandDataSource.

Section Singleton.

Variable DataSource : Type.

(** The static field [_instance]: unset, or a data source (an object,
    hence truthy). *)
Definition t : Type := option DataSource.

Definition initial : t := None.

(** The getter [instance]. *)
Definition get_instance (_instance : t) : outcome DataSource :=
  match _instance with
  | None => Throw "DataSource not initialized!"
  | Some dataSource => Ret dataSource
  end.

(** The setter [instance]: the field after the assignment. *)
Definition set_instance (_instance : t) (dataSource : DataSource) : outcome t :=
  match _instance with
  | Some _ =>
      Throw "DataSource already initialized! Only one datasource can be used per command session."
  | None => Ret (Some dataSource)
  end.

(** The field after an assignment, whether it returned or threw. *)
Definition after_set (_instance : t) (dataSource : DataSource) : t :=
  match set_instance _instance dataSource with
  | Ret _instance' => _instance'
  | Throw _ => _instance
  end.

End Singleton.

Arguments initial {DataSource}.
Arguments get_instance {DataSource} _.
Arguments set_instance {DataSource} _ _.
Arguments after_set {DataSource} _ _.

End CommandDataSource.

(** ** Reference collaborators for running the model

    The driver is run on concrete inputs with the instances below.  The
    engine prints a number as [Number::toString] and [toFixed] do, with
    the shortest digits that are read back as the same number, and reads
    a numeric string as [StringToNumber] does, rounded to the nearest
    double. *)

Module Reference.

Definition zeros (k : Z) : jsstring := repeat 48 (Z.to_nat k).

(** The comparison of [a * 10^p] with [b * 2^q], for exponents of either
    sign. *)
Definition compare_scaled (a p b q : Z) : comparison :=
  Z.compare (a * 10 ^ Z.max p 0 * 2 ^ Z.max (- q) 0)
            (b * 2 ^ Z.max q 0 * 10 ^ Z.max (- p) 0).

(** Whether the decimal [s * 10^p] is read back as the double [m * 2^e]:
    it lies between the midpoints to the neighbouring doubles, which
    belong to the double when [m] is even. *)
Definition reads_back (m e s p : Z) : bool :=
  let below := if (m =? 2 ^ 52) && (-1074 <? e) then 4 * m - 1 else 4 * m - 2 in
  let above := 4 * m + 2 in
  match compare_scaled s p below (e - 2), compare_scaled s p above (e - 2) with
  | Gt, Lt => true
  | Eq, Lt | Gt, Eq => Z.even m
  | _, _ => false
  end.

(** The [n] with [10^(n-1) <= m * 2^e < 10^n], from an estimate by the
    binary logarithm. *)
Fixpoint decade_up (fuel : nat) (m e n : Z) : Z :=
  match fuel with
  | O => n
  | S fuel' =>
      match compare_scaled 1 n m e with
      | Gt => n
      | _ => decade_up fuel' m e (n + 1)
      end
  end.

Fixpoint decade_down (fuel : nat) (m e n : Z) : Z :=
  match fuel with
  | O => n
  | S fuel' =>
      match compare_scaled 1 (n - 1) m e with
      | Gt => decade_down fuel' m e (n - 1)
      | _ => n
      end
  end.

Definition decade (m e : Z) : Z :=
  let estimate := (Z.log2 m + e) * 30103 / 100000 + 1 in
  decade_up 4 m e (decade_down 4 m e estimate).

(** The digits [s], of length [k], and the exponent [n] of the shortest
    decimal [s * 10^(n-k)] that is read back as [m * 2^e]; of two
    decimals of that length the closer one, and the even one of two
    equally close. *)
Fixpoint shortest (fuel : nat) (m e n k : Z) : Z * Z :=
  let numerator := m * 2 ^ Z.max e 0 * 10 ^ Z.max (k - n) 0 in
  let denominator := 2 ^ Z.max (- e) 0 * 10 ^ Z.max (n - k) 0 in
  let lower := numerator / denominator in
  let remainder := numerator mod denominator in
  let upper := lower + 1 in
  let upper_digits := if upper =? 10 ^ k then 10 ^ (k - 1) else upper in
  let upper_exponent := if upper =? 10 ^ k then n + 1 else n in
  let lower_ok := reads_back m e lower (n - k) in
  let upper_ok := reads_back m e upper (n - k) in
  match fuel with
  | O => (lower, n)
  | S fuel' =>
      if lower_ok && upper_ok then
        match Z.compare (2 * remainder) denominator with
        | Lt => (lower, n)
        | Gt => (upper_digits, upper_exponent)
        | Eq => if Z.even lower then (lower, n)
                else (upper_digits, upper_exponent)
        end
      else if lower_ok then (lower, n)
      else if upper_ok then (upper_digits, upper_exponent)
      else shortest fuel' m e n (k + 1)
  end.

(** The text of a positive number from its digits and exponent, as
    [Number::toString] lays it out. *)
Definition layout (s n : Z) : jsstring :=
  let digits := decimal s in
  let k := Z.of_nat (List.length digits) in
  if (k <=? n) && (n <=? 21) then digits ++ zeros (n - k)
  else if (0 <? n) && (n <=? 21)
  then firstn (Z.to_nat n) digits ++ str "." ++ skipn (Z.to_nat n) digits
  else if (-6 <? n) && (n <=? 0) then str "0." ++ zeros (- n) ++ digits
  else
    let exponent :=
      str "e" ++ (if n - 1 <? 0 then str "-" else str "+")
        ++ decimal (Z.abs (n - 1)) in
    match digits with
    | [d] => [d] ++ exponent
    | d :: rest => d :: str "." ++ rest ++ exponent
    | [] => exponent
    end.

(** [x.toString()], that is [Number::toString(x)] with radix 10. *)
Definition numberToString (x : number) : jsstring :=
  match x with
  | S754_nan => str "NaN"
  | S754_zero _ => str "0"
  | S754_infinity false => str "Infinity"
  | S754_infinity true => str "-Infinity"
  | S754_finite sign m e =>
      match binary_normalize prec emax (Z.pos m) e false with
      | S754_finite _ m' e' =>
          let '(s, n) := shortest 17 (Z.pos m') e' (decade (Z.pos m') e') 1 in
          (if sign then str "-" else []) ++ layout s n
      | _ => if sign then str "-Infinity" else str "Infinity"
      end
  end.

(** [x.toFixed(digits)]. *)
Definition numberToFixed (x : number) (digits : option Z) : outcome jsstring :=
  let f := match digits with Some d => d | None => 0 end in
  if (f <? 0) || (100 <? f)
  then Throw "RangeError: toFixed() digits argument must be between 0 and 100"
  else
    match x with
    | S754_finite sign m e =>
        match compare_scaled 1 21 (Z.pos m) e with
        | Gt =>
            let n :=
              if 0 <=? e then Z.pos m * 2 ^ e * 10 ^ f
              else (2 * Z.pos m * 10 ^ f + 2 ^ (- e)) / 2 ^ (1 - e) in
            let digits := decimal n in
            let k := Z.of_nat (List.length digits) in
            let padded := if k <=? f then zeros (f + 1 - k) ++ digits else digits in
            let whole := Z.to_nat (Z.of_nat (List.length padded) - f) in
            Ret ((if sign then str "-" else [])
                 ++ (if f =? 0 then padded
                     else firstn whole padded ++ str "." ++ skipn whole padded))
        | _ => Ret (numberToString x)
        end
    | S754_zero _ => Ret (if f =? 0 then str "0" else str "0." ++ zeros f)
    | _ => Ret (numberToString x)
    end.

(** The double nearest to [s * 10^p], for [s > 0]. *)
Definition nearest (negative : bool) (s p : Z) : number :=
  if 0 <=? p
  then binary_normalize prec emax
         (if negative then - (s * 10 ^ p) else s * 10 ^ p) 0 false
  else
    let '(q, e, location) := SFdiv_core_binary prec emax s 0 (10 ^ (- p)) 0 in
    binary_round_aux prec emax negative q e location.

(** The digits at the start of a string, and what follows them. *)
Fixpoint take_while (p : Z -> bool) (s : jsstring) : jsstring * jsstring :=
  match s with
  | c :: rest =>
      if p c
      then let '(taken, after) := take_while p rest in (c :: taken, after)
      else ([], s)
  | [] => ([], [])
  end.

Definition digits_value (radix : Z) (digits : jsstring) : Z :=
  snd (read_digits radix digits O 0).

(** The exponent part [e], [e+] or [e-] and digits, up to the end of the
    string; [None] when what is there is not an exponent part. *)
Definition exponent_part (s : jsstring) : option Z :=
  match s with
  | [] => Some 0
  | c :: rest =>
      if (c =? 101) || (c =? 69) then
        let negative := match rest with c' :: _ => c' =? 45 | [] => false end in
        let digits :=
          match rest with
          | c' :: rest' => if (c' =? 45) || (c' =? 43) then rest' else rest
          | [] => []
          end in
        match digits with
        | [] => None
        | _ =>
            if forallb is_digit digits
            then Some (if negative then - digits_value 10 digits
                       else digits_value 10 digits)
            else None
        end
      else None
  end.

(** An unsigned decimal literal: digits, a fraction, an exponent. *)
Definition decimal_literal (negative : bool) (s : jsstring) : number :=
  let '(whole, after) := take_while is_digit s in
  let '(fraction, after) :=
    match after with
    | 46 :: after' => take_while is_digit after'
    | _ => ([], after)
    end in
  match whole ++ fraction, exponent_part after with
  | [], _ | _, None => NaN
  | digits, Some exponent =>
      let mantissa := digits_value 10 digits in
      if mantissa =? 0 then S754_zero negative
      else nearest negative mantissa (exponent - Z.of_nat (List.length fraction))
  end.

(** A literal in radix 16, 8 or 2, after its prefix. *)
Definition radix_literal (radix : Z) (digits : jsstring) : number :=
  match digits with
  | [] => NaN
  | _ =>
      match read_digits radix digits O 0 with
      | (count, n) =>
          if Nat.eqb count (List.length digits)
          then binary_normalize prec emax n 0 false
          else NaN
      end
  end.

Definition digit_below (radix c : Z) : bool := (48 <=? c) && (c <? 48 + radix).

(** [StringToNumber]: white space is trimmed; the empty string is 0; then
    [Infinity], a decimal literal, both with an optional sign, or a
    hexadecimal, octal or binary integer. *)
Definition stringToNumber (s : jsstring) : number :=
  let trimmed := rev (skip_whitespace (rev (skip_whitespace s))) in
  match trimmed with
  | [] => of_Z 0
  | 48 :: c :: digits =>
      if (c =? 120) || (c =? 88) then radix_literal 16 digits
      else if (c =? 111) || (c =? 79) then
        if forallb (digit_below 8) digits
        then match digits with
             | [] => NaN
             | _ =>
                 binary_normalize prec emax (digits_value 8 digits) 0 false
             end
        else NaN
      else if (c =? 98) || (c =? 66) then
        if forallb (digit_below 2) digits
        then match digits with
             | [] => NaN
             | _ =>
                 binary_normalize prec emax (digits_value 2 digits) 0 false
             end
        else NaN
      else decimal_literal false trimmed
  | c :: rest =>
      let negative := c =? 45 in
      let unsigned := if (c =? 45) || (c =? 43) then rest else trimmed in
      if jsstring_eqb unsigned (str "Infinity") then S754_infinity negative
      else decimal_literal negative unsigned
  end.

(** The UTF-16 code units of a code point. *)
Definition utf16 (cp : Z) : jsstring :=
  if cp <? 65536 then [cp]
  else [55296 + Z.shiftr (cp - 65536) 10; 56320 + Z.land (cp - 65536) 1023].

(** The state of the UTF-8 decoder between two bytes: the bytes still
    needed for the code point begun, its bits so far, and the range allowed
    for the next byte. *)
Record Utf8State : Type := {
  needed : Z;
  code_point : Z;
  lower : Z;
  upper : Z
}.

Definition utf8_idle : Utf8State :=
  {| needed := 0; code_point := 0; lower := 128; upper := 191 |}.

(** A byte where no code point has been begun: what is put out and the
    state after it. *)
Definition utf8_start (b : Z) : jsstring * Utf8State :=
  if b <=? 127 then ([b], utf8_idle)
  else if (194 <=? b) && (b <=? 223)
  then ([], {| needed := 1; code_point := Z.land b 31;
               lower := 128; upper := 191 |})
  else if (224 <=? b) && (b <=? 239)
  then ([], {| needed := 2; code_point := Z.land b 15;
               lower := if b =? 224 then 160 else 128;
               upper := if b =? 237 then 159 else 191 |})
  else if (240 <=? b) && (b <=? 244)
  then ([], {| needed := 3; code_point := Z.land b 7;
               lower := if b =? 240 then 144 else 128;
               upper := if b =? 244 then 143 else 191 |})
  else ([65533], utf8_idle).

(** The text a sequence of bytes decodes to as UTF-8; a sequence that is
    not well formed gives the replacement character U+FFFD, and the byte
    that ended it is read again. *)
Fixpoint utf8_decode (bytes : list Z) (state : Utf8State) : jsstring :=
  match bytes with
  | [] => if needed state =? 0 then [] else [65533]
  | b :: rest =>
      if needed state =? 0 then
        let '(out, state') := utf8_start b in out ++ utf8_decode rest state'
      else if (lower state <=? b) && (b <=? upper state) then
        let cp := Z.lor (Z.shiftl (code_point state) 6) (Z.land b 63) in
        if needed state =? 1 then utf16 cp ++ utf8_decode rest utf8_idle
        else utf8_decode rest {| needed := needed state - 1; code_point := cp;
                                 lower := 128; upper := 191 |}
      else
        let '(out, state') := utf8_start b in
        65533 :: out ++ utf8_decode rest state'
  end.

Definition upper_code (c : Z) : Z :=
  if (97 <=? c) && (c <=? 122) then c - 32 else c.

(** The text and the number of an object: a [Buffer] is its bytes
    decoded as UTF-8, a [Date] converts to its time value, an object
    literal prints as [[object Object]]; the text of a date and of a
    function depends on the time zone and on the source of the function,
    which the values do not carry. *)
Definition objectToString (v : value) : jsstring :=
  match v with
  | VBuffer bytes => utf8_decode (List.map byte_to_Z bytes) utf8_idle
  | _ => str "[object Object]"
  end.

Definition objectToNumber (v : value) : number :=
  match v with
  | VBuffer bytes =>
      stringToNumber (utf8_decode (List.map byte_to_Z bytes) utf8_idle)
  | VDate t => t
  | _ => NaN
  end.

#[export] Instance engine : Engine := {
  NumberToString := numberToString;
  NumberToFixed := numberToFixed;
  StringToNumber := stringToNumber;
  StringToUpperCase := List.map upper_code;
  ObjectToString := objectToString;
  ObjectToNumber := objectToNumber;
  JSON_stringify := fun _ => Throw "JSON is not available";
  JSON_parse := fun _ => Throw "JSON is not available"
}.

(** Date helpers that hand their argument back: the result of the driver
    then shows what the helper was called with. *)
#[export] Instance dateUtils : DateUtils := {
  mixedDateToDateString := Ret;
  mixedDateToTimeString := Ret;
  mixedDateToDate := Ret;
  mixedTimeToString := Ret;
  normalizeHydratedDate := Ret;
  simpleArrayToString := Ret;
  stringToSimpleArray := Ret;
  simpleJsonToString := Ret;
  stringToSimpleJson := Ret
}.

(** [target[key] = v]. *)
(** Modelled from the spec: [OrmUtils.mergeDeep] and
    [OrmUtils.isArraysEqual] are not among the source files.  A
    contribution is merged key by key into the map; two arrays are equal
    when they have the same length and every entry of the first occurs in
    the second. *)
#[export] Instance ormUtils : OrmUtils := {
  mergeDeep := fun target source =>
    match target with
    | VObject props =>
        Ret (VObject (fold_left (fun acc kv => set_own acc (fst kv) (snd kv))
                        (own_entries source) props))
    | _ => Ret target
    end;
  isArraysEqual := fun a b =>
    Nat.eqb (List.length a) (List.length b)
    && forallb (fun x => existsb (jsstring_eqb x) b) a
}.

(** Modelled from the spec: [ColumnMetadata.createValueMap] and
    [EntityMetadata.findColumnWithDatabaseName] are not among the source
    files.  The generated map goes from database column name to
    generated value; a key matches the column of that database name. *)
#[export] Instance metadataApi : Metadata := {
  createValueMap := fun column v =>
    Ret (VObject [(ColumnMetadata.databaseName column, v)]);
  findColumnWithDatabaseName := fun metadata name =>
    find (fun c => jsstring_eqb (ColumnMetadata.databaseName c) name)
         (columns metadata)
}.

End Reference.

(** ** Sample inputs *)

Module Sample.

(** A column with the defaults of the metadata classes. *)
Definition column (name : string) (type : ColumnType) : ColumnMetadata.t := {|
  ColumnMetadata.ref := 0;
  ColumnMetadata.databaseName := str name;
  ColumnMetadata.propertyName := str name;
  ColumnMetadata.type := type;
  ColumnMetadata.length := [];
  ColumnMetadata.width := None;
  ColumnMetadata.precision := NumUndefined;
  ColumnMetadata.scale := None;
  ColumnMetadata.zerofill := false;
  ColumnMetadata.unsigned := false;
  ColumnMetadata.asExpression := None;
  ColumnMetadata.generatedType := None;
  ColumnMetadata.comment := None;
  ColumnMetadata.default := VUndefined;
  ColumnMetadata.enum := None;
  ColumnMetadata.onUpdate := None;
  ColumnMetadata.isPrimary := false;
  ColumnMetadata.isNullable := false;
  ColumnMetadata.isGenerated := false;
  ColumnMetadata.generationStrategy := None;
  ColumnMetadata.transformer := None;
  ColumnMetadata.indices := []
|}.

Definition num (z : Z) : value := VNum (of_Z z).

Definition ones8 : list byte := [xff; xff; xff; xff; xff; xff; xff; xff]%byte.

(** Seven bytes that spell 2^53 + 1, the least integer that is not a
    double. *)
Definition odd54 : list byte := [x20; x00; x00; x00; x00; x00; x01]%byte.

End Sample.

(** ** The behaviour the specification words differently

    Two definitions that follow the words of the specification where the
    code does something else; they are compared with the code below. *)

Module AsSpecified.

(** "Strip one layer of leading/trailing quote characters". *)
Definition strip_one_layer (s : jsstring) : jsstring :=
  let s1 :=
    match s with
    | c :: rest => if c =? quote then rest else s
    | [] => []
    end in
  match rev s1 with
  | c :: rest => if c =? quote then rev rest else s1
  | [] => []
  end.

Definition compareDefaultValues (a b : value) : bool :=
  match a, b with
  | VStr x, VStr y => jsstring_eqb (strip_one_layer x) (strip_one_layer y)
  | _, _ => strict_eq a b
  end.

(** "Else 36 if the column is a uuid-generated primary key". *)
Definition getColumnLength (column : ColumnMetadata.t) : jsstring :=
  match ColumnMetadata.length column with
  | _ :: _ => ColumnMetadata.length column
  | [] =>
      if ColumnMetadata.isPrimary column
         && strategy_is (ColumnMetadata.generationStrategy column) uuid
      then str "36"
      else match ColumnMetadata.type column with
           | TString => str "255"
           | type =>
               if type_is type "varchar" || type_is type "nvarchar"
                  || type_is type "national varchar"
                  || type_is type "varbinary"
               then str "255"
               else []
           end
  end.

End AsSpecified.

(** A column generated as a uuid that is not a primary key. *)
Definition uuidColumn : ColumnMetadata.t := {|
  ColumnMetadata.ref := 0;
  ColumnMetadata.databaseName := str "token";
  ColumnMetadata.propertyName := str "token";
  ColumnMetadata.type := TName (str "uuid");
  ColumnMetadata.length := [];
  ColumnMetadata.width := None;
  ColumnMetadata.precision := NumUndefined;
  ColumnMetadata.scale := None;
  ColumnMetadata.zerofill := false;
  ColumnMetadata.unsigned := false;
  ColumnMetadata.asExpression := None;
  ColumnMetadata.generatedType := None;
  ColumnMetadata.comment := None;
  ColumnMetadata.default := VUndefined;
  ColumnMetadata.enum := None;
  ColumnMetadata.onUpdate := None;
  ColumnMetadata.isPrimary := false;
  ColumnMetadata.isNullable := false;
  ColumnMetadata.isGenerated := true;
  ColumnMetadata.generationStrategy := Some uuid;
  ColumnMetadata.transformer := None;
  ColumnMetadata.indices := []
|}.

(** The type families with a default length of 255. *)
Definition variable_length (t : ColumnType) : Prop :=
  t = TString \/ t = TName (str "varchar") \/ t = TName (str "nvarchar")
  \/ t = TName (str "national varchar") \/ t = TName (str "varbinary").

(** A string without a dot. *)
Definition dotless (s : jsstring) : Prop := Forall (fun c => c <> 46) s.

(** Whether a string starts with a key character: a placeholder name
    ends where this is false. *)
Definition starts_key (s : jsstring) : bool :=
  match s with
  | c :: _ => is_key_char c
  | [] => false
  end.

(** A name made of key characters. *)
Definition key_name (name : jsstring) : Prop :=
  name <> [] /\ Forall (fun c => is_key_char c = true) name.


(** The values of an object literal in key order. *)
Definition values_in_key_order (o : list (jsstring * value)) : list value :=
  List.map (fun key => match get_own o key with
                       | Some v => v
                       | None => VUndefined
                       end) (keys o).

(** An entity with one auto-increment column [id], and the insert
    results that report the first generated id as a number and as a
    string. *)
Definition idColumn : ColumnMetadata.t := {|
  ColumnMetadata.ref := 1;
  ColumnMetadata.databaseName := str "id";
  ColumnMetadata.propertyName := str "id";
  ColumnMetadata.type := TNumber;
  ColumnMetadata.length := [];
  ColumnMetadata.width := None;
  ColumnMetadata.precision := NumUndefined;
  ColumnMetadata.scale := None;
  ColumnMetadata.zerofill := false;
  ColumnMetadata.unsigned := false;
  ColumnMetadata.asExpression := None;
  ColumnMetadata.generatedType := None;
  ColumnMetadata.comment := None;
  ColumnMetadata.default := VUndefined;
  ColumnMetadata.enum := None;
  ColumnMetadata.onUpdate := None;
  ColumnMetadata.isPrimary := true;
  ColumnMetadata.isNullable := false;
  ColumnMetadata.isGenerated := true;
  ColumnMetadata.generationStrategy := Some increment;
  ColumnMetadata.transformer := None;
  ColumnMetadata.indices := []
|}.

Definition idEntity : EntityMetadata := {|
  em_database := None;
  em_schema := None;
  tableName := str "post";
  columns := [idColumn];
  generatedColumns := [idColumn]
|}.

(** An entity with an auto-increment [id] and a uuid [token], and one
    whose only generated column is the uuid [token]. *)
Definition idTokenEntity : EntityMetadata := {|
  em_database := None;
  em_schema := None;
  tableName := str "session";
  columns := [idColumn; uuidColumn];
  generatedColumns := [idColumn; uuidColumn]
|}.

Definition tokenEntity : EntityMetadata := {|
  em_database := None;
  em_schema := None;
  tableName := str "invitation";
  columns := [uuidColumn];
  generatedColumns := [uuidColumn]
|}.

(** An entity without generated columns. *)
Definition plainEntity : EntityMetadata := {|
  em_database := None;
  em_schema := None;
  tableName := str "tag";
  columns := [];
  generatedColumns := []
|}.

Definition insertResult100 : value :=
  VObject [(str "insertId", Sample.num 100); (str "affectedRows", Sample.num 2)].

Definition insertResult100s : value :=
  VObject [(str "insertId", VStr (str "100"))].

(** The columns whose hydration goes through the date normalizer. *)
Definition datetime_type (t : ColumnType) : Prop :=
  t = TDate \/ t = TName (str "datetime").

(** The value of a run of decimal digits read from the left. *)
Definition horner (acc : Z) (digits : jsstring) : Z :=
  fold_left (fun a c => a * 10 + (c - 48)) digits acc.

(** *** Integers as doubles *)

(** The normal form of the double of an integer [0 < z < 2^53]: a
    mantissa of 53 bits and the matching exponent. *)
Definition canonical (z : Z) : number :=
  S754_finite false (Z.to_pos (z * 2 ^ (53 - (Z.log2 z + 1)))) (Z.log2 z + 1 - 53).

(** The big-endian value of a sequence of bytes. *)
Fixpoint big_endian (codes : list Z) : Z :=
  match codes with
  | [] => 0
  | c :: rest => c * 2 ^ (8 * Z.of_nat (List.length rest)) + big_endian rest
  end.

(** *** The values that survive persisting and hydrating *)

Definition boolean_type (t : ColumnType) : Prop :=
  t = TBoolean \/ t = TName (str "bool") \/ t = TName (str "boolean").

Definition enum_type (t : ColumnType) : Prop :=
  t = TName (str "enum") \/ t = TName (str "simple-enum").

(** The type names that one of the two marshalling functions tests. *)
Definition converted_names : list string :=
  ["date"; "time"; "json"; "timestamp"; "datetime"; "simple-array";
   "simple-json"; "enum"; "simple-enum"; "set"; "bool"; "boolean";
   "bit"]%string.

(** A type that neither function converts. *)
Definition unconverted_type (t : ColumnType) : Prop :=
  t = TString \/ t = TBuffer
  \/ exists name, t = TName name
                  /\ Forall (fun n => name <> str n) converted_names.

(** An enum without numeric members (or no declared members). *)
Definition no_number (members : option (list value)) : Prop :=
  match members with
  | None => True
  | Some l => Forall (fun e => match e with VNum _ => False | _ => True end) l
  end.

(** What the hydration of a datetime column hands to the normalizer. *)
Definition with_utc_marker (v : value) : value :=
  match v with
  | VStr s => VStr (s ++ str "Z")
  | _ => v
  end.

Section RoundTrip.
Context {engine : Engine} {dateUtils : DateUtils}.

(** [roundTrips col x]: [x] is a value of the column [col] for which the
    law is stated.  For the types converted by [DateUtils] and [JSON] the
    condition is that the two helpers involved are inverse at [x]. *)
Inductive roundTrips (col : ColumnMetadata.t) : value -> Prop :=
| rt_nullish v :
    is_nullish v = true -> roundTrips col v
| rt_boolean b :
    boolean_type (ColumnMetadata.type col) -> roundTrips col (VBool b)
| rt_number z :
    ColumnMetadata.type col = TNumber ->
    NumberToString (of_Z z) = decimal z ->
    roundTrips col (VNum (of_Z z))
| rt_enum_string s :
    enum_type (ColumnMetadata.type col) ->
    no_number (ColumnMetadata.enum col) ->
    roundTrips col (VStr s)
| rt_enum_number z members :
    enum_type (ColumnMetadata.type col) ->
    ColumnMetadata.enum col = Some members ->
    includes members (VNum (of_Z z)) = true ->
    NumberToString (of_Z z) = decimal z ->
    is_nan (StringToNumber (decimal z)) = false ->
    roundTrips col (VNum (of_Z z))
| rt_unconverted v :
    unconverted_type (ColumnMetadata.type col) -> roundTrips col v
| rt_date v w :
    ColumnMetadata.type col = TName (str "date") ->
    is_nullish w = false ->
    mixedDateToDateString v = Ret w -> mixedDateToDateString w = Ret v ->
    roundTrips col v
| rt_time v w :
    ColumnMetadata.type col = TName (str "time") ->
    is_nullish w = false ->
    mixedDateToTimeString v = Ret w -> mixedTimeToString w = Ret v ->
    roundTrips col v
| rt_json v s :
    ColumnMetadata.type col = TName (str "json") ->
    JSON_stringify v = Ret (VStr s) -> JSON_parse s = Ret v ->
    roundTrips col v
| rt_timestamp v :
    ColumnMetadata.type col = TName (str "timestamp") ->
    mixedDateToDate v = Ret v ->
    roundTrips col v
| rt_datetime v w :
    datetime_type (ColumnMetadata.type col) ->
    is_nullish w = false ->
    mixedDateToDate v = Ret w ->
    normalizeHydratedDate (with_utc_marker w) = Ret v ->
    roundTrips col v
| rt_simple_array v w :
    ColumnMetadata.type col = TName (str "simple-array")
    \/ ColumnMetadata.type col = TName (str "set") ->
    is_nullish w = false ->
    simpleArrayToString v = Ret w -> stringToSimpleArray w = Ret v ->
    roundTrips col v
| rt_simple_json v w :
    ColumnMetadata.type col = TName (str "simple-json") ->
    is_nullish w = false ->
    simpleJsonToString v = Ret w -> stringToSimpleJson w = Ret v ->
    roundTrips col v.

End RoundTrip.

(** *** The fields compared by the schema diff *)

Section SchemaDiff.
Context {engine : Engine} {dateUtils : DateUtils} {ormUtils : OrmUtils}.







End SchemaDiff.


(** A desired [varchar(100)] column [title], a live column with the
    length 255, and a live column that has no desired counterpart. *)
Definition titleColumn : ColumnMetadata.t := {|
  ColumnMetadata.ref := 2;
  ColumnMetadata.databaseName := str "title";
  ColumnMetadata.propertyName := str "title";
  ColumnMetadata.type := TString;
  ColumnMetadata.length := str "100";
  ColumnMetadata.width := None;
  ColumnMetadata.precision := NumUndefined;
  ColumnMetadata.scale := None;
  ColumnMetadata.zerofill := false;
  ColumnMetadata.unsigned := false;
  ColumnMetadata.asExpression := None;
  ColumnMetadata.generatedType := None;
  ColumnMetadata.comment := None;
  ColumnMetadata.default := VUndefined;
  ColumnMetadata.enum := None;
  ColumnMetadata.onUpdate := None;
  ColumnMetadata.isPrimary := false;
  ColumnMetadata.isNullable := false;
  ColumnMetadata.isGenerated := false;
  ColumnMetadata.generationStrategy := None;
  ColumnMetadata.transformer := None;
  ColumnMetadata.indices := []
|}.

Definition liveVarchar (name length : string) : TableColumn.t := {|
  TableColumn.name := str name;
  TableColumn.type := str "varchar";
  TableColumn.length := str length;
  TableColumn.width := None;
  TableColumn.precision := NumUndefined;
  TableColumn.scale := None;
  TableColumn.zerofill := false;
  TableColumn.unsigned := false;
  TableColumn.asExpression := None;
  TableColumn.generatedType := None;
  TableColumn.comment := None;
  TableColumn.default := VUndefined;
  TableColumn.enum := None;
  TableColumn.onUpdate := None;
  TableColumn.isPrimary := false;
  TableColumn.isNullable := false;
  TableColumn.isUnique := false;
  TableColumn.isGenerated := false;
  TableColumn.generationStrategy := None;
  TableColumn.isArray := false
|}.

(** A [bit] column, and a datetime column. *)
Definition bitColumn : ColumnMetadata.t :=
  Sample.column "flags" (TName (str "bit")).

Definition datetimeColumn : ColumnMetadata.t :=
  Sample.column "createdAt" (TName (str "datetime")).



(** ** Definitions for the further properties *)

(** *** Types and names *)

(** The type names the ORM adds to those of the database. *)
Definition ormDataTypes : list string :=
  [ "uuid"; "simple-array"; "simple-json"; "simple-enum" ]%string.

(** The types [normalizeType] is given: the five constructors, the
    supported data types and the types of the ORM. *)
Definition declarableTypes : list ColumnType :=
  [TBoolean; TNumber; TString; TDate; TBuffer]
  ++ List.map (fun n => TName (str n)) (supportedDataTypes ++ ormDataTypes).

Definition is_supported (name : jsstring) : Prop :=
  In name (List.map str supportedDataTypes).

(** [" array"] or nothing. *)
Definition array_suffix (column : TableColumn.t) : jsstring :=
  if TableColumn.isArray column then str " array" else [].

(** A string option that is not the empty string. *)
Definition not_empty (o : option jsstring) : Prop := o <> Some [].

(** The default length of a type in [dataTypeDefaults]. *)
Definition defaultLength (type : jsstring) : option Z :=
  match find (fun entry => jsstring_eqb (str (fst entry)) type)
             dataTypeDefaults with
  | Some entry => default_length (snd entry)
  | None => None
  end.

(** A live [varchar] column that declares a width and a precision but no
    length. *)
Definition wideVarchar : TableColumn.t := {|
  TableColumn.name := str "title";
  TableColumn.type := str "varchar";
  TableColumn.length := [];
  TableColumn.width := Some 11;
  TableColumn.precision := Num 10;
  TableColumn.scale := Some 2;
  TableColumn.zerofill := false;
  TableColumn.unsigned := false;
  TableColumn.asExpression := None;
  TableColumn.generatedType := None;
  TableColumn.comment := None;
  TableColumn.default := VUndefined;
  TableColumn.enum := None;
  TableColumn.onUpdate := None;
  TableColumn.isPrimary := false;
  TableColumn.isNullable := false;
  TableColumn.isUnique := false;
  TableColumn.isGenerated := false;
  TableColumn.generationStrategy := None;
  TableColumn.isArray := true
|}.

(** The unique indices of the entity that cover exactly this column. *)
Definition unique_on (column : ColumnMetadata.t) (idx : IndexMetadata) : Prop :=
  idx_isUnique idx = true /\ idx_columns idx = [ColumnMetadata.ref column].

(** *** Columns with and without a transformer *)

(** The column with its transformer removed. *)
Definition without_transformer (c : ColumnMetadata.t) : ColumnMetadata.t := {|
  ColumnMetadata.ref := ColumnMetadata.ref c;
  ColumnMetadata.databaseName := ColumnMetadata.databaseName c;
  ColumnMetadata.propertyName := ColumnMetadata.propertyName c;
  ColumnMetadata.type := ColumnMetadata.type c;
  ColumnMetadata.length := ColumnMetadata.length c;
  ColumnMetadata.width := ColumnMetadata.width c;
  ColumnMetadata.precision := ColumnMetadata.precision c;
  ColumnMetadata.scale := ColumnMetadata.scale c;
  ColumnMetadata.zerofill := ColumnMetadata.zerofill c;
  ColumnMetadata.unsigned := ColumnMetadata.unsigned c;
  ColumnMetadata.asExpression := ColumnMetadata.asExpression c;
  ColumnMetadata.generatedType := ColumnMetadata.generatedType c;
  ColumnMetadata.comment := ColumnMetadata.comment c;
  ColumnMetadata.default := ColumnMetadata.default c;
  ColumnMetadata.enum := ColumnMetadata.enum c;
  ColumnMetadata.onUpdate := ColumnMetadata.onUpdate c;
  ColumnMetadata.isPrimary := ColumnMetadata.isPrimary c;
  ColumnMetadata.isNullable := ColumnMetadata.isNullable c;
  ColumnMetadata.isGenerated := ColumnMetadata.isGenerated c;
  ColumnMetadata.generationStrategy := ColumnMetadata.generationStrategy c;
  ColumnMetadata.transformer := None;
  ColumnMetadata.indices := ColumnMetadata.indices c
|}.

(** The column with the given transformer. *)
Definition with_transformer (t : ValueTransformer) (c : ColumnMetadata.t)
  : ColumnMetadata.t := {|
  ColumnMetadata.ref := ColumnMetadata.ref c;
  ColumnMetadata.databaseName := ColumnMetadata.databaseName c;
  ColumnMetadata.propertyName := ColumnMetadata.propertyName c;
  ColumnMetadata.type := ColumnMetadata.type c;
  ColumnMetadata.length := ColumnMetadata.length c;
  ColumnMetadata.width := ColumnMetadata.width c;
  ColumnMetadata.precision := ColumnMetadata.precision c;
  ColumnMetadata.scale := ColumnMetadata.scale c;
  ColumnMetadata.zerofill := ColumnMetadata.zerofill c;
  ColumnMetadata.unsigned := ColumnMetadata.unsigned c;
  ColumnMetadata.asExpression := ColumnMetadata.asExpression c;
  ColumnMetadata.generatedType := ColumnMetadata.generatedType c;
  ColumnMetadata.comment := ColumnMetadata.comment c;
  ColumnMetadata.default := ColumnMetadata.default c;
  ColumnMetadata.enum := ColumnMetadata.enum c;
  ColumnMetadata.onUpdate := ColumnMetadata.onUpdate c;
  ColumnMetadata.isPrimary := ColumnMetadata.isPrimary c;
  ColumnMetadata.isNullable := ColumnMetadata.isNullable c;
  ColumnMetadata.isGenerated := ColumnMetadata.isGenerated c;
  ColumnMetadata.generationStrategy := ColumnMetadata.generationStrategy c;
  ColumnMetadata.transformer := Some t;
  ColumnMetadata.indices := ColumnMetadata.indices c
|}.

(** What may follow the leading numeral that [parseInt] reads: nothing,
    or a character that is neither a digit nor the [x] of a hexadecimal
    prefix. *)
Definition ends_numeral (tail : jsstring) : bool :=
  match tail with
  | [] => true
  | c :: _ => negb (is_digit c) && negb (c =? 120) && negb (c =? 88)
  end.

(** *** Upper-casing *)

(** A code unit of the ASCII range that is not a lower-case letter. *)
Definition caseless (c : Z) : Prop := 0 <= c < 97 \/ 122 < c < 128.

(** An engine whose [toUpperCase] leaves such code units as they are. *)
Definition upper_keeps_caseless {engine : Engine} : Prop :=
  forall s, Forall caseless s -> StringToUpperCase s = s.

(** A column with the string default [active]. *)
Definition statusColumn : ColumnMetadata.t := {|
  ColumnMetadata.ref := 4;
  ColumnMetadata.databaseName := str "status";
  ColumnMetadata.propertyName := str "status";
  ColumnMetadata.type := TName (str "varchar");
  ColumnMetadata.length := str "20";
  ColumnMetadata.width := None;
  ColumnMetadata.precision := NumUndefined;
  ColumnMetadata.scale := None;
  ColumnMetadata.zerofill := false;
  ColumnMetadata.unsigned := false;
  ColumnMetadata.asExpression := None;
  ColumnMetadata.generatedType := None;
  ColumnMetadata.comment := None;
  ColumnMetadata.default := VStr (str "active");
  ColumnMetadata.enum := None;
  ColumnMetadata.onUpdate := None;
  ColumnMetadata.isPrimary := false;
  ColumnMetadata.isNullable := false;
  ColumnMetadata.isGenerated := false;
  ColumnMetadata.generationStrategy := None;
  ColumnMetadata.transformer := None;
  ColumnMetadata.indices := []
|}.

(** An entry of an insert result whose key names a column of the
    entity. *)
Definition names_column {metadataApi : Metadata} (metadata : EntityMetadata)
    (entry : jsstring * value) : bool :=
  match findColumnWithDatabaseName metadata (fst entry) with
  | Some _ => true
  | None => false
  end.

(** A live column whose name is the database name of some desired
    column. *)
Definition named_by (columnMetadatas : list ColumnMetadata.t)
    (tableColumn : TableColumn.t) : bool :=
  existsb (fun cm => jsstring_eqb (TableColumn.name tableColumn)
                       (ColumnMetadata.databaseName cm))
          columnMetadatas.

(** *** Markers and values *)

(** The number of positional markers [?] in a statement. *)
Definition markers (sql : jsstring) : nat := count_occ Z.eq_dec sql 63.

(** A value that is bound by a marker: not a function, whose result is
    written into the statement, and not a buffer, whose spread prints no
    marker. *)
Definition bound_by_marker (v : value) : bool :=
  match v with
  | VFun _ | VBuffer _ => false
  | _ => true
  end.

(** *** Runs of the stateful drivers *)

(** The driver after releasing the given connections, in that order. *)
Definition releaseConnections {Connection : Type}
    (driver : PlanetScaleServerlessDriver.t Connection)
    (connections : list Connection) : PlanetScaleServerlessDriver.t Connection :=
  fold_left PlanetScaleServerlessDriver.releaseConnection connections driver.

(** The field [_instance] after a sequence of assignments, each of which
    may have thrown. *)
Definition after_sets {DataSource : Type} (dataSources : list DataSource)
    (_instance : CommandDataSource.t DataSource) : CommandDataSource.t DataSource :=
  fold_left CommandDataSource.after_set dataSources _instance.

(** A package with nothing in it. *)
Definition empty_package (v : value) : bool :=
  is_nullish v || (Z.of_nat (List.length (keys (own_entries v))) =? 0).

(** Options of a data source, and a loader that finds only [mysql2]. *)
Definition sampleOptions : value :=
  VObject [ (str "type", VStr (str "planetscale"));
            (str "host", VStr (str "aws.connect.psdb.cloud"));
            (str "username", VStr (str "app"));
            (str "password", VStr (str "secret"));
            (str "database", VStr (str "shop"));
            (str "ssl", VBool false);
            (str "extra", VObject [ (str "insecureAuth", VBool true);
                                    (str "connectionLimit", VNum (of_Z 5)) ]) ].

Definition onlyMysql2 (package : jsstring) : outcome value :=
  if jsstring_eqb package (str "mysql2")
  then Ret (VObject [(str "createPool", VFun VUndefined)])
  else Throw "Cannot find module".

(** The same options without [extra], and credentials that carry no URL:
    nothing is derived from them. *)
Definition plainOptions : value :=
  VObject [ (str "type", VStr (str "planetscale"));
            (str "host", VStr (str "aws.connect.psdb.cloud"));
            (str "username", VStr (str "app"));
            (str "password", VStr (str "secret"));
            (str "database", VStr (str "shop"));
            (str "ssl", VBool false) ].

Definition nothingDerived (credentials : value) : value := VObject [].

(** * Properties *)

(** ** Strings *)

Lemma jsstring_eqb_eq (a b : jsstring) : jsstring_eqb a b = true <-> a = b.
Proof.
  revert b; induction a as [|x a IH]; intros [|y b]; simpl;
    try (split; [discriminate | discriminate]); [tauto|].
  rewrite andb_true_iff, Z.eqb_eq, IH.
  split; [intros [-> ->]; reflexivity | intros H; inversion H; auto].
Qed.

Lemma jsstring_eqb_refl (a : jsstring) : jsstring_eqb a a = true.
Proof. apply jsstring_eqb_eq; reflexivity. Qed.

Lemma jsstring_eqb_neq (a b : jsstring) : jsstring_eqb a b = false <-> a <> b.
Proof.
  rewrite <- jsstring_eqb_eq. destruct (jsstring_eqb a b); split;
    congruence.
Qed.

(** ** Exact arithmetic on integers below 2^53 *)

Lemma digits2_pos_log2 (p : positive) : Z.pos (digits2_pos p) = Z.log2 (Z.pos p) + 1.
Proof.
  induction p as [p IH|p IH|]; simpl; try reflexivity.
  - rewrite Pos2Z.inj_succ, IH.
    destruct p; simpl; try reflexivity; rewrite ?Pos2Z.inj_succ; simpl in *; lia.
  - rewrite Pos2Z.inj_succ, IH.
    destruct p; simpl; try reflexivity; rewrite ?Pos2Z.inj_succ; simpl in *; lia.
Qed.

Lemma Zdigits2_log2 (m : Z) : 0 < m -> Zdigits2 m = Z.log2 m + 1.
Proof.
  destruct m as [|p|p]; try lia. intros _. apply digits2_pos_log2.
Qed.

Lemma iter_pos_nat {A : Type} (f : A -> A) (p : positive) (x : A) :
  iter_pos f p x = Nat.iter (Pos.to_nat p) f x.
Proof.
  revert x. induction p as [p IH|p IH|]; intros x; cbn [iter_pos].
  - rewrite !IH, Pos2Nat.inj_xI.
    replace (S (2 * Pos.to_nat p)) with (Pos.to_nat p + (Pos.to_nat p + 1))%nat by lia.
    rewrite !Nat.iter_add. reflexivity.
  - rewrite !IH, Pos2Nat.inj_xO.
    replace (2 * Pos.to_nat p)%nat with (Pos.to_nat p + Pos.to_nat p)%nat by lia.
    rewrite Nat.iter_add. reflexivity.
  - reflexivity.
Qed.

Lemma shr_1_even (q : Z) :
  0 < q ->
  shr_1 {| shr_m := 2 * q; shr_r := false; shr_s := false |}
  = {| shr_m := q; shr_r := false; shr_s := false |}.
Proof.
  destruct q as [|p|p]; try lia. intros _. reflexivity.
Qed.

Lemma shr_exact (n : nat) (q : Z) :
  0 < q ->
  Nat.iter n shr_1 {| shr_m := q * 2 ^ Z.of_nat n; shr_r := false; shr_s := false |}
  = {| shr_m := q; shr_r := false; shr_s := false |}.
Proof.
  intros Hq. induction n as [|n IH].
  - simpl. f_equal. lia.
  - rewrite Nat.iter_succ_r.
    replace (q * 2 ^ Z.of_nat (S n)) with (2 * (q * 2 ^ Z.of_nat n))
      by (rewrite Nat2Z.inj_succ, Z.pow_succ_r; lia).
    rewrite shr_1_even by (apply Z.mul_pos_pos; [lia | apply Z.pow_pos_nonneg; lia]).
    exact IH.
Qed.

(** The core: an integer mantissa [z * 2^s] of a value that fits in 53
    bits is rounded without loss. *)
Lemma binary_round_aux_exact (sx : bool) (z s e : Z) :
  0 < z -> 0 <= s ->
  let d := Z.log2 z + 1 in
  d <= 53 -> 0 <= d + s - 53 ->
  3 - 1024 - 53 <= e + (d + s - 53) <= 1024 - 53 ->
  binary_round_aux 53 1024 sx (z * 2 ^ s) e loc_Exact
  = S754_finite sx (Z.to_pos (z * 2 ^ (53 - d))) (e + (d + s - 53)).
Proof.
  intros Hz Hs d Hd Hn He.
  set (n := d + s - 53) in *.
  assert (HS : 0 < z * 2 ^ s) by (apply Z.mul_pos_pos; [lia | apply Z.pow_pos_nonneg; lia]).
  assert (Hdig : Zdigits2 (z * 2 ^ s) = d + s).
  { rewrite Zdigits2_log2 by lia. rewrite Z.log2_mul_pow2 by lia. subst d. lia. }
  set (q := z * 2 ^ (53 - d)).
  assert (Hq : 0 < q) by (apply Z.mul_pos_pos; [lia | apply Z.pow_pos_nonneg; lia]).
  assert (Hqdig : Zdigits2 q = 53).
  { rewrite Zdigits2_log2 by lia. unfold q. rewrite Z.log2_mul_pow2 by lia. subst d. lia. }
  assert (HSq : z * 2 ^ s = q * 2 ^ n).
  { unfold q, n. rewrite <- Z.mul_assoc, <- Z.pow_add_r by lia. f_equal. f_equal. lia. }
  unfold binary_round_aux.
  assert (H1 : shr_fexp 53 1024 (z * 2 ^ s) e loc_Exact
               = ({| shr_m := q; shr_r := false; shr_s := false |}, e + n)).
  { unfold shr_fexp. rewrite Hdig. unfold fexp, SpecFloat.emin.
    replace (Z.max (d + s + e - 53) (3 - 1024 - 53) - e) with n by (unfold n in *; lia).
    unfold shr. cbn [shr_record_of_loc].
    destruct n as [|p|p] eqn:En; [|  |lia].
    - rewrite HSq. f_equal; [f_equal; lia | lia].
    - rewrite iter_pos_nat, HSq.
      rewrite <- (positive_nat_Z p). rewrite shr_exact by lia. reflexivity. }
  rewrite H1. cbn [shr_m loc_of_shr_record round_nearest_even].
  assert (H2 : shr_fexp 53 1024 q (e + n) loc_Exact
               = ({| shr_m := q; shr_r := false; shr_s := false |}, e + n)).
  { unfold shr_fexp. rewrite Hqdig. unfold fexp, SpecFloat.emin.
    replace (Z.max (53 + (e + n) - 53) (3 - 1024 - 53) - (e + n)) with 0 by lia.
    reflexivity. }
  rewrite H2. cbn [shr_m].
  destruct q as [|p|p] eqn:Eq; try lia.
  replace (e + n <=? 1024 - 53) with true by (symmetry; apply Z.leb_le; lia).
  reflexivity.
Qed.

Lemma pos_iter_xO (m d : positive) :
  Z.pos (Pos.iter xO m d) = Z.pos m * 2 ^ Z.pos d.
Proof.
  induction d as [|d IH] using Pos.peano_ind.
  - simpl. lia.
  - rewrite Pos.iter_succ, Pos2Z.inj_xO, IH, Pos2Z.inj_succ, Z.pow_succ_r; lia.
Qed.

(** Normalising the mantissa [z * 2^s] at the exponent [e]. *)
Lemma binary_normalize_exact (z s e : Z) :
  0 < z -> 0 <= s ->
  let d := Z.log2 z + 1 in
  d <= 53 ->
  3 - 1024 - 53 <= e + d + s - 53 <= 1024 - 53 ->
  binary_normalize prec emax (z * 2 ^ s) e false
  = S754_finite false (Z.to_pos (z * 2 ^ (53 - d))) (e + d + s - 53).
Proof.
  intros Hz Hs d Hd He.
  assert (HS : 0 < z * 2 ^ s) by (apply Z.mul_pos_pos; [lia | apply Z.pow_pos_nonneg; lia]).
  unfold binary_normalize, prec, emax.
  destruct (z * 2 ^ s) as [|m|m] eqn:Em; try lia.
  unfold binary_round.
  assert (Hdig : Z.pos (digits2_pos m) = d + s).
  { rewrite digits2_pos_log2, <- Em, Z.log2_mul_pow2 by lia. subst d. lia. }
  rewrite Hdig. unfold fexp, SpecFloat.emin.
  replace (Z.max (d + s + e - 53) (3 - 1024 - 53)) with (d + s + e - 53) by lia.
  unfold shl_align.
  destruct (d + s + e - 53 - e) as [|p|p] eqn:Ediff; cbv iota beta.
  - rewrite <- Em.
    rewrite (binary_round_aux_exact false z s e Hz Hs Hd) by (fold d; lia).
    fold d. f_equal. lia.
  - rewrite <- Em.
    rewrite (binary_round_aux_exact false z s e Hz Hs Hd) by (fold d; lia).
    fold d. f_equal. lia.
  - rewrite pos_iter_xO, <- Em.
    assert (Hp : Z.pos p = 53 - d - s) by lia.
    rewrite Hp, <- Z.mul_assoc, <- Z.pow_add_r by lia.
    replace (s + (53 - d - s)) with (53 - d) by lia.
    rewrite (binary_round_aux_exact false z (53 - d) (d + s + e - 53) Hz) by (fold d; lia).
    fold d. f_equal. lia.
Qed.

Lemma of_Z_canonical (z : Z) : 0 < z < 2 ^ 53 -> of_Z z = canonical z.
Proof.
  intros Hz. unfold of_Z, canonical.
  assert (Hd : Z.log2 z + 1 <= 53).
  { assert (Z.log2 z < 53) by (apply Z.log2_lt_pow2; lia). lia. }
  pose proof (Z.log2_nonneg z).
  replace z with (z * 2 ^ 0) at 1 by (rewrite Z.pow_0_r; lia).
  rewrite binary_normalize_exact by lia. f_equal. lia.
Qed.

Lemma exact_Z_of_Z (z : Z) : 0 <= z < 2 ^ 53 -> exact_Z (of_Z z) = Some z.
Proof.
  intros Hz. destruct (Z.eq_dec z 0) as [->|Hnz]; [reflexivity|].
  rewrite of_Z_canonical by lia. unfold canonical, exact_Z.
  assert (Hd : Z.log2 z < 53) by (apply Z.log2_lt_pow2; lia).
  pose proof (Z.log2_nonneg z).
  set (t := 53 - (Z.log2 z + 1)).
  assert (Hq : 0 < z * 2 ^ t) by (apply Z.mul_pos_pos; [lia | apply Z.pow_pos_nonneg; lia]).
  rewrite Z2Pos.id by lia.
  replace (Z.log2 z + 1 - 53) with (- t) by lia.
  destruct (Z.leb_spec 0 (- t)) as [H0|H0].
  - assert (t = 0) by lia. replace (- t) with 0 by lia. subst t.
    replace (53 - (Z.log2 z + 1)) with 0 by lia. simpl. f_equal. lia.
  - rewrite Z.opp_involutive.
    rewrite Z.mod_mul by (apply Z.pow_nonzero; lia). simpl.
    rewrite Z.div_mul by (apply Z.pow_nonzero; lia). reflexivity.
Qed.

Lemma pow2_canonical (k : Z) :
  0 <= k <= 1023 -> pow2 k = S754_finite false 4503599627370496 (k - 52).
Proof.
  intros Hk. unfold pow2.
  replace 1 with (1 * 2 ^ 0) at 1 by reflexivity.
  rewrite binary_normalize_exact; simpl; try lia.
  f_equal. lia.
Qed.

Lemma canonical_bits (z : Z) :
  0 < z < 2 ^ 53 ->
  let d := Z.log2 z + 1 in
  1 <= d <= 53 /\ 0 < z * 2 ^ (53 - d).
Proof.
  intros Hz d. subst d.
  assert (Z.log2 z < 53) by (apply Z.log2_lt_pow2; lia).
  pose proof (Z.log2_nonneg z).
  split; [lia|]. apply Z.mul_pos_pos; [lia | apply Z.pow_pos_nonneg; lia].
Qed.

(** The product of a small integer and a power of two, when the product
    still fits in 53 bits. *)
Lemma mul_pow2_small (c k : Z) :
  0 <= c -> 0 <= k <= 1023 -> c * 2 ^ k < 2 ^ 53 ->
  mul (of_Z c) (pow2 k) = of_Z (c * 2 ^ k).
Proof.
  intros Hc Hk Hb.
  assert (Hpow : 1 <= 2 ^ k) by (apply (Z.pow_le_mono_r 2 0 k); lia).
  destruct (Z.eq_dec c 0) as [->|Hnz].
  { rewrite pow2_canonical by lia. reflexivity. }
  assert (Hc53 : 0 < c < 2 ^ 53) by nia.
  destruct (canonical_bits c Hc53) as [Hd Hq].
  assert (Hck : Z.log2 (c * 2 ^ k) = k + Z.log2 c)
    by (apply Z.log2_mul_pow2; lia).
  assert (Hlt : Z.log2 (c * 2 ^ k) < 53) by (apply Z.log2_lt_pow2; lia).
  rewrite (of_Z_canonical c Hc53), pow2_canonical by lia.
  rewrite of_Z_canonical by lia.
  unfold canonical, mul, SFmul, prec, emax. cbn [xorb].
  rewrite Pos2Z.inj_mul, Z2Pos.id by lia.
  change (Z.pos 4503599627370496) with (2 ^ 52).
  replace (c * 2 ^ (53 - (Z.log2 c + 1)) * 2 ^ 52)
    with (c * 2 ^ (105 - (Z.log2 c + 1)))
    by (rewrite <- Z.mul_assoc, <- Z.pow_add_r by lia; f_equal; f_equal; lia).
  rewrite binary_round_aux_exact by lia.
  rewrite Hck. f_equal.
  - f_equal. rewrite <- Z.mul_assoc, <- Z.pow_add_r by lia.
    f_equal. f_equal. lia.
  - lia.
Qed.

Lemma shl_align_value (m : positive) (e ez : Z) :
  ez <= e -> Z.pos (fst (shl_align m e ez)) = Z.pos m * 2 ^ (e - ez).
Proof.
  intros He. unfold shl_align.
  destruct (ez - e) as [|p|p] eqn:E; cbn [fst].
  - replace (e - ez) with 0 by lia. rewrite Z.pow_0_r. lia.
  - lia.
  - rewrite pos_iter_xO. f_equal. f_equal.
    pose proof (Pos2Z.opp_pos p). lia.
Qed.

(** The sum of two non-negative integers that fits in 53 bits. *)
Lemma add_small (a b : Z) :
  0 <= a -> 0 <= b -> a + b < 2 ^ 53 ->
  add (of_Z a) (of_Z b) = of_Z (a + b).
Proof.
  intros Ha Hb Hs.
  destruct (Z.eq_dec a 0) as [->|Hna].
  { simpl (0 + b). destruct (Z.eq_dec b 0) as [->|Hnb]; [reflexivity|].
    rewrite (of_Z_canonical b) by lia. reflexivity. }
  destruct (Z.eq_dec b 0) as [->|Hnb].
  { rewrite Z.add_0_r. rewrite (of_Z_canonical a) by lia. reflexivity. }
  destruct (canonical_bits a ltac:(lia)) as [Hda Hqa].
  destruct (canonical_bits b ltac:(lia)) as [Hdb Hqb].
  destruct (canonical_bits (a + b) ltac:(lia)) as [Hdz Hqz].
  assert (Hla : Z.log2 a <= Z.log2 (a + b)) by (apply Z.log2_le_mono; lia).
  assert (Hlb : Z.log2 b <= Z.log2 (a + b)) by (apply Z.log2_le_mono; lia).
  rewrite (of_Z_canonical a), (of_Z_canonical b), (of_Z_canonical (a + b)) by lia.
  unfold canonical, add, SFadd, prec, emax. cbn [cond_Zopp].
  set (ea := Z.log2 a + 1 - 53). set (eb := Z.log2 b + 1 - 53).
  set (ez := Z.min ea eb).
  rewrite !shl_align_value by (unfold ez; lia).
  rewrite !Z2Pos.id by lia.
  assert (Hsum : a * 2 ^ (53 - (Z.log2 a + 1)) * 2 ^ (ea - ez)
                 + b * 2 ^ (53 - (Z.log2 b + 1)) * 2 ^ (eb - ez)
                 = (a + b) * 2 ^ (- ez)).
  { rewrite <- !Z.mul_assoc, <- !Z.pow_add_r by (unfold ea, eb, ez; lia).
    replace (53 - (Z.log2 a + 1) + (ea - ez)) with (- ez) by (unfold ea; lia).
    replace (53 - (Z.log2 b + 1) + (eb - ez)) with (- ez) by (unfold eb; lia).
    lia. }
  rewrite Hsum.
  pose proof (binary_normalize_exact (a + b) (- ez) ez) as Hn.
  unfold prec, emax in Hn. rewrite Hn by (unfold ez, ea, eb; lia).
  f_equal. unfold ez, ea, eb. lia.
Qed.

Lemma big_endian_nonneg (codes : list Z) :
  Forall (fun c => 0 <= c) codes -> 0 <= big_endian codes.
Proof.
  induction 1 as [|c rest Hc _ IH]; simpl; [lia|].
  assert (0 < 2 ^ (8 * Z.of_nat (List.length rest))) by (apply Z.pow_pos_nonneg; lia).
  nia.
Qed.

Lemma accumulate_exact (codes : list Z) :
  Forall (fun c => 0 <= c) codes -> (List.length codes <= 128)%nat ->
  forall a, 0 <= a -> a + big_endian codes < 2 ^ 53 ->
  NumberUtils.accumulate codes (of_Z a) = of_Z (a + big_endian codes).
Proof.
  induction 1 as [|c rest Hc Hrest IH]; intros Hlen a Ha Hs.
  - simpl. f_equal. lia.
  - cbn [NumberUtils.accumulate big_endian] in *.
    pose proof (big_endian_nonneg rest Hrest) as Hbe.
    set (k := 8 * Z.of_nat (List.length rest)) in *.
    assert (Hk : 0 <= k <= 1023) by (unfold k; simpl in Hlen; lia).
    assert (Hp : 0 < 2 ^ k) by (apply Z.pow_pos_nonneg; lia).
    rewrite mul_pow2_small by nia.
    rewrite add_small by nia.
    rewrite IH by (simpl in Hlen; nia || lia).
    f_equal. lia.
Qed.

Lemma byte_to_Z_range (b : byte) : 0 <= byte_to_Z b < 256.
Proof.
  unfold byte_to_Z. pose proof (Byte.to_N_bounded b). lia.
Qed.

Lemma big_endian_bound (codes : list Z) :
  Forall (fun c => 0 <= c < 256) codes ->
  0 <= big_endian codes < 2 ^ (8 * Z.of_nat (List.length codes)).
Proof.
  induction 1 as [|c rest Hc _ IH]; [simpl; lia|].
  cbn [big_endian List.length].
  set (k := 8 * Z.of_nat (List.length rest)) in *.
  replace (8 * Z.of_nat (S (List.length rest))) with (8 + k) by (unfold k; lia).
  rewrite Z.pow_add_r by (unfold k; lia).
  change (2 ^ 8) with 256. nia.
Qed.

Lemma numberFromBitString_exact (bytes : list byte) :
  (List.length bytes <= 128)%nat ->
  big_endian (List.map byte_to_Z bytes) < 2 ^ 53 ->
  NumberUtils.numberFromBitString (VBuffer bytes)
  = of_Z (big_endian (List.map byte_to_Z bytes)).
Proof.
  intros Hlen Hv. unfold NumberUtils.numberFromBitString.
  rewrite accumulate_exact; try lia.
  - reflexivity.
  - apply Forall_forall. intros c Hc. apply in_map_iff in Hc.
    destruct Hc as (b & <- & _). apply byte_to_Z_range.
  - rewrite length_map. exact Hlen.
Qed.

(** ** NumberUtils *)

Lemma codes_of_string_bytes (s : jsstring) (b : list byte) :
  Forall2 (fun c x => Z.land c 255 = byte_to_Z x) s b ->
  List.map (fun c => Z.land c 255) s = List.map byte_to_Z b.
Proof.
  induction 1 as [|c x s b Hc _ IH]; simpl; [reflexivity|].
  rewrite Hc, IH; reflexivity.
Qed.

(** The arithmetic of the model agrees with the floats of the hardware on
    the inputs of the two claims about wide bit fields. *)
Example accumulate_matches_hardware :
  Prim2SF (Hardware.accumulate (repeat 255 8) PrimFloat.zero)
  = NumberUtils.accumulate (repeat 255 8) (JS.of_Z 0)
  /\ Prim2SF (Hardware.accumulate (repeat 255 4) PrimFloat.zero)
     = NumberUtils.accumulate (repeat 255 4) (JS.of_Z 0)
  /\ Prim2SF (Hardware.accumulate [1; 2; 3; 4; 5; 6; 7; 8] PrimFloat.zero)
     = NumberUtils.accumulate [1; 2; 3; 4; 5; 6; 7; 8] (JS.of_Z 0).
Proof. repeat split; vm_compute; reflexivity. Qed.

(** C6.  Decoding a bit field does not depend on its representation: for
    every sequence of bytes, a buffer and a string whose characters have
    the bytes of the buffer as their low 8 bits decode to the same
    number, and the version of the function with only the string loop
    agrees on strings.  That number is the unsigned big-endian integer of
    the bytes whenever the integer is below 2^53 and there are at most
    128 bytes, in particular for up to six bytes; beyond that it is the
    sum as doubles accumulate it, rounded alike in both representations.
    The four bytes [0xFF] decode to 4294967295 in either
    representation.  The version with only the string loop reads a
    buffer through its text: the four bytes [0xFF] are no UTF-8, their
    text is four replacement characters, and the number is
    4261281277. *)
Theorem numberFromBitString_representation_independent :
  (forall (b : list byte) (s : jsstring),
      Forall2 (fun c x => Z.land c 255 = byte_to_Z x) s b ->
      NumberUtils.numberFromBitString (VStr s)
      = NumberUtils.numberFromBitString (VBuffer b))
  /\ (forall (engine : Engine) (s : jsstring),
         NumberUtilsTs.numberFromBitString (VStr s)
         = Ret (NumberUtils.numberFromBitString (VStr s)))
  /\ (forall b : list byte,
         (List.length b <= 128)%nat ->
         big_endian (List.map byte_to_Z b) < 2 ^ 53 ->
         exact_Z (NumberUtils.numberFromBitString (VBuffer b))
         = Some (big_endian (List.map byte_to_Z b)))
  /\ (forall b : list byte,
         (List.length b <= 6)%nat ->
         exact_Z (NumberUtils.numberFromBitString (VBuffer b))
         = Some (big_endian (List.map byte_to_Z b)))
  /\ NumberUtils.numberFromBitString (VBuffer [xff; xff; xff; xff]%byte)
     = of_Z 4294967295
  /\ NumberUtils.numberFromBitString (VStr [255; 255; 255; 255])
     = of_Z 4294967295
  /\ exact_Z (of_Z 4294967295) = Some 4294967295
  /\ NumberUtilsTs.numberFromBitString (engine := Reference.engine)
       (VBuffer [xff; xff; xff; xff]%byte)
     = Ret (of_Z 4261281277).
Proof.
  assert (Hrange : forall b : list byte,
             Forall (fun c => 0 <= c < 256) (List.map byte_to_Z b)).
  { intros b. apply Forall_forall. intros c Hc. apply in_map_iff in Hc.
    destruct Hc as (x & <- & _). apply byte_to_Z_range. }
  assert (Hexact : forall b : list byte,
             (List.length b <= 128)%nat ->
             big_endian (List.map byte_to_Z b) < 2 ^ 53 ->
             exact_Z (NumberUtils.numberFromBitString (VBuffer b))
             = Some (big_endian (List.map byte_to_Z b))).
  { intros b Hlen Hv. rewrite numberFromBitString_exact by assumption.
    apply exact_Z_of_Z. split; [|exact Hv].
    apply (big_endian_bound _ (Hrange b)). }
  split; [|split; [|split; [|split; [|split; [|split; [|split]]]]]].
  - intros b s H. unfold NumberUtils.numberFromBitString.
    rewrite (codes_of_string_bytes s b H). reflexivity.
  - intros engine s. reflexivity.
  - exact Hexact.
  - intros b Hlen. apply Hexact; [lia|].
    pose proof (big_endian_bound _ (Hrange b)) as Hb.
    rewrite length_map in Hb.
    assert (2 ^ (8 * Z.of_nat (List.length b)) <= 2 ^ 48)
      by (apply Z.pow_le_mono_r; lia).
    assert (2 ^ 48 < 2 ^ 53) by reflexivity.
    lia.
  - vm_compute. reflexivity.
  - vm_compute. reflexivity.
  - vm_compute. reflexivity.
  - vm_compute. reflexivity.
Qed.

(** The law at a string with high bits set: [0x1FF 0x2AB] against the
    bytes [FF AB], which decode to 65451. *)
Lemma numberFromBitString_representation_independent_witness :
  Forall2 (fun c x => Z.land c 255 = byte_to_Z x) [511; 683] [xff; xab]%byte
  /\ NumberUtils.numberFromBitString (VStr [511; 683])
     = NumberUtils.numberFromBitString (VBuffer [xff; xab]%byte)
  /\ (List.length [xff; xab]%byte <= 6)%nat
  /\ exact_Z (NumberUtils.numberFromBitString (VBuffer [xff; xab]%byte))
     = Some 65451
  /\ big_endian (List.map byte_to_Z [xff; xab]%byte) < 2 ^ 53
  /\ exact_Z (NumberUtils.numberFromBitString (VBuffer [xff; xab]%byte))
     = Some (big_endian (List.map byte_to_Z [xff; xab]%byte)).
Proof.
  destruct numberFromBitString_representation_independent
    as (Hsame & _ & Hexact & Hsix & _).
  assert (H : Forall2 (fun c x => Z.land c 255 = byte_to_Z x)
                [511; 683] [xff; xab]%byte).
  { repeat constructor. }
  assert (Hlen : (List.length [xff; xab]%byte <= 6)%nat) by (simpl; lia).
  assert (Hv : big_endian (List.map byte_to_Z [xff; xab]%byte) < 2 ^ 53)
    by reflexivity.
  split; [exact H|]. split; [exact (Hsame _ _ H)|].
  split; [exact Hlen|]. split; [exact (Hsix _ Hlen)|].
  split; [exact Hv|].
  apply Hexact; [simpl; lia | exact Hv].
Defined.

(** C6.  The claim fails as stated: it is not for every sequence of bytes
    that the two branches yield the unsigned big-endian integer.  The
    seven bytes [20 00 00 00 00 00 01] spell 2^53 + 1 = 9007199254740993;
    the buffer and the string both decode to 9007199254740992, because
    the last addition is rounded to 53 significant bits.  The two
    representations still agree with each other. *)
Lemma numberFromBitString_odd54_rounded :
  big_endian (List.map byte_to_Z Sample.odd54) = 9007199254740993
  /\ exact_Z (NumberUtils.numberFromBitString (VBuffer Sample.odd54))
     = Some 9007199254740992
  /\ exact_Z (NumberUtils.numberFromBitString (VStr [32; 0; 0; 0; 0; 0; 1]))
     = Some 9007199254740992
  /\ exact_Z (NumberUtils.numberFromBitString (VBuffer Sample.odd54))
     <> Some (big_endian (List.map byte_to_Z Sample.odd54))
  /\ exact_Z (NumberUtils.numberFromBitString (VStr [32; 0; 0; 0; 0; 0; 1]))
     <> Some (big_endian (List.map byte_to_Z Sample.odd54)).
Proof.
  repeat split; vm_compute; congruence.
Qed.

(** C5.  The claim fails as stated: the eight bytes [0xFF] do not decode
    to 18446744073709551615; the number returned has the value
    18446744073709551616. *)
Lemma numberFromBitString_ones8_not_exact :
  exact_Z (NumberUtils.numberFromBitString (VBuffer Sample.ones8))
  = Some 18446744073709551616
  /\ exact_Z (NumberUtils.numberFromBitString (VBuffer Sample.ones8))
     <> Some 18446744073709551615
  /\ exact_Z (NumberUtils.numberFromBitString (VStr (repeat 255 8)))
     <> Some 18446744073709551615.
Proof.
  repeat split; vm_compute; congruence.
Qed.

(** C5, amended.  Eight bytes [0xFF], as a buffer or as a string, decode
    to the double nearest to 18446744073709551615, which is 2^64: the
    sum is rounded to 53 bits and is not wrapped at 32 bits. *)
Theorem numberFromBitString_ones8_rounded :
  NumberUtils.numberFromBitString (VBuffer Sample.ones8)
  = of_Z 18446744073709551615
  /\ NumberUtils.numberFromBitString (VStr (repeat 255 8))
     = of_Z 18446744073709551615
  /\ of_Z 18446744073709551615 = pow2 64
  /\ exact_Z (pow2 64) = Some (2 ^ 64).
Proof.
  repeat split; vm_compute; reflexivity.
Qed.

(** ** compareDefaultValues *)

Lemma drop_quotes_prefix (s : jsstring) :
  exists n, s = repeat quote n ++ drop_quotes s.
Proof.
  induction s as [|c s [n IH]]; simpl.
  - exists O. reflexivity.
  - destruct (Z.eqb_spec c quote) as [->|Hc].
    + exists (S n). simpl. f_equal. exact IH.
    + exists O. reflexivity.
Qed.

Lemma drop_quotes_head (s : jsstring) : hd_error (drop_quotes s) <> Some quote.
Proof.
  induction s as [|c s IH]; simpl; [discriminate|].
  destruct (Z.eqb_spec c quote) as [->|Hc]; [exact IH|].
  simpl. congruence.
Qed.

Lemma repeat_rev {A : Type} (x : A) (n : nat) : rev (repeat x n) = repeat x n.
Proof.
  induction n as [|n IH]; simpl; [reflexivity|].
  rewrite IH. symmetry. apply repeat_cons.
Qed.

(** What [strip_quotes] removes: a run of quotes at each end, after which
    neither end is a quote. *)
Lemma strip_quotes_spec (s : jsstring) :
  (exists n m, s = repeat quote n ++ strip_quotes s ++ repeat quote m)
  /\ hd_error (strip_quotes s) <> Some quote
  /\ hd_error (rev (strip_quotes s)) <> Some quote.
Proof.
  unfold strip_quotes.
  destruct (drop_quotes_prefix s) as [n Hn].
  destruct (drop_quotes_prefix (rev (drop_quotes s))) as [m Hm].
  assert (Ht : drop_quotes s
               = rev (drop_quotes (rev (drop_quotes s))) ++ repeat quote m).
  { rewrite <- (rev_involutive (drop_quotes s)) at 1.
    rewrite Hm at 1. rewrite rev_app_distr, repeat_rev. reflexivity. }
  split; [|split].
  - exists n, m. rewrite <- Ht. exact Hn.
  - pose proof (drop_quotes_head s) as Hh. rewrite Ht in Hh.
    destruct (rev (drop_quotes (rev (drop_quotes s)))) as [|c t] eqn:E;
      [discriminate | exact Hh].
  - rewrite rev_involutive. apply drop_quotes_head.
Qed.

(** C9.  The claim fails as stated: on a doubly quoted literal the code
    answers [true], where stripping one layer of quotes from each side
    leaves ['a'] against [a]. *)
Lemma compareDefaultValues_not_one_layer :
  compareDefaultValues (VStr (str "''a''")) (VStr (str "'a'")) = true
  /\ AsSpecified.compareDefaultValues (VStr (str "''a''")) (VStr (str "'a'"))
     = false.
Proof. split; vm_compute; reflexivity. Qed.

(** C9, amended.  Two strings are compared after every leading and every
    trailing quote has been removed from each; when a side is not a
    string the unmodified values are compared with [===]. *)
Theorem compareDefaultValues_strips_quotes :
  (forall a b : jsstring,
      compareDefaultValues (VStr a) (VStr b) = true
      <-> strip_quotes a = strip_quotes b)
  /\ (forall s : jsstring,
         (exists n m, s = repeat quote n ++ strip_quotes s ++ repeat quote m)
         /\ hd_error (strip_quotes s) <> Some quote
         /\ hd_error (rev (strip_quotes s)) <> Some quote)
  /\ (forall a b : value,
         is_string a && is_string b = false ->
         compareDefaultValues a b = strict_eq a b)
  /\ compareDefaultValues (VStr (str "'CURRENT'")) (VStr (str "CURRENT")) = true
  /\ compareDefaultValues (VStr (str "'a'")) (VStr (str "'b'")) = false.
Proof.
  split; [|split; [|split; [|split]]].
  - intros a b. simpl. apply jsstring_eqb_eq.
  - exact strip_quotes_spec.
  - intros a b H. destruct a, b; simpl in *; try reflexivity; discriminate.
  - vm_compute. reflexivity.
  - vm_compute. reflexivity.
Qed.

Lemma compareDefaultValues_strips_quotes_witness :
  is_string VUndefined && is_string (VStr (str "x")) = false
  /\ compareDefaultValues VUndefined (VStr (str "x"))
     = strict_eq VUndefined (VStr (str "x")).
Proof.
  split; [reflexivity|].
  apply (proj1 (proj2 (proj2 compareDefaultValues_strips_quotes))).
  reflexivity.
Defined.

(** ** getColumnLength *)

(** C7.  The claim fails as stated: a column generated as a uuid that is
    not a primary key gets the length 36, where the claim gives it no
    length. *)
Lemma getColumnLength_uuid_not_primary :
  ColumnMetadata.isPrimary uuidColumn = false
  /\ getColumnLength (inl uuidColumn) = str "36"
  /\ AsSpecified.getColumnLength uuidColumn = str ""
  /\ getColumnLength (inl uuidColumn) <> AsSpecified.getColumnLength uuidColumn.
Proof. repeat split; vm_compute; congruence. Qed.

Lemma type_is_eq (t : ColumnType) (name : string) :
  type_is t name = true <-> t = TName (str name).
Proof.
  destruct t; simpl; try (split; [discriminate | discriminate]).
  rewrite jsstring_eqb_eq. split; [intros ->; reflexivity | congruence].
Qed.

Lemma strategy_is_eq (g : option GenerationStrategy) (s : GenerationStrategy) :
  strategy_is g s = true <-> g = Some s.
Proof.
  destruct g as [[]|], s; simpl; split; congruence.
Qed.

(** C7, amended.  [getColumnLength] returns the declared length when
    there is one; otherwise 36 when the generation strategy is uuid,
    whether the column is a primary key or not; otherwise 255 for the
    variable-length families; otherwise the empty string. *)
Theorem getColumnLength_cases (column : ColumnMetadata.t + TableColumn.t) :
  (column_length column <> [] ->
   getColumnLength column = column_length column)
  /\ (column_length column = [] ->
      column_generationStrategy column = Some uuid ->
      getColumnLength column = str "36")
  /\ (column_length column = [] ->
      column_generationStrategy column <> Some uuid ->
      variable_length (column_type column) ->
      getColumnLength column = str "255")
  /\ (column_length column = [] ->
      column_generationStrategy column <> Some uuid ->
      ~ variable_length (column_type column) ->
      getColumnLength column = str "").
Proof.
  unfold getColumnLength.
  split; [|split; [|split]].
  - destruct (column_length column); [congruence | reflexivity].
  - intros -> Hs. apply strategy_is_eq in Hs. rewrite Hs. reflexivity.
  - intros -> Hs Hv.
    destruct (strategy_is (column_generationStrategy column) uuid) eqn:E;
      [apply strategy_is_eq in E; contradiction|].
    destruct Hv as [-> | [-> | [-> | [-> | ->]]]]; reflexivity.
  - intros -> Hs Hv.
    destruct (strategy_is (column_generationStrategy column) uuid) eqn:E;
      [apply strategy_is_eq in E; contradiction|].
    unfold variable_length in Hv.
    destruct (column_type column) as [| | | | |name] eqn:Et;
      try reflexivity; [tauto|].
    destruct (type_is (TName name) "varchar") eqn:E1;
      [apply type_is_eq in E1; tauto|].
    destruct (type_is (TName name) "nvarchar") eqn:E2;
      [apply type_is_eq in E2; tauto|].
    destruct (type_is (TName name) "national varchar") eqn:E3;
      [apply type_is_eq in E3; tauto|].
    destruct (type_is (TName name) "varbinary") eqn:E4;
      [apply type_is_eq in E4; tauto|].
    reflexivity.
Qed.

Lemma getColumnLength_cases_witness :
  (column_length (inl titleColumn) <> []
   /\ getColumnLength (inl titleColumn) = str "100")
  /\ (column_length (inl uuidColumn) = []
      /\ column_generationStrategy (inl uuidColumn) = Some uuid
      /\ getColumnLength (inl uuidColumn) = str "36")
  /\ (column_length (inr (liveVarchar "name" "")) = []
      /\ column_generationStrategy (inr (liveVarchar "name" "")) <> Some uuid
      /\ variable_length (column_type (inr (liveVarchar "name" "")))
      /\ getColumnLength (inr (liveVarchar "name" "")) = str "255")
  /\ (column_length (inl idColumn) = []
      /\ column_generationStrategy (inl idColumn) <> Some uuid
      /\ ~ variable_length (column_type (inl idColumn))
      /\ getColumnLength (inl idColumn) = str "").
Proof.
  assert (H1 : column_length (inl titleColumn) <> []) by discriminate.
  assert (H3 : column_generationStrategy (inr (liveVarchar "name" ""))
               <> Some uuid) by discriminate.
  assert (H4 : variable_length (column_type (inr (liveVarchar "name" ""))))
    by (right; left; reflexivity).
  assert (H5 : column_generationStrategy (inl idColumn) <> Some uuid)
    by discriminate.
  assert (H6 : ~ variable_length (column_type (inl idColumn))).
  { intros [H | [H | [H | [H | H]]]]; discriminate H. }
  split; [split; [exact H1|]|split; [|split]].
  - exact (proj1 (getColumnLength_cases (inl titleColumn)) H1).
  - split; [reflexivity|]. split; [reflexivity|].
    exact (proj1 (proj2 (getColumnLength_cases (inl uuidColumn)))
             eq_refl eq_refl).
  - split; [reflexivity|]. split; [exact H3|]. split; [exact H4|].
    exact (proj1 (proj2 (proj2 (getColumnLength_cases
                                  (inr (liveVarchar "name" "")))))
             eq_refl H3 H4).
  - split; [reflexivity|]. split; [exact H5|]. split; [exact H6|].
    exact (proj2 (proj2 (proj2 (getColumnLength_cases (inl idColumn))))
             eq_refl H5 H6).
Defined.

(** ** parseTableName *)

Lemma split_on_segment (a s : jsstring) :
  dotless a -> split_on 46 (a ++ 46 :: s) = a :: split_on 46 s.
Proof.
  induction 1 as [|c a Hc _ IH]; simpl; [reflexivity|].
  destruct (Z.eqb_spec c 46) as [->|_]; [contradiction|].
  rewrite IH. reflexivity.
Qed.

Lemma split_on_nonempty (s : jsstring) : split_on 46 s <> [].
Proof.
  induction s as [|c s IH]; simpl; [discriminate|].
  destruct (c =? 46); [discriminate|].
  destruct (split_on 46 s); [contradiction | discriminate].
Qed.

(** C10.  The claim fails as stated: when the segment before the first
    dot is empty, the database is the default database of the driver and
    not that segment. *)
Lemma parseTableName_empty_first_segment :
  database (parseTableName (Some (str "main")) (TargetString (str ".b.c")))
  = Some (str "main")
  /\ database (parseTableName (Some (str "main")) (TargetString (str ".b.c")))
     <> Some (str "")
  /\ database (parseTableName None (TargetString (str ".b.c"))) = None.
Proof. repeat split; vm_compute; congruence. Qed.

(** C10, amended.  For a plain string with two dots or more the table
    name is the second segment and the later segments are dropped; the
    database is the first segment when that is not empty, and the default
    database of the driver otherwise. *)
Theorem parseTableName_extra_segments
    (driverDatabase : option jsstring) (a b rest : jsstring) :
  dotless a -> dotless b ->
  let parsed :=
    parseTableName driverDatabase (TargetString (a ++ 46 :: b ++ 46 :: rest)) in
  parsed_tableName parsed = b
  /\ schema parsed = None
  /\ (a <> [] -> database parsed = Some a)
  /\ (a = [] -> database parsed = driverDatabase).
Proof.
  intros Ha Hb. simpl. unfold parseTableName_string.
  rewrite (split_on_segment a _ Ha), (split_on_segment b _ Hb).
  pose proof (split_on_nonempty rest) as Hr.
  destruct (split_on 46 rest) as [|r rs]; [contradiction|].
  cbn [List.length nth nth_error parsed_tableName schema database].
  replace (1 <? Z.of_nat (S (S (S (List.length rs))))) with true
    by (symmetry; apply Z.ltb_lt; lia).
  repeat split.
  - intros Hne. destruct a; [contradiction | reflexivity].
  - intros ->. reflexivity.
Qed.

Lemma parseTableName_extra_segments_witness :
  dotless (str "a") /\ dotless (str "b") /\ dotless (str "")
  /\ parsed_tableName
       (parseTableName None
          (TargetString (str "a" ++ 46 :: str "b" ++ 46 :: str "c")))
     = str "b"
  /\ database
       (parseTableName None
          (TargetString (str "a" ++ 46 :: str "b" ++ 46 :: str "c")))
     = Some (str "a")
  /\ database
       (parseTableName (Some (str "main"))
          (TargetString (str "" ++ 46 :: str "b" ++ 46 :: str "c")))
     = Some (str "main").
Proof.
  assert (Ha : dotless (str "a")) by (repeat constructor; discriminate).
  assert (Hb : dotless (str "b")) by (repeat constructor; discriminate).
  assert (He : dotless (str "")) by constructor.
  split; [exact Ha|]. split; [exact Hb|]. split; [exact He|].
  destruct (parseTableName_extra_segments None (str "a") (str "b") (str "c")
              Ha Hb) as (Hname & _ & Hdb & _).
  destruct (parseTableName_extra_segments (Some (str "main")) (str "")
              (str "b") (str "c") He Hb) as (_ & _ & _ & Hdefault).
  split; [exact Hname|]. split.
  - apply Hdb. discriminate.
  - apply Hdefault. reflexivity.
Defined.

(** ** escapeQueryWithParameters *)

Section ParameterBinder.
Context {engine : Engine}.

Lemma take_key_run (name rest : jsstring) :
  Forall (fun c => is_key_char c = true) name -> starts_key rest = false ->
  take_key (name ++ rest) = (name, rest).
Proof.
  intros Hn Hr. induction Hn as [|c name Hc _ IH]; simpl.
  - destruct rest as [|c rest]; [reflexivity|].
    simpl in Hr. simpl. rewrite Hr. reflexivity.
  - rewrite Hc, IH. reflexivity.
Qed.

Lemma take_key_length (s : jsstring) :
  (List.length (snd (take_key s)) <= List.length s)%nat.
Proof.
  induction s as [|c s IH]; simpl; [lia|].
  destruct (is_key_char c); simpl; [|lia].
  destruct (take_key s) as [k r]. simpl in *. lia.
Qed.

Lemma match_placeholder_after (s : jsstring) (m : PlaceholderMatch) :
  match_placeholder s = Some m -> (List.length (after m) < List.length s)%nat.
Proof.
  destruct s as [|c tail]; [discriminate|]. simpl.
  destruct (c =? 58) eqn:Ec; [|destruct c as [|p|p]; try discriminate;
    repeat (destruct p as [p|p|]; try discriminate)].
  apply Z.eqb_eq in Ec. subst c.
  assert (Hplain : forall m',
             match take_key tail with
             | ([], _) => None
             | (k, rest) =>
                 Some {| full := 58 :: k; isArray := false; key := k;
                         after := rest |}
             end = Some m' ->
             (List.length (after m') < S (List.length tail))%nat).
  { intros m'. pose proof (take_key_length tail) as Hl.
    destruct (take_key tail) as [[|k0 k] rest]; [discriminate|].
    intros [= <-]. simpl in *. lia. }
  destruct tail as [|d1 tail1]; [apply Hplain|].
  destruct (d1 =? 46) eqn:E1;
    [apply Z.eqb_eq in E1; subst d1
    |destruct d1 as [|p|p]; try apply Hplain;
     repeat (destruct p as [p|p|]; try apply Hplain);
     discriminate].
  destruct tail1 as [|d2 tail2]; [apply Hplain|].
  destruct (d2 =? 46) eqn:E2;
    [apply Z.eqb_eq in E2; subst d2
    |destruct d2 as [|p|p]; try apply Hplain;
     repeat (destruct p as [p|p|]; try apply Hplain);
     discriminate].
  destruct tail2 as [|d3 tail3]; [apply Hplain|].
  destruct (d3 =? 46) eqn:E3;
    [apply Z.eqb_eq in E3; subst d3
    |destruct d3 as [|p|p]; try apply Hplain;
     repeat (destruct p as [p|p|]; try apply Hplain);
     discriminate].
  pose proof (take_key_length tail3) as Hl.
  destruct (take_key tail3) as [[|k0 k] rest] eqn:Et; [apply Hplain|].
  intros [= <-]. simpl in *. lia.
Qed.

(** Fuel beyond the length of the string changes nothing. *)
Lemma replace_placeholders_fuel (parameters : list (jsstring * value)) :
  forall (fuel1 fuel2 : nat) (sql : jsstring) (escaped : list value),
    (List.length sql <= fuel1)%nat -> (List.length sql <= fuel2)%nat ->
    replace_placeholders fuel1 parameters sql escaped
    = replace_placeholders fuel2 parameters sql escaped.
Proof.
  induction fuel1 as [|fuel1 IH]; intros fuel2 sql escaped H1 H2.
  - destruct sql; [|simpl in H1; lia]. destruct fuel2; reflexivity.
  - destruct sql as [|c rest]; [destruct fuel2; reflexivity|].
    destruct fuel2 as [|fuel2]; [simpl in H2; lia|].
    cbn [replace_placeholders].
    destruct (match_placeholder (c :: rest)) as [m|] eqn:Em.
    + apply match_placeholder_after in Em.
      destruct (replacer parameters escaped m) as [r|msg]; [|reflexivity].
      cbn [bind]. rewrite (IH fuel2); [reflexivity | |]; simpl in *; lia.
    + rewrite (IH fuel2); [reflexivity | |]; simpl in *; lia.
Qed.

(** One step of the scan at a match, and at a character that starts no
    match. *)
Lemma replace_placeholders_match (parameters : list (jsstring * value))
    (fuel : nat) (sql : jsstring) (escaped : list value) (m : PlaceholderMatch) :
  (List.length sql <= fuel)%nat -> match_placeholder sql = Some m ->
  replace_placeholders fuel parameters sql escaped
  = (r <- replacer parameters escaped m ;;
     o <- replace_placeholders fuel parameters (after m) (snd r) ;;
     Ret (fst r ++ fst o, snd o)).
Proof.
  intros Hf Hm. pose proof (match_placeholder_after _ _ Hm) as Ha.
  destruct sql as [|c rest]; [discriminate|].
  destruct fuel as [|fuel]; [simpl in Hf; lia|].
  cbn [replace_placeholders]. rewrite Hm.
  destruct (replacer parameters escaped m) as [r|msg]; [|reflexivity].
  cbn [bind].
  rewrite (replace_placeholders_fuel parameters fuel (S fuel));
    [reflexivity | |]; simpl in *; lia.
Qed.

Lemma replace_placeholders_literal (parameters : list (jsstring * value))
    (fuel : nat) (c : Z) (rest : jsstring) (escaped : list value) :
  (List.length (c :: rest) <= fuel)%nat -> match_placeholder (c :: rest) = None ->
  replace_placeholders fuel parameters (c :: rest) escaped
  = (o <- replace_placeholders fuel parameters rest escaped ;;
     Ret (c :: fst o, snd o)).
Proof.
  intros Hf Hm.
  destruct fuel as [|fuel]; [simpl in Hf; lia|].
  cbn [replace_placeholders]. rewrite Hm.
  rewrite (replace_placeholders_fuel parameters fuel (S fuel));
    [reflexivity | |]; simpl in *; lia.
Qed.


Lemma match_placeholder_spread (name rest : jsstring) :
  key_name name -> starts_key rest = false ->
  match_placeholder (58 :: 46 :: 46 :: 46 :: name ++ rest)
  = Some {| full := 58 :: 46 :: 46 :: 46 :: name; isArray := true;
            key := name; after := rest |}.
Proof.
  intros [Hne Hk] Hr. unfold match_placeholder.
  rewrite (take_key_run name rest Hk Hr).
  destruct name as [|c name]; [contradiction|]. reflexivity.
Qed.




Lemma match_placeholder_not_colon (c : Z) (rest : jsstring) :
  c <> 58 -> match_placeholder (c :: rest) = None.
Proof.
  intros Hc. simpl. destruct c as [|p|p]; try reflexivity.
  repeat (destruct p as [p|p|]; try reflexivity). contradiction.
Qed.


End ParameterBinder.


(** ** createGeneratedMap *)

Section GeneratedValueMapper.
Context {engine : Engine} {ormUtils : OrmUtils} {metadataApi : Metadata}.

Lemma reduce_nil {A : Type} (f : value -> A -> outcome value) (map : value) :
  reduce f [] map = Ret map.
Proof. reflexivity. Qed.

(** C3.  [createGeneratedMap] returns [undefined] for an absent insert
    result.  When the result carries a truthy [insertId], the value of a
    generated column with the increment strategy is
    [parseInt(insertId) + entityIndex]; for a column with another
    strategy the value is [undefined], and the contribution built from it
    is merged like any other.  The contributions are merged in the order
    of the generated columns, and the merged map is returned unless it
    has no key, in which case [undefined] is returned; an entity without
    generated columns gives [undefined].  With helpers that build the
    contribution of a column as the map from its database name to the
    value, and merge key by key, the result for generated columns of
    distinct names, none of them an array index (which an object
    enumerates first), is the map from each name to the value of its
    column, [undefined] included, so that it is [undefined] only for an
    entity without generated columns.  With [insertId] 100 the rows at the
    indices 0 and 1 get the ids 100 and 101, and an entity with an
    increment column and a uuid column gets the id and an [undefined]
    token. *)
Theorem createGeneratedMap_increment :
  (forall metadata insertResult entityIndex,
      truthy insertResult = false ->
      createGeneratedMap metadata insertResult entityIndex = Ret VUndefined)
  /\ (forall insertResult entityIndex generatedColumn,
         ColumnMetadata.generationStrategy generatedColumn = Some increment ->
         truthy (get_prop insertResult (str "insertId")) = true ->
         generatedValue insertResult entityIndex generatedColumn
         = VNum (add (parseInt (get_prop insertResult (str "insertId")))
                     entityIndex))
  /\ (forall insertResult entityIndex generatedColumn,
         ColumnMetadata.generationStrategy generatedColumn <> Some increment ->
         generatedValue insertResult entityIndex generatedColumn = VUndefined)
  /\ (forall metadata insertResult entityIndex,
         truthy (get_prop insertResult (str "insertId")) = true ->
         createGeneratedMap metadata insertResult entityIndex
         = (generatedMap <-
              reduce
                (fun map generatedColumn =>
                   contribution <-
                     createValueMap generatedColumn
                       (generatedValue insertResult entityIndex generatedColumn) ;;
                   mergeDeep map contribution)
                (generatedColumns metadata) (VObject []) ;;
            Ret (match own_entries generatedMap with
                 | [] => VUndefined
                 | _ :: _ => generatedMap
                 end)))
  /\ (forall metadata insertResult entityIndex result,
         truthy (get_prop insertResult (str "insertId")) = true ->
         createGeneratedMap metadata insertResult entityIndex = Ret result ->
         result = VUndefined \/ own_entries result <> [])
  /\ (forall metadata insertResult entityIndex,
         truthy (get_prop insertResult (str "insertId")) = true ->
         generatedColumns metadata = [] ->
         createGeneratedMap metadata insertResult entityIndex = Ret VUndefined)
  /\ (forall metadata insertResult entityIndex,
         truthy (get_prop insertResult (str "insertId")) = true ->
         NoDup (List.map ColumnMetadata.databaseName (generatedColumns metadata)) ->
         Forall (fun column =>
                   array_index (ColumnMetadata.databaseName column) = None)
                (generatedColumns metadata) ->
         createGeneratedMap (ormUtils := Reference.ormUtils)
           (metadataApi := Reference.metadataApi)
           metadata insertResult entityIndex
         = Ret (match generatedColumns metadata with
                | [] => VUndefined
                | _ :: _ =>
                    VObject
                      (List.map
                         (fun column =>
                            (ColumnMetadata.databaseName column,
                             generatedValue insertResult entityIndex column))
                         (generatedColumns metadata))
                end))
  /\ createGeneratedMap (engine := Reference.engine)
       (ormUtils := Reference.ormUtils) (metadataApi := Reference.metadataApi)
       idEntity insertResult100 (of_Z 0)
     = Ret (VObject [(str "id", Sample.num 100)])
  /\ createGeneratedMap (engine := Reference.engine)
       (ormUtils := Reference.ormUtils) (metadataApi := Reference.metadataApi)
       idEntity insertResult100 (of_Z 1)
     = Ret (VObject [(str "id", Sample.num 101)])
  /\ createGeneratedMap (engine := Reference.engine)
       (ormUtils := Reference.ormUtils) (metadataApi := Reference.metadataApi)
       idEntity insertResult100s (of_Z 1)
     = Ret (VObject [(str "id", Sample.num 101)])
  /\ createGeneratedMap (engine := Reference.engine)
       (ormUtils := Reference.ormUtils) (metadataApi := Reference.metadataApi)
       idTokenEntity insertResult100 (of_Z 1)
     = Ret (VObject [(str "id", Sample.num 101); (str "token", VUndefined)]).
Proof.
  assert (Hpath : forall (ormUtils' : OrmUtils) (metadataApi' : Metadata)
                         metadata insertResult entityIndex,
             truthy (get_prop insertResult (str "insertId")) = true ->
             createGeneratedMap (ormUtils := ormUtils')
               (metadataApi := metadataApi') metadata insertResult entityIndex
             = (generatedMap <-
                  reduce
                    (fun map generatedColumn =>
                       contribution <-
                         createValueMap generatedColumn
                           (generatedValue insertResult entityIndex
                              generatedColumn) ;;
                       mergeDeep map contribution)
                    (generatedColumns metadata) (VObject []) ;;
                Ret (match own_entries generatedMap with
                     | [] => VUndefined
                     | _ :: _ => generatedMap
                     end))).
  { intros ormUtils' metadataApi' metadata insertResult entityIndex Hid.
    unfold createGeneratedMap.
    assert (Hres : truthy insertResult = true).
    { destruct insertResult; try discriminate Hid. reflexivity. }
    rewrite Hres. cbn [negb].
    destruct (get_prop insertResult (str "insertId")) eqn:E;
      try discriminate Hid; cbn [strict_eq];
      try (f_equal; fail);
      try (destruct (reduce _ _ _) as [g|msg]; [|reflexivity]; cbn [bind];
           destruct (own_entries g); reflexivity).
    all: destruct (reduce _ _ _) as [g|msg]; [|reflexivity]; cbn [bind];
      destruct (own_entries g); reflexivity. }
  assert (Hfresh : forall (props : list (jsstring * value)) name v,
             ~ In name (keys props) -> array_index name = None ->
             set_own props name v = props ++ [(name, v)]).
  { intros props name v Hin Hindex. unfold set_own.
    assert (Hnone : get_own props name = None).
    { induction props as [|[k x] props IH]; [reflexivity|].
      cbn [get_own]. destruct (jsstring_eqb k name) eqn:E.
      - apply jsstring_eqb_eq in E. subst k. exfalso. apply Hin. left.
        reflexivity.
      - apply IH. intros H. apply Hin. right. exact H. }
    rewrite Hnone. clear Hin Hnone.
    induction props as [|[k x] props IH]; [reflexivity|].
    cbn [add_own]. rewrite Hindex, IH. reflexivity. }
  assert (Hmerge : forall insertResult entityIndex columns props,
             NoDup (keys props ++ List.map ColumnMetadata.databaseName columns) ->
             Forall (fun column =>
                       array_index (ColumnMetadata.databaseName column) = None)
                    columns ->
             reduce
               (fun map generatedColumn =>
                  contribution <-
                    createValueMap (Metadata := Reference.metadataApi)
                      generatedColumn
                      (generatedValue insertResult entityIndex generatedColumn) ;;
                  mergeDeep (OrmUtils := Reference.ormUtils) map contribution)
               columns (VObject props)
             = Ret (VObject
                      (props
                       ++ List.map
                            (fun column =>
                               (ColumnMetadata.databaseName column,
                                generatedValue insertResult entityIndex column))
                            columns))).
  { intros insertResult entityIndex columns.
    induction columns as [|c columns IH]; intros props Hd Hindex.
    - cbn [reduce List.map]. rewrite app_nil_r. reflexivity.
    - cbn [reduce createValueMap Reference.metadataApi mergeDeep
           Reference.ormUtils bind own_entries fold_left fst snd].
      cbn [List.map] in Hd.
      inversion Hindex as [|? ? Hc Hrest]; subst.
      rewrite Hfresh.
      + rewrite IH.
        * cbn [List.map]. rewrite <- app_assoc. reflexivity.
        * unfold keys in *. rewrite map_app. cbn [List.map fst].
          rewrite <- app_assoc. exact Hd.
        * exact Hrest.
      + intros Hin. apply NoDup_remove_2 in Hd. apply Hd.
        apply in_or_app. left. exact Hin.
      + exact Hc. }
  split; [|split; [|split; [|split; [|split; [|split; [|split;
    [|split; [|split; [|split]]]]]]]]].
  - intros metadata insertResult entityIndex H.
    unfold createGeneratedMap. rewrite H. reflexivity.
  - intros insertResult entityIndex generatedColumn Hs Hid.
    unfold generatedValue. rewrite Hs, Hid. reflexivity.
  - intros insertResult entityIndex generatedColumn Hs.
    unfold generatedValue.
    destruct (strategy_is _ increment) eqn:E; [|reflexivity].
    apply strategy_is_eq in E. contradiction.
  - apply Hpath.
  - intros metadata insertResult entityIndex result Hid.
    rewrite (Hpath _ _ _ _ _ Hid).
    destruct (reduce _ _ _) as [g|msg]; [|discriminate]. cbn [bind].
    destruct (own_entries g) eqn:E; intros [= <-]; [left; reflexivity|].
    right. rewrite E. discriminate.
  - intros metadata insertResult entityIndex Hid Hg.
    rewrite (Hpath _ _ _ _ _ Hid), Hg. reflexivity.
  - intros metadata insertResult entityIndex Hid Hd Hindex.
    rewrite (Hpath _ _ _ _ _ Hid), Hmerge by assumption.
    cbn [bind app own_entries].
    destruct (generatedColumns metadata); reflexivity.
  - vm_compute. reflexivity.
  - vm_compute. reflexivity.
  - vm_compute. reflexivity.
  - vm_compute. reflexivity.
Qed.

End GeneratedValueMapper.

Lemma createGeneratedMap_increment_witness :
  truthy VUndefined = false
  /\ createGeneratedMap (engine := Reference.engine)
       (ormUtils := Reference.ormUtils) (metadataApi := Reference.metadataApi)
       idEntity VUndefined (of_Z 0) = Ret VUndefined
  /\ ColumnMetadata.generationStrategy idColumn = Some increment
  /\ truthy (get_prop insertResult100 (str "insertId")) = true
  /\ generatedValue (engine := Reference.engine) insertResult100 (of_Z 1) idColumn
     = Sample.num 101
  /\ ColumnMetadata.generationStrategy uuidColumn <> Some increment
  /\ generatedValue (engine := Reference.engine) insertResult100 (of_Z 1)
       uuidColumn = VUndefined
  /\ (VObject [(str "id", Sample.num 100)] = VUndefined
      \/ own_entries (VObject [(str "id", Sample.num 100)]) <> [])
  /\ generatedColumns plainEntity = []
  /\ createGeneratedMap (engine := Reference.engine)
       (ormUtils := Reference.ormUtils) (metadataApi := Reference.metadataApi)
       plainEntity insertResult100 (of_Z 0) = Ret VUndefined
  /\ NoDup (List.map ColumnMetadata.databaseName (generatedColumns idTokenEntity))
  /\ Forall (fun column =>
               array_index (ColumnMetadata.databaseName column) = None)
            (generatedColumns idTokenEntity)
  /\ createGeneratedMap (engine := Reference.engine)
       (ormUtils := Reference.ormUtils) (metadataApi := Reference.metadataApi)
       idTokenEntity insertResult100s (of_Z 2)
     = Ret (VObject [(str "id", Sample.num 102); (str "token", VUndefined)]).
Proof.
  destruct (createGeneratedMap_increment (engine := Reference.engine)
              (ormUtils := Reference.ormUtils)
              (metadataApi := Reference.metadataApi))
    as (Habsent & Hinc & Hother & _ & Hnonempty & Hnone & Hclosed & Hrun & _).
  assert (H1 : truthy VUndefined = false) by reflexivity.
  assert (H2 : ColumnMetadata.generationStrategy idColumn = Some increment)
    by reflexivity.
  assert (H3 : truthy (get_prop insertResult100 (str "insertId")) = true)
    by reflexivity.
  assert (H4 : ColumnMetadata.generationStrategy uuidColumn <> Some increment)
    by discriminate.
  assert (H5 : NoDup (List.map ColumnMetadata.databaseName
                        (generatedColumns idTokenEntity))).
  { repeat constructor; cbn; intuition discriminate. }
  assert (H6 : Forall (fun column =>
                         array_index (ColumnMetadata.databaseName column) = None)
                      (generatedColumns idTokenEntity)).
  { repeat constructor. }
  split; [exact H1|]. split; [exact (Habsent idEntity VUndefined (of_Z 0) H1)|].
  split; [exact H2|]. split; [exact H3|].
  split; [exact (Hinc insertResult100 (of_Z 1) idColumn H2 H3)|].
  split; [exact H4|].
  split; [exact (Hother insertResult100 (of_Z 1) uuidColumn H4)|].
  split; [exact (Hnonempty idEntity insertResult100 (of_Z 0) _ H3 Hrun)|].
  split; [reflexivity|].
  split; [exact (Hnone plainEntity insertResult100 (of_Z 0) H3 eq_refl)|].
  split; [exact H5|].
  split; [exact H6|].
  exact (Hclosed idTokenEntity insertResult100s (of_Z 2) eq_refl H5 H6).
Defined.

(** C3.  The claim fails as stated: the result is not absent whenever no
    generated value was merged.  For an entity whose only generated
    column has the uuid strategy no value is generated, the contribution
    built from [undefined] is merged all the same, and the result is the
    map with the key [token] and the value [undefined]; the helpers are
    those modelled from the specification. *)
Lemma createGeneratedMap_no_value_not_absent :
  ColumnMetadata.generationStrategy uuidColumn <> Some increment
  /\ generatedValue (engine := Reference.engine) insertResult100 (of_Z 0)
       uuidColumn = VUndefined
  /\ createGeneratedMap (engine := Reference.engine)
       (ormUtils := Reference.ormUtils) (metadataApi := Reference.metadataApi)
       tokenEntity insertResult100 (of_Z 0)
     = Ret (VObject [(str "token", VUndefined)])
  /\ VObject [(str "token", VUndefined)] <> VUndefined.
Proof. repeat split; try discriminate; vm_compute; reflexivity. Qed.

(** ** Numbers and numerals *)

Lemma iter_pos_invariant {A : Type} (P : A -> Prop) (f : A -> A) :
  (forall x, P x -> P (f x)) -> forall p x, P x -> P (iter_pos f p x).
Proof.
  intros Hf. induction p as [p IH|p IH|]; intros x Hx; simpl; auto.
Qed.

Lemma shr_1_nonneg (mrs : shr_record) : 0 <= shr_m mrs -> 0 <= shr_m (shr_1 mrs).
Proof.
  destruct mrs as [m r s']. simpl.
  destruct m as [|[p|p|]|[p|p|]]; simpl; lia.
Qed.

Lemma shr_fexp_nonneg (m e : Z) (l : location) :
  0 <= m -> 0 <= shr_m (fst (shr_fexp prec emax m e l)).
Proof.
  intros Hm. unfold shr_fexp, shr.
  assert (H0 : 0 <= shr_m (shr_record_of_loc m l))
    by (destruct l as [|[]]; exact Hm).
  destruct (fexp prec emax (Zdigits2 m + e) - e) as [|p|p]; simpl; auto.
  apply (iter_pos_invariant (fun x => 0 <= shr_m x)); [|exact H0].
  exact shr_1_nonneg.
Qed.

Lemma round_nearest_even_nonneg (m : Z) (l : location) :
  0 <= m -> 0 <= round_nearest_even m l.
Proof.
  intros Hm. destruct l as [|[]]; simpl; try lia.
  destruct (Z.even m); lia.
Qed.

(** The double of an integer is a number. *)
Lemma of_Z_not_nan (z : Z) : is_nan (of_Z z) = false.
Proof.
  unfold of_Z, binary_normalize.
  assert (H : forall sx m, is_nan (binary_round prec emax sx m 0) = false).
  { intros sx m. unfold binary_round.
    destruct (shl_align m 0 _) as [mz ez].
    unfold binary_round_aux.
    pose proof (shr_fexp_nonneg (Z.pos mz) ez loc_Exact ltac:(lia)) as H1.
    destruct (shr_fexp prec emax (Z.pos mz) ez loc_Exact) as [mrs' e'].
    simpl in H1.
    pose proof (shr_fexp_nonneg
                  (round_nearest_even (shr_m mrs') (loc_of_shr_record mrs'))
                  e' loc_Exact
                  (round_nearest_even_nonneg _ _ H1)) as H2.
    destruct (shr_fexp prec emax _ e' loc_Exact) as [mrs'' e''].
    simpl in H2.
    destruct (shr_m mrs'') as [|p|p]; [reflexivity| |lia].
    destruct (e'' <=? emax - prec); reflexivity. }
  destruct z; [reflexivity | apply H | apply H].
Qed.

Lemma horner_cons (acc c : Z) (digits : jsstring) :
  horner acc (c :: digits) = horner (acc * 10 + (c - 48)) digits.
Proof. reflexivity. Qed.

Lemma read_digits_decimal (digits : jsstring) :
  Forall (fun c => is_digit c = true) digits ->
  forall count acc,
    read_digits 10 digits count acc
    = ((count + List.length digits)%nat, horner acc digits).
Proof.
  induction 1 as [|c digits Hc _ IH]; intros count acc; simpl.
  - rewrite Nat.add_0_r. reflexivity.
  - unfold digit_value. unfold is_digit in Hc. rewrite Hc.
    rewrite IH. f_equal. lia.
Qed.

Lemma decimal_digits_spec :
  forall (fuel : nat) (n : Z) (acc : jsstring),
    (0 < fuel)%nat -> 0 <= n < 2 ^ Z.of_nat fuel ->
    Forall (fun c => is_digit c = true) acc ->
    Forall (fun c => is_digit c = true) (decimal_digits fuel n acc)
    /\ decimal_digits fuel n acc <> []
    /\ horner 0 (decimal_digits fuel n acc) = horner n acc.
Proof.
  induction fuel as [|fuel IH]; intros n acc Hf Hn Hacc; [lia|].
  cbn [decimal_digits].
  destruct (Z.ltb_spec n 10) as [Hlt|Hge].
  - repeat split.
    + constructor; [|exact Hacc]. unfold is_digit, digit_code.
      apply andb_true_iff; split; apply Z.leb_le; lia.
    + discriminate.
    + rewrite horner_cons. unfold digit_code. f_equal. lia.
  - assert (Hpow : 2 ^ Z.of_nat (S fuel) = 2 * 2 ^ Z.of_nat fuel).
    { rewrite Nat2Z.inj_succ, Z.pow_succ_r; lia. }
    assert (Hfuel : (0 < fuel)%nat).
    { destruct fuel; [|lia]. simpl in Hn. lia. }
    assert (Hdigit : is_digit (digit_code (n mod 10)) = true).
    { unfold is_digit, digit_code.
      pose proof (Z.mod_pos_bound n 10 ltac:(lia)).
      apply andb_true_iff; split; apply Z.leb_le; lia. }
    destruct (IH (n / 10) (digit_code (n mod 10) :: acc) Hfuel) as (H1 & H2 & H3).
    + split; [apply Z.div_pos; lia|].
      apply Z.div_lt_upper_bound; lia.
    + constructor; assumption.
    + repeat split; [exact H1 | exact H2|].
      rewrite H3, horner_cons. unfold digit_code. f_equal.
      pose proof (Z.div_mod n 10 ltac:(lia)). lia.
Qed.

Lemma decimal_magnitude (n : Z) :
  0 <= n ->
  let digits := decimal_digits (S (Z.to_nat (Z.log2 n))) n [] in
  Forall (fun c => is_digit c = true) digits
  /\ digits <> [] /\ horner 0 digits = n.
Proof.
  intros Hn digits. subst digits.
  apply decimal_digits_spec; [lia | | constructor].
  split; [exact Hn|].
  rewrite Nat2Z.inj_succ, Z2Nat.id by apply Z.log2_nonneg.
  destruct (Z.eq_dec n 0) as [->|Hz]; [reflexivity|].
  apply Z.log2_spec. lia.
Qed.

Lemma digit_not_space (c : Z) : is_digit c = true -> is_whitespace c = false.
Proof.
  unfold is_digit, is_whitespace. intros H.
  apply andb_true_iff in H. destruct H as [H1 H2].
  apply Z.leb_le in H1. apply Z.leb_le in H2.
  repeat (apply orb_false_iff; split);
    try (apply Z.eqb_neq; lia).
  apply andb_false_iff. left. apply Z.leb_gt. lia.
Qed.

(** Reading the decimal numeral of [z] gives the double of [z]. *)
Lemma parseInt_string_decimal (z : Z) : parseInt_string (decimal z) = of_Z z.
Proof.
  unfold decimal.
  destruct (decimal_magnitude (Z.abs z) (Z.abs_nonneg z)) as (Hd & Hne & Hv).
  destruct (decimal_digits _ _ _) as [|d digits]; [contradiction|].
  assert (Hd0 : is_digit d = true) by (inversion Hd; assumption).
  assert (Hrange : 48 <= d <= 57).
  { unfold is_digit in Hd0. apply andb_true_iff in Hd0.
    destruct Hd0 as [H1 H2]. apply Z.leb_le in H1. apply Z.leb_le in H2. lia. }
  assert (Hhex : match d :: digits with
                 | c0 :: c1 :: _ => (c0 =? 48) && ((c1 =? 120) || (c1 =? 88))
                 | _ => false
                 end = false).
  { destruct digits as [|d1 digits']; [reflexivity|].
    inversion Hd as [|? ? _ Hd']; subst. inversion Hd' as [|? ? Hd1 _]; subst.
    unfold is_digit in Hd1. apply andb_true_iff in Hd1.
    destruct Hd1 as [H1 H2]. apply Z.leb_le in H1. apply Z.leb_le in H2.
    apply andb_false_iff. right. apply orb_false_iff.
    split; apply Z.eqb_neq; lia. }
  unfold parseInt_string.
  destruct (Z.ltb_spec z 0) as [Hneg|Hpos].
  - cbn [skip_whitespace]. replace (is_whitespace 45) with false by reflexivity.
    cbn [Z.eqb orb Pos.eqb]. simpl (45 =? 45). cbn [orb].
    rewrite Hhex.
    rewrite (read_digits_decimal _ Hd). simpl (0 + _)%nat.
    cbn [List.length]. rewrite Hv.
    destruct (Z.eqb_spec (Z.abs z) 0) as [Hz|Hz]; [lia|].
    f_equal. lia.
  - cbn [skip_whitespace]. rewrite (digit_not_space d Hd0).
    replace (d =? 45) with false by (symmetry; apply Z.eqb_neq; lia).
    replace (d =? 43) with false by (symmetry; apply Z.eqb_neq; lia).
    cbn [orb]. rewrite Hhex.
    rewrite (read_digits_decimal _ Hd). simpl (0 + _)%nat.
    cbn [List.length]. rewrite Hv.
    destruct (Z.eqb_spec (Z.abs z) 0) as [Hz|Hz].
    + assert (z = 0) by lia. subst z. reflexivity.
    + f_equal. lia.
Qed.

(** ** The value marshaller *)

Lemma bind_ret {A : Type} (m : outcome A) : (x <- m ;; Ret x) = m.
Proof. destruct m; reflexivity. Qed.

Lemma unconverted_name (name : jsstring) (n : string) :
  Forall (fun n => name <> str n) converted_names ->
  In n converted_names -> type_is (TName name) n = false.
Proof.
  intros Hall Hin. rewrite Forall_forall in Hall.
  simpl. apply jsstring_eqb_neq. exact (Hall n Hin).
Qed.

Section Marshaller.
Context {engine : Engine} {dateUtils : DateUtils}.

(** C8, amended.  Hydrating a value of a datetime or [Date] column hands
    it to the date normalizer, after appending [Z] when the value is a
    string, whether or not the string already ends with [Z]; a value that
    is not a string is handed over unchanged. *)
Theorem prepareHydratedValue_datetime_marker
    (value : value) (col : ColumnMetadata.t) :
  ColumnMetadata.transformer col = None ->
  datetime_type (ColumnMetadata.type col) ->
  is_nullish value = false ->
  prepareHydratedValue value col = normalizeHydratedDate (with_utc_marker value)
  /\ (forall s, value = VStr s ->
                prepareHydratedValue value col
                = normalizeHydratedDate (VStr (s ++ str "Z")))
  /\ (is_string value = false ->
      prepareHydratedValue value col = normalizeHydratedDate value).
Proof.
  intros Ht Hty Hn.
  assert (H : prepareHydratedValue value col
              = normalizeHydratedDate (with_utc_marker value)).
  { unfold prepareHydratedValue. rewrite Ht, Hn.
    destruct Hty as [-> | ->]; cbn [is_Boolean is_Date orb];
      [|replace (type_is (TName (str "datetime")) "bool") with false
          by reflexivity;
        replace (type_is (TName (str "datetime")) "boolean") with false
          by reflexivity;
        replace (type_is (TName (str "datetime")) "datetime") with true
          by reflexivity];
      cbn [type_is orb]; apply bind_ret. }
  split; [exact H|]. split.
  - intros s ->. exact H.
  - intros Hs. rewrite H. destruct value; try reflexivity. discriminate.
Qed.


(** The type tests at a known type name are decided by computation. *)
Ltac decide_types :=
  repeat match goal with
         | |- context [type_is (TName (str ?a)) ?b] =>
             let r := eval vm_compute in (type_is (TName (str a)) b) in
             change (type_is (TName (str a)) b) with r
         end;
  cbn [is_Boolean is_Number is_Date type_is orb andb negb].

Lemma toNumberIfNumber_integer (z : Z) :
  NumberToString (of_Z z) = decimal z ->
  toNumberIfNumber (VNum (of_Z z)) = VNum (of_Z z).
Proof.
  intros Hs. unfold toNumberIfNumber, parseInt. cbn [ToNumber ToString].
  rewrite of_Z_not_nan, Hs, parseInt_string_decimal. reflexivity.
Qed.

Lemma includes_no_number (members : list value) (n : number) :
  Forall (fun e => match e with VNum _ => False | _ => True end) members ->
  includes members (VNum n) = false.
Proof.
  induction 1 as [|e members He _ IH]; [reflexivity|].
  unfold includes in *. simpl. rewrite IH.
  destruct e; try reflexivity. contradiction.
Qed.

(** C1, amended.  For a column without a transformer, hydrating the
    persisted form of [x] gives [x] back when [x] is null or undefined, a
    boolean of a boolean column, an integer of a [Number] column, a
    member of an enum, any value of a type that neither function
    converts, and, for the types converted by [DateUtils] and [JSON],
    when the helpers involved are inverse at [x]. *)
Theorem marshaller_round_trip (col : ColumnMetadata.t) (x : value) :
  ColumnMetadata.transformer col = None ->
  roundTrips col x ->
  (v <- preparePersistentValue x col ;; prepareHydratedValue v col) = Ret x.
Proof.
  intros Ht Hx.
  destruct (is_nullish x) eqn:Hnull.
  { unfold preparePersistentValue, prepareHydratedValue.
    rewrite Ht. cbn [bind]. rewrite Hnull. cbn [bind]. rewrite Hnull.
    reflexivity. }
  unfold preparePersistentValue. rewrite Ht. cbn [bind]. rewrite Hnull.
  destruct Hx as [v Hv | b Hb | z Hty Hs | s Hty Hno | z members Hty He Hin Hs Hnan
                 | v Hty | v w Hty Hw H1 H2 | v w Hty Hw H1 H2 | v s Hty H1 H2
                 | v Hty H1 | v w Hty Hw H1 H2 | v w Hty Hw H1 H2
                 | v w Hty Hw H1 H2].
  - congruence.
  - unfold prepareHydratedValue.
    destruct Hb as [-> | [-> | ->]]; decide_types; cbn [bind];
      rewrite ?Ht; destruct b; reflexivity.
  - rewrite Hty. decide_types. cbn [bind].
    rewrite (toNumberIfNumber_integer z Hs).
    unfold prepareHydratedValue. rewrite Ht, Hty. decide_types.
    cbn [is_nullish bind].
    rewrite (toNumberIfNumber_integer z Hs). reflexivity.
  - unfold prepareHydratedValue. rewrite Ht.
    assert (Hinc : match ColumnMetadata.enum col with
                   | Some enum =>
                       negb (isNaN (VStr s))
                       && includes enum (VNum (parseInt (VStr s)))
                   | None => false
                   end = false).
    { destruct (ColumnMetadata.enum col) as [members|]; [|reflexivity].
      rewrite (includes_no_number members _ Hno). apply andb_false_r. }
    destruct Hty as [-> | ->]; decide_types; cbn [bind ToString is_nullish];
      rewrite Hinc; reflexivity.
  - unfold prepareHydratedValue. rewrite Ht, He.
    assert (Hp : parseInt (VStr (decimal z)) = of_Z z).
    { unfold parseInt. cbn [ToString]. apply parseInt_string_decimal. }
    assert (Hn : isNaN (VStr (decimal z)) = false).
    { unfold isNaN. cbn [ToNumber]. exact Hnan. }
    destruct Hty as [-> | ->]; decide_types; cbn [bind ToString is_nullish];
      rewrite Hs; cbn [is_nullish]; rewrite Hn, Hp, Hin; reflexivity.
  - unfold prepareHydratedValue. rewrite Ht.
    destruct Hty as [-> | [-> | (name & -> & Hall)]].
    + cbn [is_Boolean is_Number is_Date type_is orb andb bind].
      rewrite Hnull. reflexivity.
    + cbn [is_Boolean is_Number is_Date type_is orb andb bind].
      rewrite Hnull. reflexivity.
    + cbn [is_Boolean is_Number is_Date].
      repeat match goal with
             | |- context [type_is (TName name) ?n] =>
                 rewrite (unconverted_name name n Hall) by (simpl; tauto)
             end.
      cbn [orb andb bind]. rewrite Hnull. reflexivity.
  - rewrite Hty. decide_types. rewrite H1. cbn [bind].
    unfold prepareHydratedValue. rewrite Ht, Hw, Hty. decide_types.
    rewrite H2. reflexivity.
  - rewrite Hty. decide_types. rewrite H1. cbn [bind].
    unfold prepareHydratedValue. rewrite Ht, Hw, Hty. decide_types.
    rewrite H2. reflexivity.
  - rewrite Hty. decide_types. rewrite H1. cbn [bind].
    unfold prepareHydratedValue. rewrite Ht, Hty. decide_types.
    cbn [is_nullish]. rewrite H2. reflexivity.
  - rewrite Hty. decide_types. rewrite H1. cbn [bind].
    unfold prepareHydratedValue. rewrite Ht, Hnull, Hty. decide_types.
    reflexivity.
  - unfold prepareHydratedValue.
    destruct Hty as [-> | ->]; decide_types; rewrite H1; cbn [bind];
      rewrite Ht, Hw; fold (with_utc_marker w); rewrite H2; reflexivity.
  - unfold prepareHydratedValue.
    destruct Hty as [-> | ->]; rewrite Ht; decide_types; rewrite H1;
      cbn [bind]; rewrite Hw, H2; reflexivity.
  - rewrite Hty. decide_types. rewrite H1. cbn [bind].
    unfold prepareHydratedValue. rewrite Ht, Hw, Hty. decide_types.
    rewrite H2. reflexivity.
Qed.

End Marshaller.

(** ** findChangedColumns *)









Section SchemaDiffEngine.
Context {engine : Engine} {dateUtils : DateUtils} {ormUtils : OrmUtils}.








End SchemaDiffEngine.




(** ** The marshaller on concrete values *)

(** C1.  The claim fails as stated: the number 5 of a [bit] column is
    persisted as it is, and hydrating the number 5 gives 0, because the
    bit-field decoder reads buffers and strings only.  With the decoder
    of [src/util/NumberUtils.ts], which reads the numeral "5" as a bit
    string, the result would be 53. *)
Lemma bit_column_round_trip_fails :
  ColumnMetadata.transformer bitColumn = None
  /\ preparePersistentValue (engine := Reference.engine)
       (dateUtils := Reference.dateUtils) (Sample.num 5) bitColumn
     = Ret (Sample.num 5)
  /\ (v <- preparePersistentValue (engine := Reference.engine)
             (dateUtils := Reference.dateUtils) (Sample.num 5) bitColumn ;;
      prepareHydratedValue (engine := Reference.engine)
        (dateUtils := Reference.dateUtils) v bitColumn)
     = Ret (Sample.num 0)
  /\ Sample.num 0 <> Sample.num 5
  /\ NumberUtilsTs.numberFromBitString (engine := Reference.engine)
       (Sample.num 5)
     = Ret (of_Z 53).
Proof. repeat split; vm_compute; congruence. Qed.

Lemma marshaller_round_trip_witness :
  ColumnMetadata.transformer idColumn = None
  /\ roundTrips (engine := Reference.engine) (dateUtils := Reference.dateUtils)
       idColumn (VNum (of_Z 42))
  /\ (v <- preparePersistentValue (engine := Reference.engine)
             (dateUtils := Reference.dateUtils) (VNum (of_Z 42)) idColumn ;;
      prepareHydratedValue (engine := Reference.engine)
        (dateUtils := Reference.dateUtils) v idColumn)
     = Ret (VNum (of_Z 42)).
Proof.
  assert (Hr : roundTrips (engine := Reference.engine)
                 (dateUtils := Reference.dateUtils) idColumn (VNum (of_Z 42))).
  { apply rt_number; reflexivity. }
  split; [reflexivity|]. split; [exact Hr|].
  exact (marshaller_round_trip (engine := Reference.engine)
           (dateUtils := Reference.dateUtils) idColumn (VNum (of_Z 42))
           eq_refl Hr).
Defined.

(** C8.  The claim fails as stated: a string that already ends with the
    UTC marker is given a second one before it reaches the normalizer
    (which here hands its argument back). *)
Lemma prepareHydratedValue_second_marker :
  prepareHydratedValue (engine := Reference.engine)
    (dateUtils := Reference.dateUtils)
    (VStr (str "2024-01-01T10:00:00.000Z")) datetimeColumn
  = Ret (VStr (str "2024-01-01T10:00:00.000ZZ")).
Proof. vm_compute. reflexivity. Qed.

Lemma prepareHydratedValue_datetime_marker_witness :
  ColumnMetadata.transformer datetimeColumn = None
  /\ datetime_type (ColumnMetadata.type datetimeColumn)
  /\ is_nullish (VStr (str "2024-01-01 10:00:00")) = false
  /\ prepareHydratedValue (engine := Reference.engine)
       (dateUtils := Reference.dateUtils)
       (VStr (str "2024-01-01 10:00:00")) datetimeColumn
     = normalizeHydratedDate (DateUtils := Reference.dateUtils)
         (VStr (str "2024-01-01 10:00:00" ++ str "Z")).
Proof.
  assert (Hty : datetime_type (ColumnMetadata.type datetimeColumn))
    by (right; reflexivity).
  split; [reflexivity|]. split; [exact Hty|]. split; [reflexivity|].
  exact (proj1 (proj2 (prepareHydratedValue_datetime_marker
                         (engine := Reference.engine)
                         (dateUtils := Reference.dateUtils)
                         (VStr (str "2024-01-01 10:00:00")) datetimeColumn
                         eq_refl Hty eq_refl))
           (str "2024-01-01 10:00:00") eq_refl).
Defined.

(** * Further properties of the drivers *)

(** ** normalizeType *)

(** X1.  [normalizeType] is idempotent: the name it returns is returned
    unchanged when it is normalized again, for the five constructors and
    for every type name, known or not. *)
Theorem normalizeType_idempotent (t : ColumnType) :
  normalizeType (TName (normalizeType t)) = normalizeType t.
Proof.
  destruct t as [| | | | |n]; try reflexivity.
  unfold normalizeType.
  repeat match goal with
         | |- context [type_is (TName n) ?a] =>
             let E := fresh "E" in
             destruct (type_is (TName n) a) eqn:E;
             cbn [orb]; [reflexivity|]
         end.
  repeat match goal with
         | E : type_is (TName n) _ = false |- _ => rewrite E; clear E
         end.
  reflexivity.
Qed.

Lemma In_jsstring_dec (x : jsstring) (l : list jsstring) :
  existsb (jsstring_eqb x) l = true -> In x l.
Proof.
  intros H. apply existsb_exists in H. destruct H as (y & Hy & E).
  apply jsstring_eqb_eq in E. subst y. exact Hy.
Qed.

(** X2.  [normalizeType] stays within the supported data types: each of
    the five constructors, each supported data type and each of [uuid],
    [simple-array], [simple-json] and [simple-enum] is mapped to a
    supported data type. *)
Theorem normalizeType_supported :
  Forall (fun t => is_supported (normalizeType t)) declarableTypes.
Proof.
  apply Forall_forall. intros t Ht. apply In_jsstring_dec.
  revert t Ht. apply forallb_forall.
  vm_compute. reflexivity.
Qed.

(** ** createFullType *)

Section FullType.
Context {engine : Engine}.

(** X3.  In [createFullType] the length comes first: whenever
    [getColumnLength] gives a length for the column, declared or default,
    the full type is the type followed by that length in parentheses, and
    by [ array] for an array column; the width, the precision and the
    scale of the column are not printed. *)
Theorem createFullType_length_first (column : TableColumn.t) :
  getColumnLength (inr column) <> [] ->
  createFullType column
  = TableColumn.type column ++ str "(" ++ getColumnLength (inr column)
      ++ str ")" ++ array_suffix column.
Proof.
  intros Hlen. unfold createFullType, array_suffix.
  destruct (getColumnLength (inr column)) as [|c len]; [contradiction|].
  destruct (TableColumn.isArray column);
    repeat rewrite <- app_assoc; [reflexivity|].
  rewrite app_nil_r. reflexivity.
Qed.

End FullType.

Lemma createFullType_length_first_witness :
  createFullType (engine := Reference.engine) wideVarchar
  = str "varchar(255) array".
Proof.
  rewrite (createFullType_length_first (engine := Reference.engine) wideVarchar).
  - reflexivity.
  - vm_compute. discriminate.
Defined.

(** ** getColumnLength and the type tables *)

(** X19.  A default length is given only to a type that takes a length:
    when [getColumnLength] returns a length for a column that declares
    none and is not generated as a uuid, the normalized type of the
    column is one of [withLengthColumnTypes], and the length returned is
    the default length of that type in [dataTypeDefaults].  The converse
    fails for [char] and [binary], whose default length of 1 is not
    returned. *)
Theorem getColumnLength_default_of_type (column : ColumnMetadata.t + TableColumn.t) :
  column_length column = [] ->
  column_generationStrategy column <> Some uuid ->
  getColumnLength column <> [] ->
  In (normalizeType (column_type column)) (List.map str withLengthColumnTypes)
  /\ exists length,
       defaultLength (normalizeType (column_type column)) = Some length
       /\ getColumnLength column = decimal length.
Proof.
  intros Hlen Hstrategy. unfold getColumnLength. rewrite Hlen.
  assert (Hu : strategy_is (column_generationStrategy column) uuid = false).
  { destruct (strategy_is (column_generationStrategy column) uuid) eqn:E;
      [|reflexivity].
    apply strategy_is_eq in E. contradiction. }
  rewrite Hu.
  assert (Hvarchar :
            In (str "varchar") (List.map str withLengthColumnTypes)
            /\ exists length, defaultLength (str "varchar") = Some length
                              /\ str "255" = decimal length).
  { split; [vm_compute; tauto|]. exists 255. split; reflexivity. }
  destruct (column_type column) as [| | | | |n]; try contradiction.
  - intros _. exact Hvarchar.
  - destruct (type_is (TName n) "varchar") eqn:E1;
      [apply type_is_eq in E1; injection E1 as ->; intros _; exact Hvarchar|].
    destruct (type_is (TName n) "nvarchar") eqn:E2;
      [apply type_is_eq in E2; injection E2 as ->; intros _; exact Hvarchar|].
    destruct (type_is (TName n) "national varchar") eqn:E3;
      [apply type_is_eq in E3; injection E3 as ->; intros _; exact Hvarchar|].
    cbn [orb].
    destruct (type_is (TName n) "varbinary") eqn:E4; [|contradiction].
    apply type_is_eq in E4. injection E4 as ->. intros _.
    split; [vm_compute; tauto|]. exists 255. split; reflexivity.
Qed.

Lemma getColumnLength_default_of_type_witness :
  getColumnLength (inl (Sample.column "name" (TName (str "national varchar"))))
  = decimal 255.
Proof.
  destruct (getColumnLength_default_of_type
              (inl (Sample.column "name" (TName (str "national varchar")))))
    as (_ & length & Hdefault & Hlength);
    [reflexivity | discriminate | discriminate |].
  injection Hdefault as <-. exact Hlength.
Defined.

(** ** escapeComment *)

Lemma filter_idempotent {A : Type} (f : A -> bool) (l : list A) :
  filter f (filter f l) = filter f l.
Proof.
  induction l as [|x l IH]; [reflexivity|]. simpl.
  destruct (f x) eqn:E; simpl; [rewrite E, IH|]; auto.
Qed.

(** X4.  [escapeComment] returns a comment without null characters, the
    other characters kept in their order; escaping twice is escaping
    once; an absent comment stays absent, and a comment is never turned
    into an absent one, also when it consists of null characters only. *)
Theorem escapeComment_null_free (comment : option jsstring) :
  match comment, escapeComment comment with
  | Some original, Some escaped =>
      escaped = filter (fun c => negb (c =? 0)) original
      /\ existsb (Z.eqb 0) escaped = false
      /\ escapeComment (Some escaped) = Some escaped
  | None, None => True
  | _, _ => False
  end.
Proof.
  destruct comment as [[|c rest]|]; cbn [escapeComment]; auto.
  set (original := c :: rest). set (keep := fun x => negb (x =? 0)).
  assert (Hnull : existsb (Z.eqb 0) (filter keep original) = false).
  { generalize original. intros l. induction l as [|x l IH]; [reflexivity|].
    cbn [filter]. unfold keep at 1.
    destruct (x =? 0) eqn:E; cbn [negb existsb]; [exact IH|].
    rewrite (Z.eqb_sym 0 x), E. exact IH. }
  split; [reflexivity|]. split; [exact Hnull|].
  destruct (filter keep original) as [|d escaped] eqn:Ef; [reflexivity|].
  cbn [escapeComment]. fold keep. rewrite <- Ef.
  rewrite filter_idempotent. reflexivity.
Qed.

(** ** normalizeIsUnique *)

(** X5.  [normalizeIsUnique] holds exactly when some index of the entity
    is unique and has this column as its only column: a unique index over
    this column and another one, and an index that is not unique, do not
    count. *)
Theorem normalizeIsUnique_single_column (column : ColumnMetadata.t) :
  normalizeIsUnique column = true
  <-> exists idx, In idx (ColumnMetadata.indices column) /\ unique_on column idx.
Proof.
  unfold normalizeIsUnique, unique_on. rewrite existsb_exists.
  split; intros (idx & Hin & H); exists idx; (split; [exact Hin|]).
  - apply andb_true_iff in H. destruct H as [Hu Hc]. split; [exact Hu|].
    destruct (idx_columns idx) as [|r [|r' cols]]; try discriminate.
    apply Nat.eqb_eq in Hc. subst r. reflexivity.
  - destruct H as [Hu Hc]. rewrite Hu, Hc. simpl. apply Nat.eqb_refl.
Qed.

(** ** buildTableName and parseTableName *)

Lemma split_on_dotless (s : jsstring) : dotless s -> split_on 46 s = [s].
Proof.
  induction 1 as [|c s Hc _ IH]; [reflexivity|].
  simpl. apply Z.eqb_neq in Hc. rewrite Hc, IH. reflexivity.
Qed.

(** X6.  [parseTableName] undoes [buildTableName]: for a table name and a
    database name without dots, parsing the path that was built gives the
    table name back, with the database that was given, or the database of
    the driver when none (or the empty string) was given.  The schema
    given to [buildTableName] is lost: the parsed schema is absent. *)
Theorem parseTableName_buildTableName (driverDatabase : option jsstring)
    (name : jsstring) (schemaName databaseName : option jsstring) :
  dotless name ->
  (forall d, databaseName = Some d -> dotless d) ->
  parseTableName driverDatabase
    (TargetString (buildTableName name schemaName databaseName))
  = {| database := or_else databaseName driverDatabase;
       schema := None;
       parsed_tableName := name |}.
Proof.
  intros Ht Hd. unfold parseTableName, parseTableName_string, buildTableName.
  destruct databaseName as [[|c d]|].
  - cbn [join]. rewrite (split_on_dotless _ Ht). reflexivity.
  - specialize (Hd (c :: d) eq_refl).
    change (join (str ".") [c :: d; name])
      with ((c :: d) ++ 46 :: name).
    rewrite (split_on_segment _ _ Hd), (split_on_dotless _ Ht). reflexivity.
  - cbn [join]. rewrite (split_on_dotless _ Ht). reflexivity.
Qed.

Lemma parseTableName_buildTableName_witness :
  parseTableName (Some (str "main"))
    (TargetString (buildTableName (str "users") (Some (str "public"))
                     (Some (str "shop"))))
  = {| database := Some (str "shop");
       schema := None;
       parsed_tableName := str "users" |}.
Proof.
  apply (parseTableName_buildTableName (Some (str "main")) (str "users")
           (Some (str "public")) (Some (str "shop"))).
  - unfold dotless. repeat constructor; discriminate.
  - intros d [= <-]. unfold dotless. repeat constructor; discriminate.
Defined.

Lemma or_else_not_empty (a b : option jsstring) :
  not_empty b -> not_empty (or_else a b).
Proof.
  unfold not_empty. destruct a as [[|c s]|]; simpl; auto. discriminate.
Qed.

(** X7.  [parseTableName] never reports the empty string as a database or
    a schema: for every kind of target, when the database of the driver
    is a name or is absent, so is the parsed database, whatever empty
    names the target carries; and the parsed schema comes from the
    descriptor alone, never from the name.  The table name of an entity
    metadata is taken as it is, dots included. *)
Theorem parseTableName_no_empty_name (driverDatabase : option jsstring)
    (target : Target) :
  not_empty driverDatabase ->
  not_empty (database (parseTableName driverDatabase target))
  /\ not_empty (schema (parseTableName driverDatabase target))
  /\ schema (parseTableName driverDatabase target)
     = match target with
       | TargetTable t | TargetView t => or_else (table_schema t) None
       | TargetForeignKey fk => or_else (referencedSchema fk) None
       | TargetEntityMetadata m => or_else (em_schema m) None
       | TargetString _ => None
       end
  /\ (forall m, target = TargetEntityMetadata m ->
        parsed_tableName (parseTableName driverDatabase target) = tableName m).
Proof.
  intros Hd.
  assert (Hnone : not_empty None) by discriminate.
  destruct target as [t|t|fk|m|s]; cbn [parseTableName database schema];
    (split; [|split; [|split]]);
    try (intros m' [= <-]; reflexivity); try discriminate;
    try reflexivity;
    repeat apply or_else_not_empty; auto.
Qed.

Lemma parseTableName_no_empty_name_witness :
  not_empty
    (database (parseTableName (Some (str "main"))
                 (TargetTable {| table_name := str ".users";
                                 table_database := Some [];
                                 table_schema := Some [] |}))).
Proof.
  apply (parseTableName_no_empty_name (Some (str "main"))
           (TargetTable {| table_name := str ".users";
                           table_database := Some [];
                           table_schema := Some [] |})).
  discriminate.
Defined.

(** ** escapeQueryWithParameters: statements and values outside the bound
    cases *)

Section ParameterBinderEdges.
Context {engine : Engine}.

Lemma replace_placeholders_no_colon (parameters : list (jsstring * value))
    (sql : jsstring) (escaped : list value) :
  ~ In 58 sql ->
  forall fuel, replace_placeholders fuel parameters sql escaped
               = Ret (sql, escaped).
Proof.
  induction sql as [|c rest IH]; intros Hc fuel.
  - destruct fuel; reflexivity.
  - destruct fuel as [|fuel]; [reflexivity|].
    cbn [replace_placeholders].
    rewrite match_placeholder_not_colon by (intros ->; apply Hc; left; reflexivity).
    rewrite IH by (intros Hin; apply Hc; right; exact Hin). reflexivity.
Qed.

(** X8.  A statement without a colon is returned as it is, with the
    native values only, whatever named parameters are given: no marker is
    added and no named value is appended. *)
Theorem escapeQueryWithParameters_without_colon (sql : jsstring)
    (parameters : option (list (jsstring * value)))
    (nativeParameters : list (jsstring * value)) :
  ~ In 58 sql ->
  escapeQueryWithParameters sql parameters nativeParameters
  = Ret (sql, values_in_key_order nativeParameters).
Proof.
  intros Hc. unfold escapeQueryWithParameters.
  destruct parameters as [[|p ps]|]; try reflexivity.
  apply replace_placeholders_no_colon. exact Hc.
Qed.

(** The scan of a prefix without a colon copies it. *)
Lemma replace_placeholders_prefix (parameters : list (jsstring * value))
    (pre sql : jsstring) (escaped : list value) (fuel : nat) :
  ~ In 58 pre -> (List.length (pre ++ sql) <= fuel)%nat ->
  replace_placeholders fuel parameters (pre ++ sql) escaped
  = (o <- replace_placeholders fuel parameters sql escaped ;;
     Ret (pre ++ fst o, snd o)).
Proof.
  induction pre as [|c pre IH]; intros Hc Hf.
  - cbn [app]. destruct (replace_placeholders fuel parameters sql escaped)
      as [[text values]|msg]; reflexivity.
  - cbn [app] in *.
    rewrite replace_placeholders_literal; [|exact Hf|].
    + rewrite IH; [| intros Hin; apply Hc; right; exact Hin
                   | simpl in Hf; lia].
      destruct (replace_placeholders fuel parameters sql escaped)
        as [[text values]|msg]; reflexivity.
    + apply match_placeholder_not_colon. intros ->. apply Hc. left. reflexivity.
Qed.

(** X9.  A spread placeholder bound to a value that is neither an array
    nor a buffer makes the whole call throw: when the first placeholder
    of the statement is [:...name] and [name] is bound to such a value (a
    string, a number, [null], an object, a function), a [TypeError] is
    thrown and no statement is returned. *)
Theorem escapeQueryWithParameters_spread_not_array
    (pre name rest : jsstring) (parameters nativeParameters : list (jsstring * value))
    (v : value) :
  ~ In 58 pre -> key_name name -> starts_key rest = false ->
  get_own parameters name = Some v ->
  (forall elems, v <> VArray elems) -> (forall bytes, v <> VBuffer bytes) ->
  exists msg,
    escapeQueryWithParameters (pre ++ 58 :: 46 :: 46 :: 46 :: name ++ rest)
      (Some parameters) nativeParameters
    = Throw msg.
Proof.
  intros Hpre Hname Hrest Hget Harr Hbuf.
  exists "TypeError: value.map is not a function"%string.
  unfold escapeQueryWithParameters.
  destruct parameters as [|p ps]; [discriminate|].
  rewrite replace_placeholders_prefix; [|exact Hpre|apply Nat.le_refl].
  assert (Hfuel : (List.length (58%Z :: 46%Z :: 46%Z :: 46%Z :: name ++ rest)
                   <= List.length
                        (pre ++ 58%Z :: 46%Z :: 46%Z :: 46%Z :: name ++ rest))%nat)
    by (rewrite (length_app pre); lia).
  rewrite (replace_placeholders_match _ _ _ _ _ Hfuel
             (match_placeholder_spread name rest Hname Hrest)).
  unfold replacer. cbn [key isArray]. rewrite Hget.
  destruct v; try reflexivity.
  - exfalso. exact (Hbuf bytes eq_refl).
  - exfalso. exact (Harr elems eq_refl).
Qed.

End ParameterBinderEdges.

Lemma escapeQueryWithParameters_without_colon_witness :
  escapeQueryWithParameters (engine := Reference.engine)
    (str "SELECT 1 FROM t WHERE a = ?")
    (Some [(str "a", VNum (of_Z 5))]) [(str "0", VNum (of_Z 7))]
  = Ret (str "SELECT 1 FROM t WHERE a = ?", [VNum (of_Z 7)]).
Proof.
  apply (escapeQueryWithParameters_without_colon (engine := Reference.engine)).
  vm_compute. intuition discriminate.
Defined.

Lemma escapeQueryWithParameters_spread_not_array_witness :
  exists msg,
    escapeQueryWithParameters (engine := Reference.engine)
      (str "WHERE id IN (:...ids)")
      (Some [(str "ids", VStr (str "1,2"))]) []
    = Throw msg.
Proof.
  apply (escapeQueryWithParameters_spread_not_array (engine := Reference.engine)
           (str "WHERE id IN (") (str "ids") (str ")")
           [(str "ids", VStr (str "1,2"))] [] (VStr (str "1,2"))).
  - vm_compute. intuition discriminate.
  - split; [discriminate|]. repeat constructor.
  - reflexivity.
  - reflexivity.
  - discriminate.
  - discriminate.
Defined.

(** ** escapeQueryWithParameters: markers and values stay in step *)

Lemma markers_app (a b : jsstring) : markers (a ++ b) = (markers a + markers b)%nat.
Proof. unfold markers. apply count_occ_app. Qed.

Lemma take_key_split (s : jsstring) :
  s = fst (take_key s) ++ snd (take_key s) /\ markers (fst (take_key s)) = O.
Proof.
  induction s as [|c s [IH1 IH2]]; [split; reflexivity|].
  cbn [take_key]. destruct (is_key_char c) eqn:E; [|split; reflexivity].
  destruct (take_key s) as [k r]. cbn [fst snd] in *. split.
  - rewrite IH1 at 1. reflexivity.
  - unfold markers in *. cbn [count_occ].
    destruct (Z.eq_dec c 63) as [->|_]; [discriminate E|exact IH2].
Qed.

Lemma match_placeholder_split (s : jsstring) (m : PlaceholderMatch) :
  match_placeholder s = Some m ->
  s = full m ++ after m /\ markers (full m) = O.
Proof.
  destruct s as [|c tail]; [discriminate|].
  destruct (Z.eq_dec c 58) as [->|Hc];
    [|rewrite match_placeholder_not_colon by exact Hc; discriminate].
  assert (Hplain : forall m',
             match take_key tail with
             | ([], _) => None
             | (k, rest) =>
                 Some {| full := 58 :: k; isArray := false; key := k;
                         after := rest |}
             end = Some m' ->
             58 :: tail = full m' ++ after m' /\ markers (full m') = O).
  { intros m'. destruct (take_key_split tail) as [H1 H2].
    destruct (take_key tail) as [[|k0 k] rest]; [discriminate|].
    intros [= <-]. cbn [full after fst snd] in *. split.
    - rewrite H1 at 1. reflexivity.
    - exact H2. }
  cbn [match_placeholder].
  destruct tail as [|t1 tail1]; [exact (Hplain m)|].
  destruct (Z.eq_dec t1 46) as [->|H1];
    [|destruct t1 as [|p|p]; try exact (Hplain m);
      repeat (destruct p as [p|p|]; try exact (Hplain m)); contradiction].
  destruct tail1 as [|t2 tail2]; [exact (Hplain m)|].
  destruct (Z.eq_dec t2 46) as [->|H2];
    [|destruct t2 as [|p|p]; try exact (Hplain m);
      repeat (destruct p as [p|p|]; try exact (Hplain m)); contradiction].
  destruct tail2 as [|t3 tail3]; [exact (Hplain m)|].
  destruct (Z.eq_dec t3 46) as [->|H3];
    [|destruct t3 as [|p|p]; try exact (Hplain m);
      repeat (destruct p as [p|p|]; try exact (Hplain m)); contradiction].
  destruct (take_key_split tail3) as [H1 H2].
  destruct (take_key tail3) as [[|k0 k] rest] eqn:Ek; [exact (Hplain m)|].
  intros [= <-]. cbn [full after fst snd] in *. split.
  - rewrite H1 at 1. reflexivity.
  - exact H2.
Qed.

Lemma markers_spread (elems : list value) :
  markers (join (str ", ") (List.map (fun _ : value => str "?") elems))
  = List.length elems.
Proof.
  induction elems as [|e elems IH]; [reflexivity|].
  cbn [List.map List.length]. destruct elems as [|e' elems]; [reflexivity|].
  cbn [List.map] in *.
  change (join (str ", ") (str "?" :: str "?" :: List.map (fun _ => str "?") elems))
    with (str "?, "
            ++ join (str ", ") (str "?" :: List.map (fun _ : value => str "?") elems)).
  rewrite markers_app, IH. reflexivity.
Qed.

Lemma get_own_In (props : list (jsstring * value)) (k : jsstring) (v : value) :
  get_own props k = Some v -> exists k', In (k', v) props.
Proof.
  induction props as [|[k0 x] props IH]; [discriminate|].
  cbn [get_own]. destruct (jsstring_eqb k0 k).
  - intros [= <-]. exists k0. left. reflexivity.
  - intros H. destruct (IH H) as [k' Hin]. exists k'. right. exact Hin.
Qed.

Section MarkersAndValues.
Context {engine : Engine}.

Lemma replacer_in_step (parameters : list (jsstring * value))
    (escaped : list value) (m : PlaceholderMatch) (r : jsstring * list value) :
  Forall (fun p => bound_by_marker (snd p) = true) parameters ->
  markers (full m) = O ->
  replacer parameters escaped m = Ret r ->
  (markers (fst r) + List.length escaped = List.length (snd r))%nat.
Proof.
  intros Hp Hfull. unfold replacer.
  destruct (get_own parameters (key m)) as [v|] eqn:Eg.
  - destruct (get_own_In _ _ _ Eg) as [k' Hin].
    pose proof (proj1 (Forall_forall _ _) Hp _ Hin) as Hv. cbn [snd] in Hv.
    destruct (isArray m).
    + destruct v; try discriminate.
      cbn [spread]. intros [= <-]. cbn [fst snd].
      unfold createParameter. rewrite markers_spread, length_app. lia.
    + destruct v; try discriminate; intros [= <-];
        cbn [fst snd]; rewrite length_app; cbn; lia.
  - intros [= <-]. cbn [fst snd]. rewrite Hfull. reflexivity.
Qed.

Lemma replace_placeholders_in_step (parameters : list (jsstring * value)) :
  Forall (fun p => bound_by_marker (snd p) = true) parameters ->
  forall (fuel : nat) (sql : jsstring) (escaped : list value)
         (o : jsstring * list value),
    (List.length sql <= fuel)%nat ->
    replace_placeholders fuel parameters sql escaped = Ret o ->
    (markers (fst o) + List.length escaped
     = markers sql + List.length (snd o))%nat.
Proof.
  intros Hp. induction fuel as [|fuel IH]; intros sql escaped o Hf.
  - destruct sql; [|simpl in Hf; lia]. intros [= <-]. reflexivity.
  - destruct sql as [|c rest]; [intros [= <-]; reflexivity|].
    cbn [replace_placeholders].
    destruct (match_placeholder (c :: rest)) as [m|] eqn:Em.
    + pose proof (match_placeholder_after _ _ Em) as Hafter.
      destruct (match_placeholder_split _ _ Em) as [Hsplit Hfull].
      destruct (replacer parameters escaped m) as [r|msg] eqn:Er;
        [|discriminate].
      cbn [bind].
      destruct (replace_placeholders fuel parameters (after m) (snd r))
        as [o'|msg] eqn:Eo; [|discriminate].
      cbn [bind]. intros [= <-]. cbn [fst snd].
      apply IH in Eo; [|simpl in *; lia].
      rewrite Hsplit, !markers_app, Hfull.
      pose proof (replacer_in_step _ _ _ _ Hp Hfull Er). lia.
    + destruct (replace_placeholders fuel parameters rest escaped)
        as [o'|msg] eqn:Eo; [|discriminate].
      cbn [bind]. intros [= <-]. cbn [fst snd].
      apply IH in Eo; [|simpl in *; lia].
      unfold markers in *. cbn [count_occ].
      destruct (Z.eq_dec c 63); lia.
Qed.

(** X30.  Markers and values stay in step: when no named parameter is a
    function or a buffer, every marker that [escapeQueryWithParameters]
    adds to the statement comes with one value added to the list, so
    that the markers of the result are those of the statement plus one
    for each value after the native ones. *)
Theorem escapeQueryWithParameters_markers_match_values
    (sql : jsstring) (parameters : option (list (jsstring * value)))
    (nativeParameters : list (jsstring * value)) (o : jsstring * list value) :
  (forall ps, parameters = Some ps ->
              Forall (fun p => bound_by_marker (snd p) = true) ps) ->
  escapeQueryWithParameters sql parameters nativeParameters = Ret o ->
  (markers (fst o) + List.length (values_in_key_order nativeParameters)
   = markers sql + List.length (snd o))%nat.
Proof.
  intros Hp. unfold escapeQueryWithParameters.
  destruct parameters as [[|p ps]|]; try (intros [= <-]; reflexivity).
  apply replace_placeholders_in_step; [|apply Nat.le_refl].
  apply Hp. reflexivity.
Qed.

End MarkersAndValues.

Lemma escapeQueryWithParameters_markers_match_values_witness :
  (markers (str "a = ? AND b = ? AND c IN (?, ?)") + 1
   = markers (str "a = ? AND b = :b AND c IN (:...c)") + 4)%nat.
Proof.
  apply (escapeQueryWithParameters_markers_match_values
           (engine := Reference.engine)
           (str "a = ? AND b = :b AND c IN (:...c)")
           (Some [(str "b", VStr (str "x"));
                  (str "c", VArray [VNum (of_Z 1); VNum (of_Z 2)])])
           [(str "0", VNum (of_Z 7))]
           (str "a = ? AND b = ? AND c IN (?, ?)",
            [VNum (of_Z 7); VStr (str "x"); VNum (of_Z 1); VNum (of_Z 2)])).
  - intros ps [= <-]. repeat constructor.
  - vm_compute. reflexivity.
Defined.

(** ** The value marshaller: booleans, numbers, bit fields and
    transformers *)

Lemma read_digits_prefix (digits tail : jsstring) :
  Forall (fun c => is_digit c = true) digits ->
  match tail with [] => true | c :: _ => negb (is_digit c) end = true ->
  forall count acc,
    read_digits 10 (digits ++ tail) count acc
    = ((count + List.length digits)%nat, horner acc digits).
Proof.
  intros Hd Ht. induction Hd as [|c digits Hc _ IH]; intros count acc.
  - cbn [app List.length]. rewrite Nat.add_0_r.
    destruct tail as [|c tail]; [reflexivity|].
    cbn [read_digits]. unfold digit_value. unfold is_digit in Ht.
    apply negb_true_iff in Ht. rewrite Ht. reflexivity.
  - cbn [app read_digits]. unfold digit_value. unfold is_digit in Hc.
    rewrite Hc. rewrite IH. cbn [List.length]. f_equal. lia.
Qed.

(** Reading a string that starts with the decimal numeral of [z] gives
    the double of [z]. *)
Lemma parseInt_string_prefix (z : Z) (tail : jsstring) :
  0 <= z -> ends_numeral tail = true ->
  parseInt_string (decimal z ++ tail) = of_Z z.
Proof.
  intros Hz Htail. unfold decimal.
  replace (z <? 0) with false by (symmetry; apply Z.ltb_ge; exact Hz).
  rewrite (Z.abs_eq z Hz).
  destruct (decimal_magnitude z Hz) as (Hd & Hne & Hv).
  destruct (decimal_digits _ _ _) as [|d digits]; [contradiction|].
  assert (Hd0 : is_digit d = true) by (inversion Hd; assumption).
  assert (Hrange : 48 <= d <= 57).
  { unfold is_digit in Hd0. apply andb_true_iff in Hd0.
    destruct Hd0 as [H1 H2]. apply Z.leb_le in H1. apply Z.leb_le in H2. lia. }
  assert (Hnext : match digits ++ tail with
                  | c1 :: _ => (c1 =? 120) || (c1 =? 88)
                  | [] => false
                  end = false).
  { destruct digits as [|d1 digits'].
    - destruct tail as [|c tail]; [reflexivity|]. cbn [app].
      unfold ends_numeral in Htail.
      apply andb_true_iff in Htail. destruct Htail as [Ht H88].
      apply andb_true_iff in Ht. destruct Ht as [_ H120].
      apply negb_true_iff in H88. apply negb_true_iff in H120.
      rewrite H88, H120. reflexivity.
    - inversion Hd as [|? ? _ Hd']; subst. inversion Hd' as [|? ? Hd1 _]; subst.
      unfold is_digit in Hd1. apply andb_true_iff in Hd1.
      destruct Hd1 as [H1 H2]. apply Z.leb_le in H1. apply Z.leb_le in H2.
      cbn [app]. apply orb_false_iff. split; apply Z.eqb_neq; lia. }
  assert (Hhex : match (d :: digits) ++ tail with
                 | c0 :: c1 :: _ => (c0 =? 48) && ((c1 =? 120) || (c1 =? 88))
                 | _ => false
                 end = false).
  { cbn [app]. destruct (digits ++ tail) as [|c1 l]; [reflexivity|].
    rewrite Hnext. apply andb_false_r. }
  assert (Hdigit_tail : match tail with
                        | [] => true
                        | c :: _ => negb (is_digit c)
                        end = true).
  { destruct tail as [|c tail]; [reflexivity|]. unfold ends_numeral in Htail.
    apply andb_true_iff in Htail. destruct Htail as [Ht _].
    apply andb_true_iff in Ht. destruct Ht as [Ht _]. exact Ht. }
  pose proof (read_digits_prefix _ _ Hd Hdigit_tail O 0) as Hread.
  cbn [app] in Hhex, Hread.
  unfold parseInt_string. cbn [app skip_whitespace].
  rewrite (digit_not_space d Hd0).
  replace (d =? 45) with false by (symmetry; apply Z.eqb_neq; lia).
  replace (d =? 43) with false by (symmetry; apply Z.eqb_neq; lia).
  cbn [orb]. rewrite Hhex, Hread. simpl (0 + _)%nat.
  cbn [List.length]. rewrite Hv.
  destruct (Z.eqb_spec z 0) as [->|Hnz]; reflexivity.
Qed.

(** Evaluates the tests of a type name against the literals of the
    driver. *)
Ltac decide_type_tests :=
  repeat match goal with
         | |- context [type_is (TName (str ?a)) ?b] =>
             let r := eval vm_compute in (type_is (TName (str a)) b) in
             change (type_is (TName (str a)) b) with r
         end;
  cbn [is_Boolean is_Number is_Date type_is orb andb negb].

Section MarshallerEdges.
Context {engine : Engine} {dateUtils : DateUtils}.

(** X10.  A column of the constructor type [Boolean] keeps only the value
    [true]: persisting any other value that is not [null] or [undefined],
    also a truthy one as [1] or a non-empty string, and hydrating what
    was persisted, gives [false].  A column of the type name [bool] or
    [boolean] is not converted when it is persisted, so that there the
    result is the truthiness of the value. *)
Theorem boolean_column_keeps_only_true (col : ColumnMetadata.t) (v : value) :
  ColumnMetadata.transformer col = None -> is_nullish v = false ->
  (ColumnMetadata.type col = TBoolean ->
   (p <- preparePersistentValue v col ;; prepareHydratedValue p col)
   = Ret (VBool (strict_eq v (VBool true))))
  /\ (ColumnMetadata.type col = TName (str "bool")
      \/ ColumnMetadata.type col = TName (str "boolean") ->
      (p <- preparePersistentValue v col ;; prepareHydratedValue p col)
      = Ret (VBool (truthy v))).
Proof.
  intros Ht Hv. split.
  - intros Hty. unfold preparePersistentValue, prepareHydratedValue.
    rewrite Ht, Hty. cbn [bind]. rewrite Hv.
    cbn [is_Boolean bind is_nullish orb].
    destruct (strict_eq v (VBool true)); reflexivity.
  - intros Hty. unfold preparePersistentValue, prepareHydratedValue.
    rewrite Ht. cbn [bind]. rewrite Hv.
    destruct Hty as [-> | ->]; decide_type_tests; cbn [bind]; rewrite Hv;
      reflexivity.
Qed.

(** X11.  A column of the constructor type [Number] keeps the leading
    integer numeral of a numeric value and drops what follows it: a value
    that converts to a number and prints as the decimal numeral of [z]
    followed by a fraction, an exponent or white space is persisted, and
    hydrated, as the integer [z]. *)
Theorem number_column_keeps_integer_part (col : ColumnMetadata.t) (v : value)
    (z : Z) (tail : jsstring) :
  ColumnMetadata.transformer col = None ->
  ColumnMetadata.type col = TNumber ->
  is_nullish v = false -> isNaN v = false ->
  0 <= z -> ends_numeral tail = true -> ToString v = decimal z ++ tail ->
  preparePersistentValue v col = Ret (VNum (of_Z z))
  /\ prepareHydratedValue v col = Ret (VNum (of_Z z)).
Proof.
  intros Ht Hty Hv Hnan Hz Htail Hprint.
  assert (Hconv : toNumberIfNumber v = VNum (of_Z z)).
  { unfold toNumberIfNumber. unfold isNaN in Hnan. rewrite Hnan. cbn [negb].
    unfold parseInt. rewrite Hprint, parseInt_string_prefix by assumption.
    reflexivity. }
  unfold preparePersistentValue, prepareHydratedValue.
  rewrite Ht, Hty. cbn [bind]. rewrite Hv.
  cbn [is_Boolean is_Number is_Date type_is orb andb bind]. rewrite Hconv.
  split; reflexivity.
Qed.

(** X12.  A [bit] column is hydrated to the exact integer its bytes spell,
    most significant byte first, when that integer is below 2^53: from a
    buffer of at most 128 bytes, and from a string of at most 128
    characters, each read as its low eight bits. *)
Theorem prepareHydratedValue_bit_exact (col : ColumnMetadata.t) :
  ColumnMetadata.transformer col = None ->
  ColumnMetadata.type col = TName (str "bit") ->
  (forall bytes : list byte,
      (List.length bytes <= 128)%nat ->
      big_endian (List.map byte_to_Z bytes) < 2 ^ 53 ->
      prepareHydratedValue (VBuffer bytes) col
      = Ret (VNum (of_Z (big_endian (List.map byte_to_Z bytes)))))
  /\ (forall s : jsstring,
         (List.length s <= 128)%nat ->
         big_endian (List.map (fun c => Z.land c 255) s) < 2 ^ 53 ->
         prepareHydratedValue (VStr (s)) col
         = Ret (VNum (of_Z (big_endian (List.map (fun c => Z.land c 255) s))))).
Proof.
  intros Ht Hty.
  assert (Hbit : forall v, is_nullish v = false ->
             prepareHydratedValue v col
             = Ret (VNum (NumberUtils.numberFromBitString v))).
  { intros v Hv. unfold prepareHydratedValue. rewrite Ht, Hty, Hv.
    decide_type_tests. reflexivity. }
  split.
  - intros bytes Hlen Hval. rewrite Hbit by reflexivity.
    rewrite numberFromBitString_exact by assumption. reflexivity.
  - intros s Hlen Hval.
    destruct s as [|c s].
    + unfold prepareHydratedValue. rewrite Ht, Hty. decide_type_tests.
      reflexivity.
    + rewrite Hbit by reflexivity. cbn [NumberUtils.numberFromBitString].
      rewrite accumulate_exact.
      * reflexivity.
      * apply Forall_forall. intros x Hx. apply in_map_iff in Hx.
        destruct Hx as (y & <- & _). apply Z.land_nonneg. right. lia.
      * rewrite length_map. exact Hlen.
      * lia.
      * lia.
Qed.

(** X13.  The transformer of a column is applied outside the conversion
    by type: persisting with a transformer is transforming first and
    then persisting as the column without the transformer would, and
    hydrating with a transformer is hydrating as the column without it
    would and transforming the result; this also holds for [null] and
    [undefined], which the conversion by type passes through. *)
Theorem transformer_wraps_conversion (t : ValueTransformer)
    (col : ColumnMetadata.t) (v : value) :
  preparePersistentValue v (with_transformer t col)
  = (w <- to t v ;; preparePersistentValue w (without_transformer col))
  /\ prepareHydratedValue v (with_transformer t col)
     = (w <- prepareHydratedValue v (without_transformer col) ;; from t w).
Proof.
  split.
  - reflexivity.
  - unfold prepareHydratedValue, ApplyValueTransformers.transformFrom.
    cbn [ColumnMetadata.transformer with_transformer without_transformer
         ColumnMetadata.type ColumnMetadata.enum].
    destruct (is_nullish v); [reflexivity|].
    match goal with
    | |- (x <- ?m ;; _) = _ => destruct m as [w|msg]; reflexivity
    end.
Qed.

End MarshallerEdges.

Lemma boolean_column_keeps_only_true_witness :
  (p <- preparePersistentValue (engine := Reference.engine)
          (dateUtils := Reference.dateUtils)
          (VNum (of_Z 1)) (Sample.column "active" TBoolean) ;;
   prepareHydratedValue (engine := Reference.engine)
     (dateUtils := Reference.dateUtils) p (Sample.column "active" TBoolean))
  = Ret (VBool false).
Proof.
  destruct (boolean_column_keeps_only_true (engine := Reference.engine)
              (dateUtils := Reference.dateUtils)
              (Sample.column "active" TBoolean) (VNum (of_Z 1))
              eq_refl eq_refl) as [H _].
  exact (H eq_refl).
Defined.

Lemma number_column_keeps_integer_part_witness :
  preparePersistentValue (engine := Reference.engine)
    (dateUtils := Reference.dateUtils)
    (VStr (str "12 ")) (Sample.column "amount" TNumber)
  = Ret (VNum (of_Z 12)).
Proof.
  destruct (number_column_keeps_integer_part (engine := Reference.engine)
              (dateUtils := Reference.dateUtils)
              (Sample.column "amount" TNumber) (VStr (str "12 ")) 12 (str " "))
    as [H _]; first [exact H | reflexivity | lia].
Defined.

Lemma prepareHydratedValue_bit_exact_witness :
  prepareHydratedValue (engine := Reference.engine)
    (dateUtils := Reference.dateUtils)
    (VBuffer [x01; x00]%byte) (Sample.column "flags" (TName (str "bit")))
  = Ret (VNum (of_Z 256)).
Proof.
  destruct (prepareHydratedValue_bit_exact (engine := Reference.engine)
              (dateUtils := Reference.dateUtils)
              (Sample.column "flags" (TName (str "bit"))) eq_refl eq_refl)
    as [H _].
  apply (H [x01; x00]%byte); [simpl; lia | vm_compute; reflexivity].
Defined.

(** ** Defaults *)

Lemma drop_quotes_snoc (s : jsstring) :
  drop_quotes (s ++ [quote])
  = match drop_quotes s with
    | [] => []
    | _ :: _ => drop_quotes s ++ [quote]
    end.
Proof.
  induction s as [|c s IH]; [reflexivity|].
  cbn [app drop_quotes]. destruct (c =? quote); [exact IH|reflexivity].
Qed.

(** A quote added at both ends is stripped with the others. *)
Lemma strip_quotes_quoted (s : jsstring) :
  strip_quotes (quote :: s ++ [quote]) = strip_quotes s.
Proof.
  unfold strip_quotes. cbn [drop_quotes].
  replace (quote =? quote) with true by reflexivity.
  rewrite drop_quotes_snoc.
  destruct (drop_quotes s) as [|c r] eqn:E; [reflexivity|].
  rewrite rev_app_distr. cbn [rev app drop_quotes].
  replace (quote =? quote) with true by reflexivity. reflexivity.
Qed.

Section Defaults.
Context {engine : Engine} {dateUtils : DateUtils}.

(** X14.  A string default is compared without regard to quoting: for a
    column whose default is the string [s], [normalizeDefault] returns
    [s] in quotes, and [compareDefaultValues] finds it equal to a live
    default exactly when the two are equal once their leading and
    trailing quotes are removed; in particular it is equal to [s] itself
    and to [s] in quotes, for a column of any type. *)
Theorem string_default_compared_unquoted (cm : ColumnMetadata.t) (s : jsstring) :
  ColumnMetadata.default cm = VStr s ->
  normalizeDefault cm = Ret (VStr (quote :: s ++ [quote]))
  /\ (forall live,
         compareDefaultValues (VStr (quote :: s ++ [quote])) (VStr live)
         = jsstring_eqb (strip_quotes s) (strip_quotes live))
  /\ compareDefaultValues (VStr (quote :: s ++ [quote])) (VStr s) = true
  /\ compareDefaultValues (VStr (quote :: s ++ [quote]))
       (VStr (quote :: s ++ [quote])) = true.
Proof.
  intros Hd.
  assert (Hcmp : forall live,
             compareDefaultValues (VStr (quote :: s ++ [quote])) (VStr live)
             = jsstring_eqb (strip_quotes s) (strip_quotes live)).
  { intros live. cbn [compareDefaultValues]. rewrite strip_quotes_quoted.
    reflexivity. }
  repeat split.
  - unfold normalizeDefault. rewrite Hd.
    cbn [strict_eq is_string negb orb andb ToString].
    rewrite orb_true_r. reflexivity.
  - exact Hcmp.
  - rewrite Hcmp. apply jsstring_eqb_refl.
  - rewrite Hcmp, strip_quotes_quoted. apply jsstring_eqb_refl.
Qed.

Lemma take_digits_run (ds rest : jsstring) :
  Forall (fun c => is_digit c = true) ds ->
  take_digits (ds ++ 41 :: rest) = (ds, 41 :: rest).
Proof.
  induction 1 as [|c ds Hc _ IH]; [reflexivity|].
  cbn [app take_digits]. rewrite Hc, IH. reflexivity.
Qed.

Lemma take_digits_digits (s : jsstring) :
  Forall (fun c => is_digit c = true) (fst (take_digits s))
  /\ s = fst (take_digits s) ++ snd (take_digits s).
Proof.
  induction s as [|c s [IH1 IH2]]; [split; [constructor|reflexivity]|].
  cbn [take_digits]. destruct (is_digit c) eqn:E.
  - destruct (take_digits s) as [ds after]. cbn [fst snd] in *.
    split; [constructor; assumption|]. rewrite IH2 at 1. reflexivity.
  - split; [constructor|reflexivity].
Qed.

(** What [match_precision] returns: digits in parentheses. *)
Lemma match_precision_shape (s p : jsstring) :
  match_precision s = Some p ->
  exists d ds, p = 40 :: (d :: ds) ++ [41]
               /\ Forall (fun c => is_digit c = true) (d :: ds).
Proof.
  induction s as [|c s IH]; [discriminate|].
  cbn [match_precision]. destruct (c =? 40); [|exact IH].
  pose proof (take_digits_digits s) as [Hd _].
  destruct (take_digits s) as [[|d ds] after]; [exact IH|].
  destruct after as [|a after]; [exact IH|].
  destruct (Z.eq_dec a 41) as [->|Ha].
  - intros [= <-]. exists d, ds. split; [reflexivity|exact Hd].
  - destruct a as [|a|a]; try exact IH.
    repeat (destruct a as [a|a|]; try exact IH). contradiction.
Qed.

Lemma match_precision_skip (pre s : jsstring) :
  ~ In 40 pre -> match_precision (pre ++ s) = match_precision s.
Proof.
  induction pre as [|c pre IH]; intros Hp; [reflexivity|].
  cbn [app match_precision].
  replace (c =? 40) with false
    by (symmetry; apply Z.eqb_neq; intros ->; apply Hp; left; reflexivity).
  apply IH. intros Hin. apply Hp. right. exact Hin.
Qed.

Lemma contains_prefix (needle s : jsstring) : contains needle (needle ++ s) = true.
Proof.
  assert (H : starts_with needle (needle ++ s) = true).
  { induction needle as [|c needle IH]; [reflexivity|].
    cbn [app starts_with]. rewrite Z.eqb_refl, IH. reflexivity. }
  destruct (needle ++ s); cbn [contains]; rewrite H; reflexivity.
Qed.

Lemma digit_caseless (c : Z) : is_digit c = true -> caseless c.
Proof.
  unfold is_digit, caseless. intros H. apply andb_true_iff in H.
  destruct H as [H1 H2]. apply Z.leb_le in H1. apply Z.leb_le in H2. lia.
Qed.

(** X15.  [normalizeDatetimeFunction] is idempotent: normalizing its
    result changes nothing, for every argument, when upper-casing leaves
    the capital letters, digits and punctuation of the ASCII range as
    they are.  On a string it returns the string, [CURRENT_TIMESTAMP], or
    [CURRENT_TIMESTAMP] followed by digits in parentheses. *)
Theorem normalizeDatetimeFunction_idempotent (v : value) :
  upper_keeps_caseless ->
  (r <- normalizeDatetimeFunction v ;; normalizeDatetimeFunction r)
  = normalizeDatetimeFunction v
  /\ (forall s, v = VStr s ->
        normalizeDatetimeFunction v = Ret v
        \/ normalizeDatetimeFunction v = Ret (VStr (str "CURRENT_TIMESTAMP"))
        \/ exists ds, Forall (fun c => is_digit c = true) ds /\ ds <> []
                      /\ normalizeDatetimeFunction v
                         = Ret (VStr (str "CURRENT_TIMESTAMP"
                                        ++ 40 :: ds ++ [41]))).
Proof.
  intros Hupper.
  assert (Hcanon : forall p,
             Forall caseless p ->
             match_precision (str "CURRENT_TIMESTAMP" ++ p) = match_precision p ->
             normalizeDatetimeFunction (VStr (str "CURRENT_TIMESTAMP" ++ p))
             = match match_precision p with
               | Some precision =>
                   Ret (VStr (str "CURRENT_TIMESTAMP" ++ precision))
               | None => Ret (VStr (str "CURRENT_TIMESTAMP"))
               end).
  { intros p Hp Hskip. unfold normalizeDatetimeFunction.
    change (truthy (VStr (str "CURRENT_TIMESTAMP" ++ p))) with true.
    cbn [negb]. rewrite Hupper.
    - rewrite contains_prefix. cbn [orb]. rewrite Hskip. reflexivity.
    - apply Forall_app. split; [|exact Hp].
      unfold caseless. repeat constructor; vm_compute; intuition discriminate. }
  assert (Hskip : forall p, match_precision (str "CURRENT_TIMESTAMP" ++ p)
                            = match_precision p).
  { intros p. apply match_precision_skip. vm_compute. intuition discriminate. }
  destruct v as [| |b|n|s|bytes|t|elems|props|ret];
    try (split; [reflexivity | intros s' [=]]).
  - (* a boolean *)
    destruct b; split; try reflexivity; intros s' [=].
  - (* a number *)
    unfold normalizeDatetimeFunction.
    destruct (truthy (VNum n)) eqn:E; cbn [negb bind]; rewrite ?E;
      cbn [negb]; (split; [reflexivity | intros s' [=]]).
  - (* a string *)
    destruct s as [|c s]; [split; [reflexivity|intros; left; reflexivity]|].
    assert (Hn : normalizeDatetimeFunction (VStr (c :: s))
                 = if contains (str "CURRENT_TIMESTAMP")
                        (StringToUpperCase (c :: s))
                      || contains (str "NOW") (StringToUpperCase (c :: s))
                   then match match_precision (c :: s) with
                        | Some precision =>
                            Ret (VStr (str "CURRENT_TIMESTAMP" ++ precision))
                        | None => Ret (VStr (str "CURRENT_TIMESTAMP"))
                        end
                   else Ret (VStr (c :: s))) by reflexivity.
    destruct (contains (str "CURRENT_TIMESTAMP") (StringToUpperCase (c :: s))
              || contains (str "NOW") (StringToUpperCase (c :: s))) eqn:Ef.
    + destruct (match_precision (c :: s)) as [p|] eqn:Ep.
      * destruct (match_precision_shape _ _ Ep) as (d & ds & -> & Hds).
        assert (Hagain :
                  normalizeDatetimeFunction
                    (VStr (str "CURRENT_TIMESTAMP" ++ 40 :: (d :: ds) ++ [41]))
                  = Ret (VStr (str "CURRENT_TIMESTAMP"
                                 ++ 40 :: (d :: ds) ++ [41]))).
        { rewrite Hcanon; [| |apply Hskip].
          - change (40 :: (d :: ds) ++ [41])
              with (40 :: (d :: ds) ++ 41 :: []).
            cbn [match_precision]. change (40 =? 40) with true. cbv iota.
            rewrite (take_digits_run _ [] Hds). reflexivity.
          - constructor; [unfold caseless; lia|].
            apply Forall_app. split.
            + eapply Forall_impl; [|exact Hds]. exact digit_caseless.
            + constructor; [unfold caseless; lia|constructor]. }
        rewrite Hn. split.
        -- cbn [bind]. exact Hagain.
        -- intros s' _. right. right. exists (d :: ds).
           split; [exact Hds|]. split; [discriminate|reflexivity].
      * assert (Hagain :
                  normalizeDatetimeFunction (VStr (str "CURRENT_TIMESTAMP"))
                  = Ret (VStr (str "CURRENT_TIMESTAMP"))).
        { pose proof (Hcanon [] (Forall_nil _) (Hskip [])) as H.
          rewrite app_nil_r in H. exact H. }
        rewrite Hn. split.
        -- cbn [bind]. exact Hagain.
        -- intros s' _. right. left. reflexivity.
    + rewrite Hn. split.
      * cbn [bind]. rewrite Hn. reflexivity.
      * intros s' _. left. reflexivity.
Qed.

End Defaults.

Lemma string_default_compared_unquoted_witness :
  normalizeDefault (engine := Reference.engine)
    (dateUtils := Reference.dateUtils) statusColumn
  = Ret (VStr (str "'active'")).
Proof.
  destruct (string_default_compared_unquoted (engine := Reference.engine)
              (dateUtils := Reference.dateUtils) statusColumn (str "active")
              eq_refl) as [H _].
  exact H.
Defined.

Lemma reference_upper_keeps_caseless :
  upper_keeps_caseless (engine := Reference.engine).
Proof.
  intros s Hs. cbn [StringToUpperCase Reference.engine].
  induction Hs as [|c s Hc _ IH]; [reflexivity|].
  cbn [List.map]. rewrite IH. f_equal. unfold Reference.upper_code.
  destruct ((97 <=? c) && (c <=? 122)) eqn:E; [|reflexivity].
  apply andb_true_iff in E. destruct E as [H1 H2].
  apply Z.leb_le in H1. apply Z.leb_le in H2. unfold caseless in Hc. lia.
Qed.

Lemma normalizeDatetimeFunction_idempotent_witness :
  (r <- normalizeDatetimeFunction (engine := Reference.engine)
          (VStr (str "now(3)")) ;;
   normalizeDatetimeFunction (engine := Reference.engine) r)
  = Ret (VStr (str "CURRENT_TIMESTAMP(3)")).
Proof.
  destruct (normalizeDatetimeFunction_idempotent (engine := Reference.engine)
              (VStr (str "now(3)")) reference_upper_keeps_caseless) as [H _].
  rewrite H. reflexivity.
Defined.

(** ** createGeneratedMap without an insert id, and the ids of a batch *)

Lemma get_own_filter (p : jsstring -> bool) (props : list (jsstring * value))
    (k : jsstring) :
  get_own (filter (fun entry => p (fst entry)) props) k
  = if p k then get_own props k else None.
Proof.
  induction props as [|[k0 x] props IH]; [destruct (p k); reflexivity|].
  cbn [filter fst get_own]. destruct (jsstring_eqb k0 k) eqn:E.
  - apply jsstring_eqb_eq in E. subst k0.
    destruct (p k) eqn:Ep.
    + cbn [get_own]. rewrite jsstring_eqb_refl. reflexivity.
    + rewrite IH. reflexivity.
  - destruct (p k0); [|exact IH].
    cbn [get_own]. rewrite E. exact IH.
Qed.

Section GeneratedValueEdges.
Context {engine : Engine} {ormUtils : OrmUtils} {metadataApi : Metadata}.

(** X16.  When the insert result carries no [insertId], the keys that
    name no column of the entity are ignored, wherever they stand among
    the others: the result for an insert result is the result for the
    same object without those keys.  When no key names a column the
    result is the empty map, not [undefined] as on the path of the
    insert id; this is the case of the empty insert result. *)
Theorem createGeneratedMap_unknown_keys (metadata : EntityMetadata)
    (entityIndex : number) :
  (forall props,
      get_prop (VObject props) (str "insertId") = VUndefined ->
      createGeneratedMap metadata (VObject props) entityIndex
      = createGeneratedMap metadata
          (VObject (filter (names_column metadata) props)) entityIndex)
  /\ (forall insertResult,
         truthy insertResult = true ->
         get_prop insertResult (str "insertId") = VUndefined ->
         (forall key, In key (keys (own_entries insertResult)) ->
                      findColumnWithDatabaseName metadata key = None) ->
         createGeneratedMap metadata insertResult entityIndex
         = Ret (VObject [])).
Proof.
  split.
  - intros props Hid.
    assert (Hfiltered :
              get_prop (VObject (filter (names_column metadata) props))
                (str "insertId") = VUndefined).
    { cbn [get_prop] in *.
      change (filter (names_column metadata) props)
        with (filter (fun entry =>
                        (fun key =>
                           match findColumnWithDatabaseName metadata key with
                           | Some _ => true
                           | None => false
                           end) (fst entry)) props).
      rewrite get_own_filter.
      destruct (findColumnWithDatabaseName metadata (str "insertId"));
        [exact Hid|reflexivity]. }
    unfold createGeneratedMap. rewrite Hid, Hfiltered.
    cbn [truthy negb strict_eq own_entries]. clear Hid Hfiltered.
    generalize (VObject []).
    induction props as [|[k x] props IH]; intros map; [reflexivity|].
    cbn [filter reduce fst snd]. unfold names_column at 1. cbn [fst].
    destruct (findColumnWithDatabaseName metadata k) as [column|] eqn:Ef.
    + cbn [reduce fst snd]. rewrite Ef.
      destruct (createValueMap column x) as [contribution|msg];
        [|reflexivity].
      cbn [bind]. destruct (mergeDeep map contribution) as [map'|msg];
        [|reflexivity].
      cbn [bind]. apply IH.
    + cbn [bind]. apply IH.
  - intros insertResult Ht Hid Hkeys. unfold createGeneratedMap.
    rewrite Ht, Hid. cbn [negb strict_eq].
    generalize (VObject []). unfold keys in Hkeys.
    induction (own_entries insertResult) as [|[k x] entries IH]; intros map.
    + reflexivity.
    + cbn [reduce fst snd]. rewrite (Hkeys k) by (left; reflexivity).
      cbn [bind]. apply IH. intros key Hin. apply Hkeys. right. exact Hin.
Qed.

(** X17.  The ids of a batch are exact and consecutive: when the insert
    id is truthy and prints as the decimal numeral of [id], the value of
    an increment column for the row at index [i] is the integer [id + i],
    as long as this is below 2^53; rows at different indices get
    different ids. *)
Theorem generatedValue_consecutive (insertResult : value)
    (generatedColumn : ColumnMetadata.t) (id : Z) :
  ColumnMetadata.generationStrategy generatedColumn = Some increment ->
  truthy (get_prop insertResult (str "insertId")) = true ->
  ToString (get_prop insertResult (str "insertId")) = decimal id ->
  0 <= id ->
  (forall i, 0 <= i -> id + i < 2 ^ 53 ->
             generatedValue insertResult (of_Z i) generatedColumn
             = VNum (of_Z (id + i)))
  /\ (forall i j, 0 <= i -> id + i < 2 ^ 53 -> 0 <= j -> id + j < 2 ^ 53 ->
                  i <> j ->
                  generatedValue insertResult (of_Z i) generatedColumn
                  <> generatedValue insertResult (of_Z j) generatedColumn).
Proof.
  intros Hs Ht Hprint Hid.
  assert (Hvalue : forall i, 0 <= i -> id + i < 2 ^ 53 ->
             generatedValue insertResult (of_Z i) generatedColumn
             = VNum (of_Z (id + i))).
  { intros i Hi Hsum. unfold generatedValue. rewrite Hs, Ht.
    cbn [strategy_is strategy_eqb andb]. unfold parseInt.
    rewrite Hprint, parseInt_string_decimal, add_small by lia. reflexivity. }
  split; [exact Hvalue|].
  intros i j Hi Hsi Hj Hsj Hij. rewrite (Hvalue i), (Hvalue j) by assumption.
  intros [= H].
  assert (He : exact_Z (of_Z (id + i)) = exact_Z (of_Z (id + j)))
    by (rewrite H; reflexivity).
  rewrite !exact_Z_of_Z in He by lia. injection He. lia.
Qed.

End GeneratedValueEdges.

Lemma createGeneratedMap_unknown_keys_witness :
  createGeneratedMap (engine := Reference.engine)
    (ormUtils := Reference.ormUtils) (metadataApi := Reference.metadataApi)
    idEntity
    (VObject [(str "affectedRows", VNum (of_Z 1)); (str "id", VNum (of_Z 7));
              (str "warningStatus", VNum (of_Z 0))]) (of_Z 0)
  = Ret (VObject [(str "id", VNum (of_Z 7))])
  /\ createGeneratedMap (engine := Reference.engine)
       (ormUtils := Reference.ormUtils) (metadataApi := Reference.metadataApi)
       idEntity (VObject [(str "affectedRows", VNum (of_Z 1))]) (of_Z 0)
     = Ret (VObject []).
Proof.
  destruct (createGeneratedMap_unknown_keys (engine := Reference.engine)
              (ormUtils := Reference.ormUtils)
              (metadataApi := Reference.metadataApi) idEntity (of_Z 0))
    as [Hignored Hnone].
  split.
  - rewrite Hignored by reflexivity. reflexivity.
  - apply Hnone; [reflexivity | reflexivity |].
    intros key [<- | []]. reflexivity.
Defined.

Lemma generatedValue_consecutive_witness :
  generatedValue (engine := Reference.engine) insertResult100s (of_Z 1) idColumn
  = VNum (of_Z 101).
Proof.
  destruct (generatedValue_consecutive (engine := Reference.engine)
              insertResult100s idColumn 100) as [H _];
    first [exact (H 1 ltac:(lia) ltac:(lia)) | reflexivity | lia].
Defined.

(** ** findChangedColumns and the live columns it reads *)

Lemma filterM_ext {A : Type} (f g : A -> outcome bool) (l : list A) :
  (forall x, In x l -> f x = g x) -> filterM f l = filterM g l.
Proof.
  induction l as [|x l IH]; intros H; [reflexivity|].
  cbn [filterM]. rewrite (H x) by (left; reflexivity).
  rewrite IH by (intros y Hy; apply H; right; exact Hy). reflexivity.
Qed.

Lemma find_filter {A : Type} (p q : A -> bool) (l : list A) :
  (forall x, p x = true -> q x = true) -> find p (filter q l) = find p l.
Proof.
  intros Hpq. induction l as [|x l IH]; [reflexivity|].
  cbn [filter find]. destruct (q x) eqn:Eq.
  - cbn [find]. rewrite IH. reflexivity.
  - destruct (p x) eqn:Ep; [|exact IH].
    rewrite (Hpq x Ep) in Eq. discriminate.
Qed.

Section SchemaDiffLive.
Context {engine : Engine} {dateUtils : DateUtils} {ormUtils : OrmUtils}.

(** X18.  [findChangedColumns] reads the live columns only through the
    names of the desired columns: the live columns whose name no desired
    column has can be removed from the live table, or added to it,
    without changing the result. *)
Theorem findChangedColumns_ignores_other_live_columns
    (tableColumns : list TableColumn.t) (columnMetadatas : list ColumnMetadata.t) :
  findChangedColumns (filter (named_by columnMetadatas) tableColumns)
    columnMetadatas
  = findChangedColumns tableColumns columnMetadatas.
Proof.
  unfold findChangedColumns. apply filterM_ext. intros cm Hcm.
  unfold isChangedIn. rewrite find_filter; [reflexivity|].
  intros tc Hname. unfold named_by. apply existsb_exists.
  exists cm. split; [exact Hcm|exact Hname].
Qed.

End SchemaDiffLive.

(** ** numberFromBitString: padding, collisions and overflow *)

Lemma big_endian_zeros (k : nat) (codes : list Z) :
  big_endian (repeat 0 k ++ codes) = big_endian codes.
Proof.
  induction k as [|k IH]; [reflexivity|].
  cbn [repeat app big_endian]. rewrite IH. lia.
Qed.

(** X20.  Zero bytes in front do not change the number decoded: a buffer
    of at most 128 bytes whose value is below 2^53 decodes to the same
    number with any count of zero bytes before it. *)
Theorem numberFromBitString_zero_padding (k : nat) (bytes : list byte) :
  (k + List.length bytes <= 128)%nat ->
  big_endian (List.map byte_to_Z bytes) < 2 ^ 53 ->
  NumberUtils.numberFromBitString (VBuffer (repeat x00%byte k ++ bytes))
  = NumberUtils.numberFromBitString (VBuffer bytes).
Proof.
  intros Hlen Hval.
  assert (Hpad : List.map byte_to_Z (repeat x00%byte k ++ bytes)
                 = repeat 0 k ++ List.map byte_to_Z bytes).
  { rewrite map_app, map_repeat. reflexivity. }
  rewrite !numberFromBitString_exact.
  - rewrite Hpad, big_endian_zeros. reflexivity.
  - lia.
  - exact Hval.
  - rewrite length_app, repeat_length. exact Hlen.
  - rewrite Hpad, big_endian_zeros. exact Hval.
Qed.

Lemma numberFromBitString_zero_padding_witness :
  NumberUtils.numberFromBitString (VBuffer [x00; x00; x01; x02]%byte)
  = NumberUtils.numberFromBitString (VBuffer [x01; x02]%byte).
Proof.
  apply (numberFromBitString_zero_padding 2 [x01; x02]%byte).
  - simpl. lia.
  - vm_compute. reflexivity.
Defined.

Lemma byte_to_Z_injective (a b : byte) : byte_to_Z a = byte_to_Z b -> a = b.
Proof.
  unfold byte_to_Z. intros H. apply N2Z.inj in H.
  assert (Ha : Byte.of_N (Byte.to_N a) = Some a) by apply Byte.of_to_N.
  assert (Hb : Byte.of_N (Byte.to_N b) = Some b) by apply Byte.of_to_N.
  rewrite H in Ha. rewrite Ha in Hb. injection Hb. auto.
Qed.

Lemma big_endian_injective (a b : list Z) :
  List.length a = List.length b ->
  Forall (fun c => 0 <= c < 256) a -> Forall (fun c => 0 <= c < 256) b ->
  big_endian a = big_endian b -> a = b.
Proof.
  revert b. induction a as [|x a IH]; intros [|y b] Hlen Ha Hb Heq;
    try discriminate; [reflexivity|].
  injection Hlen as Hlen.
  inversion Ha as [|? ? Hx Ha']; subst. inversion Hb as [|? ? Hy Hb']; subst.
  cbn [big_endian] in Heq. rewrite Hlen in Heq.
  pose proof (big_endian_bound a Ha') as Hba.
  pose proof (big_endian_bound b Hb') as Hbb.
  rewrite Hlen in Hba.
  set (w := 2 ^ (8 * Z.of_nat (List.length b))) in *.
  assert (Hw : 0 < w) by (apply Z.pow_pos_nonneg; lia).
  assert (Hxy : x = y) by nia.
  subst y. f_equal. apply IH; auto. lia.
Qed.

(** X21.  Buffers of the same length, of at most six bytes, that differ
    are decoded to different numbers: no two bit patterns of a column
    collide. *)
Theorem numberFromBitString_no_collision (a b : list byte) :
  List.length a = List.length b -> (List.length a <= 6)%nat -> a <> b ->
  NumberUtils.numberFromBitString (VBuffer a)
  <> NumberUtils.numberFromBitString (VBuffer b).
Proof.
  intros Hlen H6 Hab Heq.
  assert (Hrange : forall l : list byte,
             Forall (fun c => 0 <= c < 256) (List.map byte_to_Z l)).
  { intros l. apply Forall_forall. intros c Hc. apply in_map_iff in Hc.
    destruct Hc as (x & <- & _). apply byte_to_Z_range. }
  assert (Hsmall : forall l : list byte, (List.length l <= 6)%nat ->
             0 <= big_endian (List.map byte_to_Z l) < 2 ^ 53).
  { intros l Hl. pose proof (big_endian_bound _ (Hrange l)) as Hb.
    rewrite length_map in Hb.
    assert (2 ^ (8 * Z.of_nat (List.length l)) <= 2 ^ 48)
      by (apply Z.pow_le_mono_r; lia).
    assert (2 ^ 48 < 2 ^ 53) by reflexivity. lia. }
  rewrite !numberFromBitString_exact in Heq
    by (try lia; apply Hsmall; lia).
  assert (He : exact_Z (of_Z (big_endian (List.map byte_to_Z a)))
               = exact_Z (of_Z (big_endian (List.map byte_to_Z b))))
    by (rewrite Heq; reflexivity).
  rewrite !exact_Z_of_Z in He by (apply Hsmall; lia).
  injection He as He.
  apply big_endian_injective in He; auto; [|rewrite !length_map; exact Hlen].
  apply Hab. clear - He. revert b He.
  induction a as [|x a IH]; intros [|y b] He; try discriminate; [reflexivity|].
  cbn [List.map] in He. injection He as Hx He.
  f_equal; [apply byte_to_Z_injective; exact Hx | apply IH; exact He].
Qed.

Lemma numberFromBitString_no_collision_witness :
  NumberUtils.numberFromBitString (VBuffer [x00; x01]%byte)
  <> NumberUtils.numberFromBitString (VBuffer [x01; x00]%byte).
Proof.
  apply (numberFromBitString_no_collision [x00; x01]%byte [x01; x00]%byte).
  - reflexivity.
  - simpl. lia.
  - discriminate.
Defined.

Lemma pow2_overflow (n : Z) : 1024 <= n -> pow2 n = S754_infinity false.
Proof.
  intros Hn. unfold pow2, binary_normalize, binary_round, prec, emax.
  cbn [digits2_pos]. unfold fexp, SpecFloat.emin.
  replace (Z.max (1 + n - 53) (3 - 1024 - 53)) with (n - 52) by lia.
  unfold shl_align.
  replace (n - 52 - n) with (-52) by lia. cbv iota beta.
  change (Z.pos (Pos.iter xO 1%positive 52)) with 4503599627370496.
  unfold binary_round_aux, shr_fexp.
  change (Zdigits2 4503599627370496) with 53.
  unfold fexp, SpecFloat.emin.
  replace (Z.max (53 + (n - 52) - 53) (3 - 1024 - 53) - (n - 52)) with 0 by lia.
  cbn [shr shr_record_of_loc shr_m loc_of_shr_record round_nearest_even
       fst snd].
  change (Zdigits2 4503599627370496) with 53.
  replace (Z.max (53 + (n - 52) - 53) (3 - 1024 - 53) - (n - 52)) with 0 by lia.
  cbn [shr shr_m].
  replace (n - 52 <=? 1024 - 53) with false
    by (symmetry; apply Z.leb_gt; lia).
  reflexivity.
Qed.

Lemma add_nan_l (x : number) : add NaN x = NaN.
Proof. destruct x; reflexivity. Qed.

Lemma accumulate_nan (codes : list Z) : NumberUtils.accumulate codes NaN = NaN.
Proof.
  induction codes as [|c codes IH]; [reflexivity|].
  cbn [NumberUtils.accumulate]. rewrite add_nan_l. exact IH.
Qed.

(** X22.  Beyond 128 bytes a zero byte in front is not harmless: a buffer
    of 129 bytes or more that starts with a zero byte decodes to [NaN],
    whatever the other bytes are, because the weight of the first byte
    overflows to infinity. *)
Theorem numberFromBitString_long_buffer_nan (rest : list byte) :
  (128 <= List.length rest)%nat ->
  NumberUtils.numberFromBitString (VBuffer (x00%byte :: rest)) = NaN.
Proof.
  intros Hlen. cbn [NumberUtils.numberFromBitString List.map
                    NumberUtils.accumulate].
  rewrite pow2_overflow by (rewrite length_map; lia).
  change (add (of_Z 0) (mul (of_Z (byte_to_Z x00)) (S754_infinity false)))
    with NaN.
  apply accumulate_nan.
Qed.

Lemma numberFromBitString_long_buffer_nan_witness :
  NumberUtils.numberFromBitString (VBuffer (x00%byte :: repeat x01%byte 128))
  = NaN.
Proof.
  apply (numberFromBitString_long_buffer_nan (repeat x01%byte 128)).
  rewrite repeat_length. apply Nat.le_refl.
Defined.

(** ** The connection pool of the serverless driver *)

Lemma pop_snoc {A : Type} (l : list A) (x : A) : pop (l ++ [x]) = (Some x, l).
Proof.
  induction l as [|y l IH]; [reflexivity|].
  cbn [app pop]. rewrite IH. destruct (l ++ [x]) eqn:E; [|reflexivity].
  destruct l; discriminate.
Qed.

Section ConnectionPool.
Variable Connection : Type.
Variable connect : PlanetScaleServerlessDriver.Config -> Connection.

Let driver_t := PlanetScaleServerlessDriver.t Connection.
Let obtainConnections := PlanetScaleServerlessDriver.obtainConnections Connection connect.

(** X23.  The pool hands connections out last in, first out: after the
    connections [cs] have been released in that order, as many calls of
    [obtainConnection] return them in the reverse order, none is created,
    and the pool is as it was before the releases. *)
Theorem obtainConnections_released (driver : driver_t) (cs : list Connection) :
  obtainConnections (List.length cs) (releaseConnections driver cs)
  = (rev cs, driver).
Proof.
  unfold obtainConnections. revert driver.
  induction cs as [|c cs IH] using rev_ind; intros driver.
  - reflexivity.
  - unfold releaseConnections. rewrite fold_left_app, length_app, rev_app_distr.
    cbn [fold_left List.length rev app]. rewrite Nat.add_1_r.
    cbn [PlanetScaleServerlessDriver.obtainConnections].
    unfold PlanetScaleServerlessDriver.obtainConnection at 1.
    cbn [PlanetScaleServerlessDriver.releaseConnection
         PlanetScaleServerlessDriver.connectionPool
         PlanetScaleServerlessDriver.options].
    rewrite pop_snoc.
    fold (releaseConnections driver cs).
    assert (Hd : {| PlanetScaleServerlessDriver.options :=
                      PlanetScaleServerlessDriver.options
                        (releaseConnections driver cs);
                    PlanetScaleServerlessDriver.connectionPool :=
                      PlanetScaleServerlessDriver.connectionPool
                        (releaseConnections driver cs) |}
                 = releaseConnections driver cs)
      by (destruct (releaseConnections driver cs); reflexivity).
    rewrite Hd, IH. reflexivity.
Qed.

(** X24.  After [disconnect] the pool is empty and stays empty while
    connections are only obtained: each of [n] calls of
    [obtainConnection] creates a connection from the [url], [host],
    [username] and [password] of the options, and none of the
    connections released before the disconnect is handed out again. *)
Theorem obtainConnections_after_disconnect (driver : driver_t) (n : nat) :
  obtainConnections n (PlanetScaleServerlessDriver.disconnect driver)
  = (repeat
       (connect
          {| PlanetScaleServerlessDriver.url :=
               get_prop (PlanetScaleServerlessDriver.options driver) (str "url");
             PlanetScaleServerlessDriver.host :=
               get_prop (PlanetScaleServerlessDriver.options driver) (str "host");
             PlanetScaleServerlessDriver.username :=
               get_prop (PlanetScaleServerlessDriver.options driver)
                 (str "username");
             PlanetScaleServerlessDriver.password :=
               get_prop (PlanetScaleServerlessDriver.options driver)
                 (str "password") |}) n,
     PlanetScaleServerlessDriver.disconnect driver).
Proof.
  unfold obtainConnections. induction n as [|n IH]; [reflexivity|].
  cbn [PlanetScaleServerlessDriver.obtainConnections repeat].
  unfold PlanetScaleServerlessDriver.obtainConnection at 1.
  cbn [PlanetScaleServerlessDriver.disconnect
       PlanetScaleServerlessDriver.connectionPool pop
       PlanetScaleServerlessDriver.options].
  fold (PlanetScaleServerlessDriver.disconnect driver).
  rewrite IH. reflexivity.
Qed.

End ConnectionPool.

(** ** The data source of the command line *)

(** X25.  The data source of a command session is set once: after any
    sequence of assignments that starts from the unset field, the getter
    returns the data source of the first assignment, and every later
    assignment throws and changes nothing; before the first assignment
    the getter throws. *)
Theorem CommandDataSource_set_once {DataSource : Type}
    (first : DataSource) (others : list DataSource) :
  CommandDataSource.get_instance
    (after_sets (first :: others) CommandDataSource.initial)
  = Ret first
  /\ (forall dataSource,
        CommandDataSource.set_instance
          (after_sets (first :: others) CommandDataSource.initial) dataSource
        = Throw "DataSource already initialized! Only one datasource can be used per command session.")
  /\ CommandDataSource.get_instance (@CommandDataSource.initial DataSource)
     = Throw "DataSource not initialized!".
Proof.
  assert (H : after_sets (first :: others) CommandDataSource.initial
              = Some first).
  { unfold after_sets. cbn [fold_left].
    change (CommandDataSource.after_set CommandDataSource.initial first)
      with (Some first).
    induction others as [|d others IH]; [reflexivity|exact IH]. }
  rewrite H. repeat split.
Qed.

(** ** The mysql driver: packages and connection options *)

Section MysqlDriver.
Variable load : jsstring -> outcome value.
Variable buildDriverOptions : value -> value.

(** X26.  [loadDependencies] throws exactly when [mysql2] fails to load
    after [mysql] failed to load or was empty, and the error then names
    the package [mysql].  A package it returns is [mysql], loaded and not
    empty, or else whatever [mysql2] loaded as: an empty [mysql2] is
    accepted where an empty [mysql] is not.  When [mysql] is usable the
    result does not depend on [mysql2]. *)
Theorem loadDependencies_fallback :
  ((exists msg, PlanetScaleMysqlDriver.loadDependencies load = Throw msg)
   <-> (forall mysql, load (str "mysql") = Ret mysql ->
                      empty_package mysql = true)
       /\ exists msg, load (str "mysql2") = Throw msg)
  /\ (forall msg, PlanetScaleMysqlDriver.loadDependencies load = Throw msg ->
                  msg = "DriverPackageNotInstalledError: Mysql, mysql"%string)
  /\ (forall package,
         PlanetScaleMysqlDriver.loadDependencies load = Ret package ->
         (load (str "mysql") = Ret package /\ empty_package package = false)
         \/ load (str "mysql2") = Ret package)
  /\ (forall mysql, load (str "mysql") = Ret mysql ->
                    empty_package mysql = false ->
                    PlanetScaleMysqlDriver.loadDependencies load = Ret mysql).
Proof.
  assert (H : PlanetScaleMysqlDriver.loadDependencies load
              = match load (str "mysql") with
                | Ret mysql =>
                    if empty_package mysql
                    then match load (str "mysql2") with
                         | Ret mysql2 => Ret mysql2
                         | Throw _ =>
                             Throw "DriverPackageNotInstalledError: Mysql, mysql"
                         end
                    else Ret mysql
                | Throw _ =>
                    match load (str "mysql2") with
                    | Ret mysql2 => Ret mysql2
                    | Throw _ =>
                        Throw "DriverPackageNotInstalledError: Mysql, mysql"
                    end
                end).
  { unfold PlanetScaleMysqlDriver.loadDependencies, empty_package.
    change (jsstring_eqb (str "mysql") (str "mysql")) with true. cbv iota.
    destruct (load (str "mysql")) as [mysql|msg]; [|reflexivity].
    cbn [bind]. destruct (is_nullish mysql); [reflexivity|]. cbn [orb].
    destruct (Z.of_nat (List.length (keys (own_entries mysql))) =? 0);
      reflexivity. }
  rewrite H. clear H.
  destruct (load (str "mysql")) as [mysql|msg1];
    [destruct (empty_package mysql) eqn:Ee|];
    destruct (load (str "mysql2")) as [mysql2|msg2];
    (split; [split|split; [|split]]).
  all: try (intros [msg Hm]; discriminate).
  all: try (intros [_ [msg Hm]]; discriminate).
  all: try (intros msg [= <-]; reflexivity).
  all: try (intros msg Hm; discriminate).
  all: try (intros package [= <-]; auto; fail).
  all: try (intros package Hp; discriminate).
  all: try (intros m [= <-] He; congruence).
  all: try (intros m Hm; discriminate).
  all: try (intros _; split; [intros m [= <-]; assumption | eauto]; fail).
  all: try (intros _; split; [intros m Hm; discriminate | eauto]; fail).
  all: try (intros [Hall _]; specialize (Hall mysql eq_refl); congruence).
  all: intros _; eexists; reflexivity.
Qed.

End MysqlDriver.

Lemma get_own_replace_own (props : list (jsstring * value)) (k k' : jsstring)
    (v : value) :
  get_own props k <> None ->
  get_own (replace_own props k v) k'
  = if jsstring_eqb k k' then Some v else get_own props k'.
Proof.
  induction props as [|[k0 x] props IH]; intros Hk; [contradiction|].
  cbn [replace_own get_own] in *. destruct (jsstring_eqb k0 k) eqn:E0.
  - apply jsstring_eqb_eq in E0. subst k0. cbn [get_own].
    destruct (jsstring_eqb k k'); reflexivity.
  - cbn [get_own]. rewrite IH by exact Hk.
    destruct (jsstring_eqb k0 k') eqn:E1; [|reflexivity].
    apply jsstring_eqb_eq in E1. subst k0.
    destruct (jsstring_eqb k k') eqn:E2; [|reflexivity].
    apply jsstring_eqb_eq in E2. subst k'.
    rewrite jsstring_eqb_refl in E0. discriminate.
Qed.

Lemma get_own_add_own (props : list (jsstring * value)) (k k' : jsstring)
    (v : value) :
  get_own props k = None ->
  get_own (add_own props k v) k'
  = if jsstring_eqb k k' then Some v else get_own props k'.
Proof.
  induction props as [|[k0 x] props IH]; intros Hk; [reflexivity|].
  cbn [get_own] in Hk. destruct (jsstring_eqb k0 k) eqn:E0; [discriminate|].
  assert (Hstep : get_own ((k0, x) :: add_own props k v) k'
                  = if jsstring_eqb k k' then Some v
                    else get_own ((k0, x) :: props) k').
  { cbn [get_own]. rewrite IH by exact Hk.
    destruct (jsstring_eqb k0 k') eqn:E1; [|reflexivity].
    apply jsstring_eqb_eq in E1. subst k0.
    destruct (jsstring_eqb k k') eqn:E2; [|reflexivity].
    apply jsstring_eqb_eq in E2. subst k'.
    rewrite jsstring_eqb_refl in E0. discriminate. }
  cbn [add_own].
  destruct (array_index k) as [n|]; [|exact Hstep].
  destruct (array_index k0) as [m|]; [|reflexivity].
  destruct (m <? n); [exact Hstep|reflexivity].
Qed.

Lemma get_own_set_own (props : list (jsstring * value)) (k k' : jsstring)
    (v : value) :
  get_own (set_own props k v) k'
  = if jsstring_eqb k k' then Some v else get_own props k'.
Proof.
  unfold set_own. destruct (get_own props k) eqn:E.
  - apply get_own_replace_own. rewrite E. discriminate.
  - apply get_own_add_own. exact E.
Qed.

(** Assigning the properties of a source: a key of the source gets the
    value of the source, any other key keeps its value. *)
Lemma get_own_assign_absent (entries target : list (jsstring * value))
    (k : jsstring) :
  get_own entries k = None ->
  get_own (fold_left (fun t e => set_own t (fst e) (snd e)) entries target) k
  = get_own target k.
Proof.
  revert target. induction entries as [|[k1 v1] entries IH]; intros target H.
  - reflexivity.
  - cbn [get_own] in H. destruct (jsstring_eqb k1 k) eqn:E; [discriminate|].
    cbn [fold_left fst snd]. rewrite IH by exact H.
    rewrite get_own_set_own, E. reflexivity.
Qed.

Lemma get_own_assign_present (entries target : list (jsstring * value))
    (k : jsstring) (v : value) :
  NoDup (keys entries) -> get_own entries k = Some v ->
  get_own (fold_left (fun t e => set_own t (fst e) (snd e)) entries target) k
  = Some v.
Proof.
  revert target. induction entries as [|[k1 v1] entries IH];
    intros target Hd H; [discriminate|].
  cbn [keys List.map fst] in Hd. inversion Hd as [|? ? Hnotin Hd']; subst.
  cbn [get_own] in H. cbn [fold_left fst snd].
  destruct (jsstring_eqb k1 k) eqn:E.
  - injection H as <-. apply jsstring_eqb_eq in E. subst k1.
    rewrite get_own_assign_absent.
    + rewrite get_own_set_own, jsstring_eqb_refl. reflexivity.
    + destruct (get_own entries k) as [x|] eqn:Eg; [|reflexivity].
      exfalso. apply Hnotin. clear - Eg.
      induction entries as [|[k2 v2] entries IH]; [discriminate|].
      cbn [get_own] in Eg. cbn [List.map fst].
      destruct (jsstring_eqb k2 k) eqn:E2.
      * left. apply jsstring_eqb_eq. exact E2.
      * right. apply IH. exact Eg.
  - apply IH; assumption.
Qed.

Lemma Object_assign_last (target : list (jsstring * value))
    (sources : list value) (source : value) :
  Object_assign target (sources ++ [source])
  = fold_left (fun t e => set_own t (fst e) (snd e)) (own_entries source)
      (Object_assign target sources).
Proof. unfold Object_assign. rewrite fold_left_app. reflexivity. Qed.

Section MysqlOptions.
Variable buildDriverOptions : value -> value.

Let createConnectionOptions :=
  PlanetScaleMysqlDriver.createConnectionOptions buildDriverOptions.

(** X27.  What [extra] sets wins: every property of a truthy [extra]
    option is in the connection options with the value [extra] gives it,
    whatever the driver computed for that key; this holds for
    [insecureAuth], which the driver sets to [false], as for any other
    key. *)
Theorem createConnectionOptions_extra_wins (options credentials : value)
    (key : jsstring) (v : value) :
  truthy (get_prop options (str "extra")) = true ->
  NoDup (keys (own_entries (get_prop options (str "extra")))) ->
  get_own (own_entries (get_prop options (str "extra"))) key = Some v ->
  get_own (own_entries (createConnectionOptions options credentials)) key
  = Some v.
Proof.
  intros Ht Hd Hk. unfold createConnectionOptions,
    PlanetScaleMysqlDriver.createConnectionOptions.
  rewrite Ht. cbn [own_entries].
  match goal with
  | |- get_own (Object_assign [] [?a; ?b; ?c; ?d; ?e]) _ = _ =>
      change [a; b; c; d; e] with ([a; b; c; d] ++ [e])
  end.
  rewrite Object_assign_last. apply get_own_assign_present; assumption.
Qed.

(** X28.  Without an [extra] option that says otherwise the driver fills
    in the port and the encryption: the port is 3306 and [ssl] is [true]
    when the credentials give [null] or [undefined] for them, and a value
    the credentials give is kept, also the port [0] and [ssl: false];
    [insecureAuth] is [false]; the two options for big numbers are
    [false] unless set; and [acquireTimeout] is a key of the connection
    options only when the [mysql] options define it. *)
Theorem createConnectionOptions_defaults (options credentials : value) :
  truthy (get_prop options (str "extra")) = false ->
  let connection := createConnectionOptions options credentials in
  let merged :=
    VObject (Object_assign [] [credentials; buildDriverOptions credentials]) in
  let mysql := get_prop options (str "mysql") in
  get_prop connection (str "port")
  = nullish_or (get_prop merged (str "port")) (VNum (of_Z 3306))
  /\ get_prop connection (str "ssl")
     = nullish_or (get_prop merged (str "ssl")) (VBool true)
  /\ is_nullish (get_prop connection (str "port")) = false
  /\ is_nullish (get_prop connection (str "ssl")) = false
  /\ get_prop connection (str "insecureAuth") = VBool false
  /\ is_nullish (get_prop connection (str "supportBigNumbers")) = false
  /\ is_nullish (get_prop connection (str "bigNumberStrings")) = false
  /\ get_prop connection (str "connectionLimit")
     = get_prop options (str "poolSize")
  /\ (In (str "acquireTimeout") (keys (own_entries connection))
      <-> get_prop mysql (str "acquireTimeout") <> VUndefined).
Proof.
  intros Ht connection merged mysql. subst connection.
  unfold createConnectionOptions,
    PlanetScaleMysqlDriver.createConnectionOptions.
  rewrite Ht. fold merged. fold mysql.
  assert (Hn : forall a b, is_nullish (nullish_or a b) = is_nullish b
                           \/ is_nullish (nullish_or a b) = false).
  { intros a b. destruct a; cbn; auto. }
  generalize (get_prop merged (str "port")) (get_prop merged (str "ssl"))
             (get_prop merged (str "host")) (get_prop merged (str "username"))
             (get_prop merged (str "password"))
             (get_prop merged (str "database")).
  intros port ssl host username password database.
  generalize (get_prop mysql (str "charset")) (get_prop mysql (str "timezone"))
             (get_prop mysql (str "connectTimeout"))
             (get_prop mysql (str "supportBigNumbers"))
             (get_prop mysql (str "bigNumberStrings"))
             (get_prop mysql (str "dateStrings")) (get_prop mysql (str "debug"))
             (get_prop mysql (str "trace"))
             (get_prop mysql (str "multipleStatements"))
             (get_prop mysql (str "flags"))
             (get_prop mysql (str "acquireTimeout"))
             (get_prop options (str "poolSize")).
  intros charset timezone connectTimeout supportBigNumbers bigNumberStrings
    dateStrings debug trace multipleStatements flags acquireTimeout poolSize.
  assert (Hundef : strict_eq acquireTimeout VUndefined = true
                   <-> acquireTimeout = VUndefined).
  { destruct acquireTimeout; cbn; split; intros H; try discriminate;
      reflexivity. }
  destruct (strict_eq acquireTimeout VUndefined) eqn:Ea;
    match goal with
    | |- context [Object_assign [] ?sources] =>
        let assigned := eval vm_compute in (Object_assign [] sources) in
        replace (Object_assign [] sources) with assigned
          by (vm_compute; reflexivity)
    end.
  - repeat split; try (vm_compute; reflexivity).
    + destruct port; vm_compute; reflexivity.
    + destruct ssl; vm_compute; reflexivity.
    + destruct supportBigNumbers; vm_compute; reflexivity.
    + destruct bigNumberStrings; vm_compute; reflexivity.
    + intros Hin _. vm_compute in Hin. intuition discriminate.
    + intros Hne. exfalso. apply Hne. apply Hundef. reflexivity.
  - repeat split; try (vm_compute; reflexivity).
    + destruct port; vm_compute; reflexivity.
    + destruct ssl; vm_compute; reflexivity.
    + destruct supportBigNumbers; vm_compute; reflexivity.
    + destruct bigNumberStrings; vm_compute; reflexivity.
    + intros _ Hu. apply Hundef in Hu. discriminate.
    + intros _. vm_compute. repeat (first [left; reflexivity | right]).
Qed.

End MysqlOptions.

Lemma loadDependencies_fallback_witness :
  onlyMysql2 (str "mysql2") = Ret (VObject [(str "createPool", VFun VUndefined)]).
Proof.
  destruct (loadDependencies_fallback onlyMysql2) as (_ & _ & Hreturns & _).
  destruct (Hreturns (VObject [(str "createPool", VFun VUndefined)]) eq_refl)
    as [[Hmysql _] | Hmysql2]; [discriminate Hmysql | exact Hmysql2].
Defined.

Lemma createConnectionOptions_extra_wins_witness :
  get_own
    (own_entries
       (PlanetScaleMysqlDriver.createConnectionOptions nothingDerived
          sampleOptions sampleOptions))
    (str "insecureAuth")
  = Some (VBool true).
Proof.
  apply (createConnectionOptions_extra_wins nothingDerived sampleOptions
           sampleOptions (str "insecureAuth") (VBool true)).
  - reflexivity.
  - cbn. repeat constructor; cbn; intuition discriminate.
  - reflexivity.
Defined.

Lemma createConnectionOptions_defaults_witness :
  get_prop
    (PlanetScaleMysqlDriver.createConnectionOptions nothingDerived
       plainOptions plainOptions) (str "port")
  = VNum (of_Z 3306)
  /\ get_prop
       (PlanetScaleMysqlDriver.createConnectionOptions nothingDerived
          plainOptions plainOptions) (str "ssl")
     = VBool false.
Proof.
  destruct (createConnectionOptions_defaults nothingDerived plainOptions
              plainOptions eq_refl) as (Hport & Hssl & _).
  split; [rewrite Hport | rewrite Hssl]; reflexivity.
Defined.

(** ** compareDefaultValues as a relation *)

Lemma jsstring_eqb_sym (a b : jsstring) : jsstring_eqb a b = jsstring_eqb b a.
Proof.
  destruct (jsstring_eqb a b) eqn:E.
  - apply jsstring_eqb_eq in E. subst b. symmetry. apply jsstring_eqb_refl.
  - symmetry. apply jsstring_eqb_neq. apply jsstring_eqb_neq in E. congruence.
Qed.

Lemma num_eqb_sym (x y : number) : num_eqb x y = num_eqb y x.
Proof.
  unfold num_eqb, SFeqb, SFcompare.
  destruct x as [s1| s1| |s1 m1 e1], y as [s2| s2| |s2 m2 e2];
    try destruct s1; try destruct s2; try reflexivity.
  - rewrite (Z.compare_antisym e2 e1).
    destruct (e2 ?= e1); cbn [CompOpp]; try reflexivity.
    change (PosDef.Pos.compare_cont Eq m1 m2) with (m1 ?= m2)%positive.
    change (PosDef.Pos.compare_cont Eq m2 m1) with (m2 ?= m1)%positive.
    rewrite (Pos.compare_antisym m2 m1).
    destruct (m2 ?= m1)%positive; reflexivity.
  - rewrite (Z.compare_antisym e2 e1).
    destruct (e2 ?= e1); cbn [CompOpp]; try reflexivity.
    change (PosDef.Pos.compare_cont Eq m1 m2) with (m1 ?= m2)%positive.
    change (PosDef.Pos.compare_cont Eq m2 m1) with (m2 ?= m1)%positive.
    rewrite (Pos.compare_antisym m2 m1).
    destruct (m2 ?= m1)%positive; reflexivity.
Qed.

(** X29.  [compareDefaultValues] is symmetric on all values, and on
    strings it is an equivalence: a string default equals itself, and two
    defaults that equal a third equal each other.  The order in which the
    desired and the live default are given does not matter. *)
Theorem compareDefaultValues_equivalence :
  (forall a b, compareDefaultValues a b = compareDefaultValues b a)
  /\ (forall s, compareDefaultValues (VStr s) (VStr s) = true)
  /\ (forall r s t,
         compareDefaultValues (VStr r) (VStr s) = true ->
         compareDefaultValues (VStr s) (VStr t) = true ->
         compareDefaultValues (VStr r) (VStr t) = true).
Proof.
  split; [|split].
  - intros a b. destruct a, b; cbn [compareDefaultValues strict_eq];
      try reflexivity.
    + destruct b, b0; reflexivity.
    + apply num_eqb_sym.
    + apply jsstring_eqb_sym.
  - intros s. cbn [compareDefaultValues]. apply jsstring_eqb_refl.
  - intros r s t H1 H2. cbn [compareDefaultValues] in *.
    apply jsstring_eqb_eq in H1. apply jsstring_eqb_eq in H2.
    apply jsstring_eqb_eq. congruence.
Qed.

Lemma compareDefaultValues_equivalence_witness :
  compareDefaultValues (VStr (str "'a'")) (VStr (str "''a''")) = true.
Proof.
  destruct compareDefaultValues_equivalence as (_ & _ & Htrans).
  apply (Htrans (str "'a'") (str "a") (str "''a''")); reflexivity.
Defined.
